(** * griptape-mcp: the scrape-and-index pipeline and the query layer

    A shallow embedding of
      - scripts/scrape_common.py        (fetch_sitemap, fetch_pages,
                                         extract_mkdocs_content)
      - scripts/scrape_nodes_github.py  (parse_markdown, path_to_docs_url,
                                         extract_node_info, scrape)
      - scripts/scrape_framework.py, scripts/scrape_nodes.py
                                        (should_skip, extract_node_info,
                                         scrape)
      - src/griptape_mcp/db.py          (SCHEMA_SQL, search_pages,
                                         get_page_by_url, get_page_by_title,
                                         get_page_sections,
                                         get_page_code_examples, search_nodes,
                                         get_node_by_name,
                                         search_code_examples)
    followed by the properties of the specification that were checked
    against it, and by further properties of the code.

    Conventions.
      - A Python [str] is a [string] holding one [ascii] per code point, so
        the development covers texts over U+0000..U+00FF; the pilcrow
        U+00B6 is the character ["182"%char].
      - Python and SQLite integers are [Z].
      - [None] / SQL NULL is [option].
      - Libraries the code calls but does not contain (the HTML and XML
        parsers, the JSON encoder, the FTS5 tokenizer and ranking, the
        clock, the network) are parameters of the functions that use
        them. *)

From Stdlib Require Import ZArith Ascii String Lia Bool.
From Stdlib Require Import Numbers.DecimalString.
From stdpp Require Import base list strings gmap sorting.

Local Open Scope Z_scope.

(** ** Python string operations used by the scrapers *)

Module Py.

Definition code (c : ascii) : N := N_of_ascii c.

(** [str.isspace] for one code point, which is also the class [\s] of
    the [re] module on [str] patterns. *)
Definition is_space (c : ascii) : bool :=
  let n := code c in
  ((9 <=? n) && (n <=? 13) || (28 <=? n) && (n <=? 32)
   || (n =? 133) || (n =? 160))%N.

Definition ascii_eqb (a b : ascii) : bool := (code a =? code b)%N.

Fixpoint mem_char (c : ascii) (chars : string) : bool :=
  match chars with
  | EmptyString => false
  | String d rest => ascii_eqb c d || mem_char c rest
  end.

(** Drop the longest prefix whose characters satisfy [p]. *)
Fixpoint drop_while (p : ascii -> bool) (s : string) : string :=
  match s with
  | EmptyString => EmptyString
  | String c rest => if p c then drop_while p rest else s
  end.

Fixpoint take_while (p : ascii -> bool) (s : string) : string :=
  match s with
  | EmptyString => EmptyString
  | String c rest => if p c then String c (take_while p rest) else EmptyString
  end.

Definition drop_while_end (p : ascii -> bool) (s : string) : string :=
  String.rev (drop_while p (String.rev s)).

(** [s.lstrip()], [s.rstrip()], [s.strip()] *)
Definition lstrip (s : string) : string := drop_while is_space s.
Definition rstrip (s : string) : string := drop_while_end is_space s.
Definition strip (s : string) : string := rstrip (lstrip s).

(** [s.lstrip(chars)], [s.rstrip(chars)] *)
Definition lstrip_chars (chars s : string) : string :=
  drop_while (fun c => mem_char c chars) s.
Definition rstrip_chars (chars s : string) : string :=
  drop_while_end (fun c => mem_char c chars) s.

(** Truth value of a [str]. *)
Definition truthy (s : string) : bool :=
  match s with EmptyString => false | _ => true end.

(** [a or b] on strings. *)
Definition or_else (a b : string) : string := if truthy a then a else b.

(** [s.startswith(p)] *)
Fixpoint startswith (p s : string) : bool :=
  match p, s with
  | EmptyString, _ => true
  | String a p', String b s' => ascii_eqb a b && startswith p' s'
  | String _ _, EmptyString => false
  end.

(** [p in s] *)
Fixpoint contains (p s : string) : bool :=
  startswith p s ||
  match s with
  | EmptyString => false
  | String _ s' => contains p s'
  end.

Fixpoint drop (n : nat) (s : string) : string :=
  match n, s with
  | O, _ => s
  | S n', String _ s' => drop n' s'
  | S _, EmptyString => EmptyString
  end.

(** [s[:n]] for [n >= 0] *)
Fixpoint prefix (n : nat) (s : string) : string :=
  match n, s with
  | S n', String c s' => String c (prefix n' s')
  | _, _ => EmptyString
  end.

(** [s.split(sep)] for a one-character separator: the pieces, in order;
    the accumulator holds the current piece reversed. *)
Fixpoint split_go (sep : ascii) (cur : string) (s : string) : list string :=
  match s with
  | EmptyString => [String.rev cur]
  | String c rest =>
      if ascii_eqb c sep
      then String.rev cur :: split_go sep EmptyString rest
      else split_go sep (String c cur) rest
  end.
Definition split_on (sep : ascii) (s : string) : list string :=
  split_go sep EmptyString s.

(** [s.split()]: the maximal runs of non-whitespace characters. *)
Fixpoint words_go (cur : option string) (s : string) : list string :=
  match s with
  | EmptyString => option_list (String.rev <$> cur)
  | String c rest =>
      if is_space c
      then option_list (String.rev <$> cur) ++ words_go None rest
      else words_go (Some (String c (default EmptyString cur))) rest
  end.
Definition split_ws (s : string) : list string := words_go None s.

(** [sep.join(parts)] *)
Fixpoint join (sep : string) (parts : list string) : string :=
  match parts with
  | [] => EmptyString
  | [p] => p
  | p :: rest => p +:+ sep +:+ join sep rest
  end.

(** [s.replace(old, new)] for a non-empty [old]: leftmost,
    non-overlapping occurrences. [skip] counts the characters of a
    matched occurrence that are still to be passed over. *)
Fixpoint replace_go (old new : string) (skip : nat) (s : string) : string :=
  match s with
  | EmptyString => EmptyString
  | String c rest =>
      match skip with
      | S k => replace_go old new k rest
      | O =>
          if startswith old s
          then new +:+ replace_go old new (Nat.pred (String.length old)) rest
          else String c (replace_go old new O rest)
      end
  end.
Definition replace (old new s : string) : string := replace_go old new O s.

Fixpoint filter_chars (p : ascii -> bool) (s : string) : string :=
  match s with
  | EmptyString => EmptyString
  | String c rest =>
      if p c then String c (filter_chars p rest) else filter_chars p rest
  end.

Fixpoint map_chars (f : ascii -> ascii) (s : string) : string :=
  match s with
  | EmptyString => EmptyString
  | String c rest => String (f c) (map_chars f rest)
  end.

(** Upper-case letters of U+0000..U+00FF and their lower-case forms. *)
Definition is_upper (c : ascii) : bool :=
  let n := code c in
  ((65 <=? n) && (n <=? 90)
   || (192 <=? n) && (n <=? 222) && negb (n =? 215))%N.

Definition is_lower (c : ascii) : bool :=
  let n := code c in
  ((97 <=? n) && (n <=? 122) || (n =? 170) || (n =? 181) || (n =? 186)
   || (223 <=? n) && (n <=? 255) && negb (n =? 247))%N.

Definition is_cased (c : ascii) : bool := is_upper c || is_lower c.

Definition lower_char (c : ascii) : ascii :=
  if is_upper c then ascii_of_N (code c + 32) else c.

(** [s.lower()] *)
Definition lower (s : string) : string := map_chars lower_char s.

(** Title-case form of one character. U+00DF gives the two letters "Ss";
    U+00B5 and U+00FF have upper-case forms beyond U+00FF and are left
    as they are, so [title] is exact on every text in which no word
    starts with one of these two. *)
Definition title_char (c : ascii) : string :=
  let n := code c in
  if (n =? 223)%N then "Ss"
  else if ((97 <=? n) && (n <=? 122)
           || (224 <=? n) && (n <=? 254) && negb (n =? 247))%N
       then String (ascii_of_N (n - 32)) EmptyString
       else String c EmptyString.

(** [s.title()] *)
Fixpoint title_go (prev_cased : bool) (s : string) : string :=
  match s with
  | EmptyString => EmptyString
  | String c rest =>
      (if prev_cased then String (lower_char c) EmptyString else title_char c)
      +:+ title_go (is_cased c) rest
  end.
Definition title (s : string) : string := title_go false s.

(** The class [\w] of the [re] module on [str] patterns: alphanumeric
    code points and the underscore. *)
Definition is_word (c : ascii) : bool :=
  let n := code c in
  ((48 <=? n) && (n <=? 57) || (65 <=? n) && (n <=? 90)
   || (97 <=? n) && (n <=? 122) || (n =? 95)
   || (n =? 170) || (n =? 178) || (n =? 179) || (n =? 181)
   || (n =? 185) || (n =? 186) || (188 <=? n) && (n <=? 190)
   || (192 <=? n) && (n <=? 255) && negb (n =? 215) && negb (n =? 247))%N.

(** [str(n)] for an integer. *)
Definition str_of_Z (z : Z) : string := NilZero.string_of_int (Z.to_int z).

(** [l[:n]] on a list, for any integer [n]. *)
Definition slice_to {A} (l : list A) (n : Z) : list A :=
  if 0 <=? n then take (Z.to_nat n) l
  else take (Z.to_nat (Z.of_nat (length l) + n)) l.

End Py.

(** ** The intermediate record shared by both extractors *)

(** One entry of [data["sections"]]. *)
Record section := {
  heading : string;
  level : Z;
  content : string;
  anchor : string;
}.

(** One entry of [data["code_examples"]]. *)
Record code_example := {
  language : string;
  code : string;
  context : string;
}.

Definition set_content (c : string) (s : section) : section :=
  {| heading := heading s; level := level s; content := c; anchor := anchor s |}.

(** ** scripts/scrape_nodes_github.py: the markdown extractor *)

Module Markdown.

Definition nl : string := String "010"%char EmptyString.

Definition is_hash (c : ascii) : bool := Py.ascii_eqb c "#"%char.

(** [re.match(r"^(#{1,4})\s+(.+)", line)] on a line that holds no
    newline (lines come from [content.split("\n")]): groups 1 and 2.
    The run of [#] must be the whole leading run, since white space has
    to follow it. [\s+] is greedy, so group 2 starts at the first
    character that is not white space; when only white space follows the
    hashes, [\s+] gives its last character back to [.+]. *)
Definition heading_match (line : string) : option (string * string) :=
  let hashes := Py.take_while is_hash line in
  let n := String.length hashes in
  if ((1 <=? n) && (n <=? 4))%nat then
    let rest := Py.drop n line in
    let ws := Py.take_while Py.is_space rest in
    match ws, Py.drop_while Py.is_space rest with
    | EmptyString, _ => None
    | String _ _, String c r => Some (hashes, String c r)
    | String _ _, EmptyString =>
        match String.rev ws with
        | String c (String _ _) => Some (hashes, String c EmptyString)
        | _ => None
        end
    end
  else None.

(** [re.sub(r"[^\w\s-]", "", heading_text.lower()).replace(" ", "-")] *)
Definition anchor_of (heading_text : string) : string :=
  Py.replace " " "-"
    (Py.filter_chars
       (fun c => Py.is_word c || Py.is_space c || Py.ascii_eqb c "-"%char)
       (Py.lower heading_text)).

(** The local variables of [parse_markdown]. [current_section] is the
    dict that was appended last to [sections]; the two names alias one
    object, so it is kept as a position in [sections]. *)
Record state := {
  title : string;
  sections : list section;
  code_examples : list code_example;
  current_section : option nat;
  in_code_block : bool;
  code_lang : string;
  code_lines : list string;
  text_parts : list string;
}.

Definition init : state :=
  {| title := ""; sections := []; code_examples := [];
     current_section := None; in_code_block := false; code_lang := "";
     code_lines := []; text_parts := [] |}.

(** [if current_section and text_parts:
       current_section["content"] = "\n".join(text_parts).strip()] *)
Definition save_section (st : state) : list section :=
  match current_section st, text_parts st with
  | Some i, _ :: _ =>
      alter (set_content (Py.strip (Py.join nl (text_parts st)))) i
            (sections st)
  | _, _ => sections st
  end.

(** The context of a code block: the heading of the open section. *)
Definition current_heading (st : state) : string :=
  match current_section st with
  | Some i => default "" (heading <$> sections st !! i)
  | None => ""
  end.

(** The language named after an opening fence. *)
Definition fence_lang (line : string) : string :=
  let t := Py.strip (Py.lstrip_chars "`" line) in
  if Py.truthy t then default "" (head (Py.split_ws t)) else "python".

(** One iteration of [for line in lines]. *)
Definition step (st : state) (line : string) : state :=
  if Py.startswith "```" line then
    if in_code_block st then
      let code_text := Py.join nl (code_lines st) in
      {| title := title st; sections := sections st;
         code_examples :=
           if Py.truthy (Py.strip code_text)
           then code_examples st ++
                [{| language := Py.or_else (code_lang st) "python";
                    code := code_text;
                    context := current_heading st |}]
           else code_examples st;
         current_section := current_section st;
         in_code_block := false; code_lang := code_lang st;
         code_lines := []; text_parts := text_parts st |}
    else
      {| title := title st; sections := sections st;
         code_examples := code_examples st;
         current_section := current_section st;
         in_code_block := true; code_lang := fence_lang line;
         code_lines := code_lines st; text_parts := text_parts st |}
  else if in_code_block st then
    {| title := title st; sections := sections st;
       code_examples := code_examples st;
       current_section := current_section st;
       in_code_block := true; code_lang := code_lang st;
       code_lines := code_lines st ++ [line]; text_parts := text_parts st |}
  else
    match heading_match line with
    | Some (hashes, text) =>
        let lvl := Z.of_nat (String.length hashes) in
        let heading_text := Py.strip text in
        if (lvl =? 1) && negb (Py.truthy (title st)) then
          {| title := heading_text; sections := sections st;
             code_examples := code_examples st;
             current_section := current_section st;
             in_code_block := false; code_lang := code_lang st;
             code_lines := code_lines st; text_parts := text_parts st |}
        else
          let saved := save_section st in
          {| title := title st;
             sections :=
               saved ++ [{| heading := heading_text; level := lvl;
                            content := "";
                            anchor := anchor_of heading_text |}];
             code_examples := code_examples st;
             current_section := Some (length saved);
             in_code_block := false; code_lang := code_lang st;
             code_lines := code_lines st; text_parts := [] |}
    | None =>
        {| title := title st; sections := sections st;
           code_examples := code_examples st;
           current_section := current_section st;
           in_code_block := false; code_lang := code_lang st;
           code_lines := code_lines st;
           text_parts := text_parts st ++ [line] |}
    end.

(** The dict [parse_markdown] returns. *)
Record parsed := {
  p_title : string;
  p_content_text : string;
  p_sections : list section;
  p_code_examples : list code_example;
}.

Definition scan (lines : list string) : state := foldl step init lines.

Definition parse_markdown (content : string) : parsed :=
  let st := scan (Py.split_on "010"%char content) in
  {| p_title := title st;
     p_content_text := content;
     p_sections := save_section st;
     p_code_examples := code_examples st |}.

End Markdown.

(** ** scripts/scrape_common.py: the HTML extractor *)

Module Html.

(** The value of an attribute in the parsed tree: a string, or a list of
    tokens for the multi-valued attributes such as [class]. *)
Inductive attr_value :=
| AStr (s : string)
| AList (l : list string).

(** The parsed document. [Text] is a navigable string; [Tag] an
    element with its name, attributes and children in document order.
    Comments and the contents of script and style elements are no text
    of [get_text] and are not part of the tree. *)
#[warnings="-register-all"]
Inductive node :=
| Text (s : string)
| Tag (name : string) (attrs : list (string * attr_value))
      (children : list node).

Definition name_of (n : node) : option string :=
  match n with Text _ => None | Tag nm _ _ => Some nm end.

Definition has_name (names : list string) (n : node) : bool :=
  match n with
  | Text _ => false
  | Tag nm _ _ => bool_decide (nm ∈ names)
  end.

Fixpoint assoc (key : string) (attrs : list (string * attr_value))
  : option attr_value :=
  match attrs with
  | [] => None
  | (k, v) :: rest => if bool_decide (k = key) then Some v else assoc key rest
  end.

Definition get_attr (key : string) (n : node) : option attr_value :=
  match n with
  | Text _ => None
  | Tag _ attrs _ => assoc key attrs
  end.

(** [el.get("class", [])] as the loop [for cls in classes] sees it: a
    string is iterated character by character. *)
Fixpoint chars (s : string) : list string :=
  match s with
  | EmptyString => []
  | String c rest => String c EmptyString :: chars rest
  end.

Definition get_class (n : node) : list string :=
  match get_attr "class" n with
  | Some (AList l) => l
  | Some (AStr s) => chars s
  | None => []
  end.

(** [el.get("id", "")]; the parser never makes a list of [id]. *)
Definition get_id (n : node) : string :=
  match get_attr "id" n with
  | Some (AStr s) => s
  | Some (AList l) => Py.join " " l
  | None => ""
  end.

(** The selector [.cls] *)
Definition has_class (cls : string) (n : node) : bool :=
  match n with
  | Text _ => false
  | Tag _ _ _ =>
      match get_attr "class" n with
      | Some (AList l) => bool_decide (cls ∈ l)
      | Some (AStr s) => bool_decide (cls ∈ Py.split_ws s)
      | None => false
      end
  end.

(** The selector [nav[aria-label='Breadcrumb']] *)
Definition is_breadcrumb_nav (n : node) : bool :=
  has_name ["nav"] n &&
  match get_attr "aria-label" n with
  | Some (AStr s) => bool_decide (s = "Breadcrumb")
  | _ => false
  end.

(** All strings below a node, in document order. *)
Fixpoint strings_of (n : node) : list string :=
  match n with
  | Text s => [s]
  | Tag _ _ kids => flat_map strings_of kids
  end.

(** [el.get_text(separator=sep, strip=True)]: every string stripped, the
    empty ones left out. *)
Definition get_text_strip (sep : string) (n : node) : string :=
  Py.join sep (filter (fun s => Py.truthy s = true)
                      (Py.strip <$> strings_of n)).

(** [el.get_text()] *)
Definition get_text (n : node) : string := Py.join "" (strings_of n).

(** [el.find_all(...)]: the descendants that satisfy [p], in document
    order. *)
Fixpoint find_all (p : node -> bool) (n : node) : list node :=
  match n with
  | Text _ => []
  | Tag _ _ kids =>
      flat_map (fun k => (if p k then [k] else []) ++ find_all p k) kids
  end.

(** [el.find(...)], [soup.select_one(...)]: the first such descendant. *)
Definition find (p : node -> bool) (n : node) : option node :=
  head (find_all p n).

Definition pilcrow : string := String "182"%char EmptyString.

(** [el.get_text(strip=True).rstrip("¶").strip()] *)
Definition clean_text (n : node) : string :=
  Py.strip (Py.rstrip_chars pilcrow (get_text_strip "" n)).

(** [heading.find_next_siblings()] keeps the elements among the nodes
    that follow the heading under its parent; strings are left out. *)
Definition is_tag (n : node) : bool :=
  match n with Text _ => false | Tag _ _ _ => true end.

(** The inner loop of the section scan: the text of the sibling
    elements up to the first one that is a heading h1..h4. *)
Fixpoint section_parts (siblings : list node) : list string :=
  match siblings with
  | [] => []
  | sib :: rest =>
      if has_name ["h1"; "h2"; "h3"; "h4"] sib then []
      else get_text_strip Markdown.nl sib :: section_parts rest
  end.

(** [int(heading.name[1])] for h2, h3, h4. *)
Definition heading_level (n : node) : Z :=
  match name_of n with
  | Some "h2" => 2
  | Some "h3" => 3
  | Some "h4" => 4
  | _ => 0
  end.

(** The dict appended for one heading, given the nodes that follow it
    under the same parent. *)
Definition make_section (h : node) (following : list node) : section :=
  {| heading := clean_text h;
     level := heading_level h;
     content := Py.join Markdown.nl (section_parts (filter (fun n => is_tag n = true) following));
     anchor := get_id h |}.

(** [for heading in content_el.find_all(["h2", "h3", "h4"])]: the
    headings below [n] in document order, each with its following
    siblings. *)
Fixpoint extract_sections (n : node) : list section :=
  match n with
  | Text _ => []
  | Tag _ _ kids =>
      (fix go (l : list node) : list section :=
         match l with
         | [] => []
         | k :: rest =>
             (if has_name ["h2"; "h3"; "h4"] k
              then [make_section k rest] else [])
             ++ extract_sections k ++ go rest
         end) kids
  end.

(** The language of a code block: the first class that starts with
    [language-], or matches [highlight-(\w+)], decides. *)
Fixpoint detect_language (classes : list string) : string :=
  match classes with
  | [] => "text"
  | cls :: rest =>
      if Py.startswith "language-" cls then Py.replace "language-" "" cls
      else if Py.startswith "highlight-" cls
              && Py.truthy (Py.take_while Py.is_word (Py.drop 10 cls))
           then Py.take_while Py.is_word (Py.drop 10 cls)
           else detect_language rest
  end.

(** State of the walk that produces the code examples: the last
    p/h2/h3/h4 element seen so far in the whole document (what
    [pre.find_previous] returns), whether the content element has been
    met, and the examples so far. *)
Record walk_state := {
  prev : option node;
  found : bool;
  examples : list code_example;
}.

Definition example_of (prev_el : option node) (pre : node)
  : list code_example :=
  match find (has_name ["code"]) pre with
  | None => []
  | Some code_el =>
      let code_text := get_text code_el in
      if Py.truthy (Py.strip code_text) then
        [{| language := detect_language (get_class code_el);
            code := Py.strip code_text;
            context := match prev_el with
                       | Some p => clean_text p
                       | None => ""
                       end |}]
      else []
  end.

(** Document-order walk. [sel] picks the content element (the first
    node that satisfies it); [inside] holds below it. *)
Fixpoint walk (sel : node -> bool) (inside : bool) (st : walk_state)
         (n : node) : walk_state :=
  match n with
  | Text _ => st
  | Tag _ _ kids =>
      let is_content := negb (found st) && sel n in
      let st' :=
        {| prev := if has_name ["p"; "h2"; "h3"; "h4"] n
                   then Some n else prev st;
           found := found st || is_content;
           examples := if inside && has_name ["pre"] n
                       then examples st ++ example_of (prev st) n
                       else examples st |} in
      (fix go (s : walk_state) (l : list node) : walk_state :=
         match l with
         | [] => s
         | k :: rest => go (walk sel (inside || is_content) s k) rest
         end) st' kids
  end.

(** The walk over a whole document. The document object itself is no
    candidate for the content element (selectors look at what lies
    below it), but it does precede everything else. *)
Definition walk_document (sel : node -> bool) (soup : node) : walk_state :=
  match soup with
  | Text _ => {| prev := None; found := false; examples := [] |}
  | Tag _ _ kids =>
      foldl (walk sel false)
            {| prev := if has_name ["p"; "h2"; "h3"; "h4"] soup
                       then Some soup else None;
               found := false; examples := [] |}
            kids
  end.

(** The dict [extract_mkdocs_content] returns. *)
Record extracted := {
  e_title : string;
  e_content_text : string;
  e_content_html : string;
  e_breadcrumbs : list string;
  e_sections : list section;
  e_code_examples : list code_example;
}.

(** The selector of the main content area that applies to a document:
    the first of the three that matches anything. *)
Definition content_selector (soup : node) : option (node -> bool) :=
  if bool_decide (is_Some (find (has_class "md-content__inner") soup))
  then Some (has_class "md-content__inner")
  else if bool_decide (is_Some (find (has_class "md-content") soup))
  then Some (has_class "md-content")
  else if bool_decide (is_Some (find (has_name ["article"]) soup))
  then Some (has_name ["article"])
  else None.

(** [extract_mkdocs_content], from the parsed document on. [to_html] is
    [str(content_el)], the serialisation of the parser library. *)
Definition extract_soup (to_html : node -> string) (soup : node)
  : extracted :=
  let title :=
    match find (has_name ["h1"]) soup with
    | Some h1 => clean_text h1
    | None => Py.strip (Py.rstrip_chars pilcrow "")
    end in
  match content_selector soup with
  | None =>
      {| e_title := title; e_content_text := ""; e_content_html := "";
         e_breadcrumbs := []; e_sections := []; e_code_examples := [] |}
  | Some sel =>
      match find sel soup with
      | None =>
          {| e_title := title; e_content_text := ""; e_content_html := "";
             e_breadcrumbs := []; e_sections := [];
             e_code_examples := [] |}
      | Some content_el =>
          let crumb_nav :=
            match find (has_class "md-breadcrumb") soup with
            | Some n => Some n
            | None => find is_breadcrumb_nav soup
            end in
          {| e_title := title;
             e_content_text := get_text_strip Markdown.nl content_el;
             e_content_html := to_html content_el;
             e_breadcrumbs :=
               match crumb_nav with
               | Some nav =>
                   get_text_strip "" <$> find_all (has_name ["a"]) nav
               | None => []
               end;
             e_sections := extract_sections content_el;
             e_code_examples :=
               examples (walk sel false
                           {| prev := None; found := false;
                              examples := [] |} soup) |}
      end
  end.

(** [extract_mkdocs_content(html)]: [parse] is
    [BeautifulSoup(html, "lxml")]. *)
Definition extract_mkdocs_content (parse : string -> node)
           (to_html : node -> string) (html : string) : extracted :=
  extract_soup to_html (parse html).

End Html.

(** ** scripts/scrape_common.py: the rate-limited fetcher *)

Module Fetch.

Definition MAX_CONCURRENT : Z := 3.
Definition REQUEST_DELAY : Z := 1.
Definition MAX_RETRIES : nat := 5.
Definition MAX_RESPONSE_SIZE : Z := 10000000.

(** What [int(resp.headers.get("content-length", 0))] makes of the
    header: [None] when it is absent (the default 0 is used), [inl n]
    when [int] returns [n], [inr r] when [int] raises [ValueError]; [r]
    is the quoted header text that ends the message of the error. *)
Definition declared_length : Type := option (Z + string).

(** A response of [client.get]. [status_error] is [str(e)] of the
    [HTTPStatusError] that [raise_for_status()] raises for it when the
    status is not a success. *)
Record response := {
  status_code : Z;
  status_error : string;
  content_length : declared_length;
  text : string;
}.

(** The exceptions the [try] block tells apart, with [str(e)]. *)
Inductive exception :=
| HTTPStatusError (status : Z) (msg : string)
| OtherException (msg : string).

(** One call of [client.get]. *)
Inductive outcome :=
| Returns (r : response)
| Raises (e : exception).

(** The dict [fetch_one] returns. *)
Record result := {
  url : string;
  html : option string;
  error : option string;
}.

(** What a fetch does besides returning: requests and sleeps (in
    seconds), in order. *)
Inductive event :=
| Get (attempt : Z)
| Sleep (seconds : Z).

Definition failed (u msg : string) : result :=
  {| url := u; html := None; error := Some msg |}.

(** [resp.is_success] *)
Definition is_success (status : Z) : bool :=
  (200 <=? status) && (status <=? 299).

Definition too_large (n : Z) : string :=
  "Response too large (" +:+ Py.str_of_Z n +:+ " bytes)".

Definition value_error (quoted : string) : string :=
  "invalid literal for int() with base 10: " +:+ quoted.

(** The body of [try] once a response that is not a 429 has arrived and
    [raise_for_status()] has passed. *)
Definition accept (u : string) (r : response) : result * list event :=
  match content_length r with
  | Some (inr quoted) => (failed u (value_error quoted), [])
  | declared =>
      let n := match declared with Some (inl n) => n | _ => 0 end in
      if MAX_RESPONSE_SIZE <? n then (failed u (too_large n), [])
      else
        let len := Z.of_nat (String.length (text r)) in
        if MAX_RESPONSE_SIZE <? len then (failed u (too_large len), [])
        else ({| url := u; html := Some (text r); error := None |},
              [Sleep REQUEST_DELAY])
  end.

(** [for attempt in range(MAX_RETRIES)], from [attempt] on, with
    [remaining] iterations left. [net k] is what the [k]-th request of
    this task meets. *)
Fixpoint attempts (net : nat -> outcome) (u : string)
         (attempt remaining : nat) : result * list event :=
  match remaining with
  | O => (failed u "Max retries exceeded (429)", [])
  | S remaining' =>
      let wait := 10 * (Z.of_nat attempt + 1) in
      let retry :=
        let '(res, evs) := attempts net u (S attempt) remaining' in
        (res, Get (Z.of_nat attempt) :: Sleep wait :: evs) in
      let stop (re : result * list event) :=
        (re.1, Get (Z.of_nat attempt) :: re.2) in
      match net attempt with
      | Returns r =>
          if status_code r =? 429 then retry
          else if is_success (status_code r) then stop (accept u r)
          else
            (* raise_for_status() raises HTTPStatusError *)
            if (status_code r =? 429)
               && bool_decide (attempt < MAX_RETRIES - 1)%nat
            then retry
            else stop (failed u (status_error r), [])
      | Raises (HTTPStatusError st msg) =>
          if (st =? 429) && bool_decide (attempt < MAX_RETRIES - 1)%nat
          then retry
          else stop (failed u msg, [])
      | Raises (OtherException msg) => stop (failed u msg, [])
      end
  end.

Definition fetch_one (net : nat -> outcome) (u : string)
  : result * list event :=
  attempts net u 0 MAX_RETRIES.

(** [fetch_pages(urls)]: [asyncio.gather] returns the results of the
    tasks in the order of [urls]. [net i] is the network as the task of
    the [i]-th URL meets it. The semaphore bounds how many tasks are in
    flight and has no part in what a task returns. *)
Definition fetch_pages (net : nat -> nat -> outcome) (urls : list string)
  : list result :=
  imap (fun i u => (fetch_one (net i) u).1) urls.

(** The requests and sleeps of the task of the [i]-th URL. *)
Definition task_events (net : nat -> nat -> outcome) (i : nat) (u : string)
  : list event :=
  (fetch_one (net i) u).2.

Definition gets (evs : list event) : list Z :=
  omap (fun e => match e with Get a => Some a | Sleep _ => None end) evs.

Definition sleeps (evs : list event) : list Z :=
  omap (fun e => match e with Sleep s => Some s | Get _ => None end) evs.

End Fetch.

(** ** src/griptape_mcp/db.py: the schema, as SQLite executes it *)

Module Db.

(** Rows of the four tables. The columns hold what the scrapers bind to
    them: [str] values are strings, [None] is possible where a scraper
    passes it. *)
Record page_row := {
  page_id : Z;
  page_url : string;
  page_source : string;
  page_title : string;
  page_content : string;
  page_content_html : string;
  page_breadcrumbs : string;
  page_last_modified : option string;
  page_crawled_at : string;
}.

Record section_row := {
  sec_id : Z;
  sec_page_id : Z;
  sec_heading : string;
  sec_level : Z;
  sec_content : string;
  sec_anchor : string;
}.

Record example_row := {
  ex_id : Z;
  ex_page_id : Z;
  ex_section_id : option Z;
  ex_language : string;
  ex_code : string;
  ex_context : string;
}.

Record node_row := {
  node_id : Z;
  node_name : string;
  node_display_name : string;
  node_category : string;
  node_description : option string;
  node_page_id : option Z;
}.

(** One document of a full-text index: the rowid and the two indexed
    columns, as the triggers hand them over. *)
Record fts_doc := {
  rowid : Z;
  col_a : string;
  col_b : string;
}.

Global Instance fts_doc_eq_dec : EqDecision fts_doc.
Proof. solve_decision. Defined.

(** A connection: the two pragmas that change how writes behave, the
    tables, the two FTS5 indexes and the AUTOINCREMENT counters of
    [sqlite_sequence]. *)
Record conn := {
  foreign_keys : bool;
  recursive_triggers : bool;
  pages : list page_row;
  sections : list section_row;
  code_examples : list example_row;
  nodes : list node_row;
  pages_fts : list fts_doc;
  sections_fts : list fts_doc;
  seq_pages : Z;
  seq_sections : Z;
  seq_code_examples : Z;
  seq_nodes : Z;
}.

(** The database [init_db] leaves behind, opened the way the scrapers
    open it: [PRAGMA foreign_keys=ON]; [recursive_triggers] is never
    set and keeps SQLite's default, off. *)
Definition empty : conn :=
  {| foreign_keys := true; recursive_triggers := false;
     pages := []; sections := []; code_examples := []; nodes := [];
     pages_fts := []; sections_fts := [];
     seq_pages := 0; seq_sections := 0; seq_code_examples := 0;
     seq_nodes := 0 |}.

(** *** The full-text indexes and their triggers *)

(** [INSERT INTO t_fts(rowid, a, b) VALUES (...)] *)
Definition fts_insert (d : fts_doc) (idx : list fts_doc) : list fts_doc :=
  idx ++ [d].

(** [INSERT INTO t_fts(t_fts, rowid, a, b) VALUES ('delete', ...)]: the
    entry with this rowid and these values leaves the index. *)
Fixpoint fts_delete (d : fts_doc) (idx : list fts_doc) : list fts_doc :=
  match idx with
  | [] => []
  | e :: rest => if bool_decide (e = d) then rest else e :: fts_delete d rest
  end.

Definition page_doc (p : page_row) : fts_doc :=
  {| rowid := page_id p; col_a := page_title p; col_b := page_content p |}.

Definition section_doc (s : section_row) : fts_doc :=
  {| rowid := sec_id s; col_a := sec_heading s; col_b := sec_content s |}.

(** Triggers [pages_ai], [pages_ad], [pages_au] on the index. *)
Definition pages_ai (new : page_row) (idx : list fts_doc) :=
  fts_insert (page_doc new) idx.
Definition pages_ad (old : page_row) (idx : list fts_doc) :=
  fts_delete (page_doc old) idx.
Definition pages_au (old new : page_row) (idx : list fts_doc) :=
  fts_insert (page_doc new) (fts_delete (page_doc old) idx).

(** Triggers [sections_ai], [sections_ad], [sections_au]. *)
Definition sections_ai (new : section_row) (idx : list fts_doc) :=
  fts_insert (section_doc new) idx.
Definition sections_ad (old : section_row) (idx : list fts_doc) :=
  fts_delete (section_doc old) idx.
Definition sections_au (old new : section_row) (idx : list fts_doc) :=
  fts_insert (section_doc new) (fts_delete (section_doc old) idx).

(** *** Statements *)

Definition max_id (ids : list Z) : Z := foldr Z.max 0 ids.

(** The rowid an AUTOINCREMENT table gives a new row: one more than the
    largest rowid it has ever held. *)
Definition next_id (ids : list Z) (seq : Z) : Z := Z.max (max_id ids) seq + 1.

Definition has_page (c : conn) (pid : Z) : bool :=
  bool_decide (pid ∈ page_id <$> pages c).

Definition has_section (c : conn) (sid : Z) : bool :=
  bool_decide (sid ∈ sec_id <$> sections c).

(** Removing the page rows [old] from the database, as REPLACE does
    before it inserts. With [foreign_keys] on, the referential actions
    run: sections and code examples of the page are deleted (ON DELETE
    CASCADE; the deletes of sections fire [sections_ad]), section links
    to deleted sections and node links to the page are set to NULL. The
    delete trigger of [pages] itself fires only under
    [recursive_triggers]. *)
Definition replace_delete (c : conn) (old : list page_row) : conn :=
  let old_ids := page_id <$> old in
  let gone (pid : Z) := bool_decide (pid ∈ old_ids) in
  let dead_sections :=
    if foreign_keys c
    then filter (fun s => gone (sec_page_id s) = true) (sections c)
    else [] in
  let dead_section_ids := sec_id <$> dead_sections in
  {| foreign_keys := foreign_keys c;
     recursive_triggers := recursive_triggers c;
     pages := filter (fun p => gone (page_id p) = false) (pages c);
     sections :=
       if foreign_keys c
       then filter (fun s => gone (sec_page_id s) = false) (sections c)
       else sections c;
     code_examples :=
       if foreign_keys c
       then
         (fun e =>
            {| ex_id := ex_id e; ex_page_id := ex_page_id e;
               ex_section_id :=
                 match ex_section_id e with
                 | Some sid =>
                     if bool_decide (sid ∈ dead_section_ids)
                     then None else Some sid
                 | None => None
                 end;
               ex_language := ex_language e; ex_code := ex_code e;
               ex_context := ex_context e |})
         <$> filter (fun e => gone (ex_page_id e) = false) (code_examples c)
       else code_examples c;
     nodes :=
       if foreign_keys c
       then
         (fun n =>
            {| node_id := node_id n; node_name := node_name n;
               node_display_name := node_display_name n;
               node_category := node_category n;
               node_description := node_description n;
               node_page_id :=
                 match node_page_id n with
                 | Some pid => if gone pid then None else Some pid
                 | None => None
                 end |})
         <$> nodes c
       else nodes c;
     pages_fts :=
       if recursive_triggers c
       then foldl (fun idx p => pages_ad p idx) (pages_fts c) old
       else pages_fts c;
     sections_fts :=
       foldl (fun idx s => sections_ad s idx) (sections_fts c) dead_sections;
     seq_pages := seq_pages c; seq_sections := seq_sections c;
     seq_code_examples := seq_code_examples c; seq_nodes := seq_nodes c |}.

(** The values bound to
    [INSERT OR REPLACE INTO pages (url, source, title, content,
     content_html, breadcrumbs, last_modified) VALUES (?, ...)]. *)
Record page_values := {
  v_url : string;
  v_source : string;
  v_title : string;
  v_content : string;
  v_content_html : string;
  v_breadcrumbs : string;
  v_last_modified : option string;
}.

(** [INSERT OR REPLACE INTO pages ...]: the rows that hold the same
    [url] (UNIQUE) are removed, the new row gets a fresh rowid and
    [crawled_at] its default [datetime('now')], here [now]; [pages_ai]
    fires. Returns the connection and [cursor.lastrowid]. *)
Definition insert_or_replace_page (now : string) (v : page_values) (c : conn)
  : conn * Z :=
  let new_id := next_id (page_id <$> pages c) (seq_pages c) in
  let old := filter (fun p => page_url p = v_url v) (pages c) in
  let c1 := replace_delete c old in
  let row :=
    {| page_id := new_id; page_url := v_url v; page_source := v_source v;
       page_title := v_title v; page_content := v_content v;
       page_content_html := v_content_html v;
       page_breadcrumbs := v_breadcrumbs v;
       page_last_modified := v_last_modified v;
       page_crawled_at := now |} in
  ({| foreign_keys := foreign_keys c1;
      recursive_triggers := recursive_triggers c1;
      pages := pages c1 ++ [row];
      sections := sections c1; code_examples := code_examples c1;
      nodes := nodes c1;
      pages_fts := pages_ai row (pages_fts c1);
      sections_fts := sections_fts c1;
      seq_pages := new_id; seq_sections := seq_sections c1;
      seq_code_examples := seq_code_examples c1;
      seq_nodes := seq_nodes c1 |}, new_id).

(** A statement either succeeds or raises [sqlite3.IntegrityError] and
    leaves the database as it was. *)
Inductive sql_result (A : Type) :=
| Ok (a : A)
| IntegrityError (msg : string).
Global Arguments Ok {A} a.
Global Arguments IntegrityError {A} msg.

Definition fk_failed : string := "FOREIGN KEY constraint failed".

(** [INSERT INTO sections (page_id, heading, level, content, anchor)] *)
Definition insert_section (pid : Z) (s : section) (c : conn)
  : sql_result conn :=
  if foreign_keys c && negb (has_page c pid) then IntegrityError fk_failed
  else
    let new_id := next_id (sec_id <$> sections c) (seq_sections c) in
    let row :=
      {| sec_id := new_id; sec_page_id := pid; sec_heading := heading s;
         sec_level := level s; sec_content := content s;
         sec_anchor := anchor s |} in
    Ok {| foreign_keys := foreign_keys c;
          recursive_triggers := recursive_triggers c;
          pages := pages c; sections := sections c ++ [row];
          code_examples := code_examples c; nodes := nodes c;
          pages_fts := pages_fts c;
          sections_fts := sections_ai row (sections_fts c);
          seq_pages := seq_pages c; seq_sections := new_id;
          seq_code_examples := seq_code_examples c;
          seq_nodes := seq_nodes c |}.

(** [SELECT id FROM sections WHERE page_id = ? AND heading = ? LIMIT 1] *)
Definition find_section (pid : Z) (h : string) (c : conn) : option Z :=
  sec_id <$>
    head (filter (fun s => sec_page_id s = pid ∧ sec_heading s = h)
                 (sections c)).

(** [INSERT INTO code_examples (page_id, section_id, language, code,
     context)] *)
Definition insert_code_example (pid : Z) (sid : option Z) (e : code_example)
           (c : conn) : sql_result conn :=
  if foreign_keys c
     && negb (has_page c pid
              && match sid with Some i => has_section c i | None => true end)
  then IntegrityError fk_failed
  else
    let new_id :=
      next_id (ex_id <$> code_examples c) (seq_code_examples c) in
    let row :=
      {| ex_id := new_id; ex_page_id := pid; ex_section_id := sid;
         ex_language := language e; ex_code := code e;
         ex_context := context e |} in
    Ok {| foreign_keys := foreign_keys c;
          recursive_triggers := recursive_triggers c;
          pages := pages c; sections := sections c;
          code_examples := code_examples c ++ [row]; nodes := nodes c;
          pages_fts := pages_fts c; sections_fts := sections_fts c;
          seq_pages := seq_pages c; seq_sections := seq_sections c;
          seq_code_examples := new_id; seq_nodes := seq_nodes c |}.

(** [INSERT INTO nodes (name, display_name, category, description,
     page_id)] *)
Definition insert_node (name display_name category : string)
           (description : option string) (pid : Z) (c : conn)
  : sql_result conn :=
  if foreign_keys c && negb (has_page c pid) then IntegrityError fk_failed
  else
    let new_id := next_id (node_id <$> nodes c) (seq_nodes c) in
    let row :=
      {| node_id := new_id; node_name := name;
         node_display_name := display_name; node_category := category;
         node_description := description; node_page_id := Some pid |} in
    Ok {| foreign_keys := foreign_keys c;
          recursive_triggers := recursive_triggers c;
          pages := pages c; sections := sections c;
          code_examples := code_examples c; nodes := nodes c ++ [row];
          pages_fts := pages_fts c; sections_fts := sections_fts c;
          seq_pages := seq_pages c; seq_sections := seq_sections c;
          seq_code_examples := seq_code_examples c; seq_nodes := new_id |}.

End Db.

(** ** scripts/scrape_*.py: the site scrapers *)

Module Scrape.

(** The counters of one run. The framework scraper has no [nodes]
    entry; its [nodes] stays 0. *)
Record stats := {
  n_pages : Z;
  n_sections : Z;
  n_code_examples : Z;
  n_nodes : Z;
  n_errors : Z;
}.

Definition zero : stats :=
  {| n_pages := 0; n_sections := 0; n_code_examples := 0; n_nodes := 0;
     n_errors := 0 |}.

Definition count_page (s : stats) : stats :=
  {| n_pages := n_pages s + 1; n_sections := n_sections s;
     n_code_examples := n_code_examples s; n_nodes := n_nodes s;
     n_errors := n_errors s |}.
Definition count_section (s : stats) : stats :=
  {| n_pages := n_pages s; n_sections := n_sections s + 1;
     n_code_examples := n_code_examples s; n_nodes := n_nodes s;
     n_errors := n_errors s |}.
Definition count_example (s : stats) : stats :=
  {| n_pages := n_pages s; n_sections := n_sections s;
     n_code_examples := n_code_examples s + 1; n_nodes := n_nodes s;
     n_errors := n_errors s |}.
Definition count_node (s : stats) : stats :=
  {| n_pages := n_pages s; n_sections := n_sections s;
     n_code_examples := n_code_examples s; n_nodes := n_nodes s + 1;
     n_errors := n_errors s |}.
Definition count_error (s : stats) : stats :=
  {| n_pages := n_pages s; n_sections := n_sections s;
     n_code_examples := n_code_examples s; n_nodes := n_nodes s;
     n_errors := n_errors s + 1 |}.

(** The connection and the counters, which the loop body updates. *)
Definition state : Type := Db.conn * stats.

(** The [try] block of the loop body: a state transformer that may stop
    at an [IntegrityError]; what was written before stays written. *)
Definition try_block (A : Type) : Type := state -> state * Db.sql_result A.

Global Instance try_ret : MRet try_block :=
  fun A (a : A) s => (s, Db.Ok a).

Global Instance try_bind : MBind try_block :=
  fun A B (k : A -> try_block B) (m : try_block A) s =>
    match m s with
    | (s', Db.Ok a) => k a s'
    | (s', Db.IntegrityError msg) => (s', Db.IntegrityError msg)
    end.

Definition ret {A} (a : A) : try_block A := mret a.

(** [conn.execute(...)] of a statement that may fail. *)
Definition execute (stmt : Db.conn -> Db.sql_result Db.conn)
  : try_block unit :=
  fun s =>
    match stmt s.1 with
    | Db.Ok c => ((c, s.2), Db.Ok tt)
    | Db.IntegrityError msg => (s, Db.IntegrityError msg)
    end.

(** [stats[k] += 1] *)
Definition count (f : stats -> stats) : try_block unit :=
  fun s => ((s.1, f s.2), Db.Ok tt).

(** A read of the connection. *)
Definition query {A} (q : Db.conn -> A) : try_block A :=
  fun s => (s, Db.Ok (q s.1)).

Fixpoint for_each {A} (l : list A) (body : A -> try_block unit)
  : try_block unit :=
  match l with
  | [] => ret tt
  | x :: rest => body x ;; for_each rest body
  end.

(** The upsert of the page row; gives [cursor.lastrowid]. *)
Definition upsert_page (now : string) (v : Db.page_values) : try_block Z :=
  fun s =>
    let '(c, pid) := Db.insert_or_replace_page now v s.1 in
    ((c, s.2), Db.Ok pid).

(** The two loops over [data["sections"]] and [data["code_examples"]],
    the same in the three scrapers. *)
Definition write_children (pid : Z) (secs : list section)
           (exs : list code_example) : try_block unit :=
  for_each secs (fun sec =>
    execute (Db.insert_section pid sec);;
    count count_section);;
  for_each exs (fun ex =>
    section_id ←
      (if Py.truthy (context ex)
       then query (Db.find_section pid (context ex))
       else ret None);
    execute (Db.insert_code_example pid section_id ex);;
    count count_example).

(** The statements up to the code examples: page row, then children. *)
Definition write_page (now : string) (v : Db.page_values)
           (secs : list section) (exs : list code_example) : try_block Z :=
  pid ← upsert_page now v;
  count count_page;;
  write_children pid secs exs;;
  ret pid.

(** [data["content_text"][:500] if data["content_text"] else None] *)
Definition description_of (content_text : string) : option string :=
  if Py.truthy content_text then Some (Py.prefix 500 content_text) else None.

(** The category vocabulary of scrape_nodes.py. *)
Definition CATEGORY_MAP : list (string * string) :=
  [("agents", "Agents"); ("audio", "Audio"); ("config", "Config");
   ("convert", "Convert"); ("dict", "Dict"); ("execution", "Execution");
   ("image", "Image"); ("json", "JSON"); ("lists", "Lists");
   ("misc", "Misc"); ("number", "Number"); ("rules", "Rules");
   ("text", "Text"); ("three_d", "3D"); ("tools", "Tools");
   ("video", "Video"); ("advanced_media_library", "Advanced Media Library")].

(** The one of scrape_nodes_github.py has one entry more. *)
Definition CATEGORY_MAP_GITHUB : list (string * string) :=
  CATEGORY_MAP ++ [("workflows", "Workflows")].

Fixpoint lookup_category (m : list (string * string)) (slug : string)
  : option string :=
  match m with
  | [] => None
  | (k, v) :: rest =>
      if bool_decide (k = slug) then Some v else lookup_category rest slug
  end.

(** [CATEGORY_MAP.get(slug, slug.replace("_", " ").title())] *)
Definition category_of (m : list (string * string)) (slug : string)
  : string :=
  default (Py.title (Py.replace "_" " " slug)) (lookup_category m slug).

(** The end of a string as [$] sees it, reversed: one final newline is
    passed over. *)
Definition rev_end (s : string) : string :=
  match String.rev s with
  | String "010"%char r => r
  | r => r
  end.

(** Reads, on a reversed string, [(\w+)/(\w+)] backwards and then the
    reversed [before]: the two groups, if all of it is there. The
    groups are runs of word characters bounded by [/], so there is one
    way to match at most. *)
Definition two_words_before (before_rev : string) (r : string)
  : option (string * string) :=
  let w2 := Py.take_while Py.is_word r in
  let r1 := Py.drop_while Py.is_word r in
  match w2, r1 with
  | String _ _, String "/"%char r2 =>
      let w1 := Py.take_while Py.is_word r2 in
      let r3 := Py.drop_while Py.is_word r2 in
      match w1 with
      | String _ _ =>
          if Py.startswith before_rev r3
          then Some (String.rev w1, String.rev w2) else None
      | EmptyString => None
      end
  | _, _ => None
  end.

(** [re.compile(r"/nodes/(\w+)/(\w+)/?$").search(url)]: groups 1, 2 *)
Definition node_url_match (u : string) : option (string * string) :=
  let r := rev_end u in
  two_words_before "/sedon/"
    (match r with String "/"%char r' => r' | _ => r end).

(** [re.search(r"docs/nodes/(\w+)/(\w+)\.md$", file_path)]: groups 1, 2 *)
Definition node_path_match (path : string) : option (string * string) :=
  let r := rev_end path in
  if Py.startswith "dm." r
  then two_words_before "/sedon/scod" (Py.drop 3 r) else None.

(** The dict [extract_node_info] returns. *)
Record node_info := {
  ni_name : string;
  ni_display_name : string;
  ni_category : string;
}.

(** [extract_node_info] of scrape_nodes.py *)
Definition extract_node_info (u title : string) : option node_info :=
  match node_url_match u with
  | None => None
  | Some (category_slug, _) =>
      Some {| ni_name := title; ni_display_name := title;
              ni_category := category_of CATEGORY_MAP category_slug |}
  end.

(** [extract_node_info] of scrape_nodes_github.py *)
Definition extract_node_info_github (file_path title : string)
  : option node_info :=
  match node_path_match file_path with
  | None => None
  | Some (category_slug, node_name) =>
      if bool_decide (category_slug = "overview") then None
      else
        let name :=
          Py.or_else title (Py.title (Py.replace "_" " " node_name)) in
        Some {| ni_name := name; ni_display_name := name;
                ni_category :=
                  category_of CATEGORY_MAP_GITHUB category_slug |}
  end.

(** [if node_info: conn.execute("INSERT INTO nodes ..."); nodes += 1] *)
Definition write_node (info : option node_info) (content_text : string)
           (pid : Z) : try_block unit :=
  match info with
  | None => ret tt
  | Some i =>
      execute (Db.insert_node (ni_name i) (ni_display_name i)
                 (ni_category i) (description_of content_text) pid);;
      count count_node
  end.

(** What escapes a loop body: the extractor was handed [None]. *)
Inductive crash :=
| TypeError
| AttributeError.

(** [try: ... except sqlite3.IntegrityError as e: print(...)]: the
    state the block reached is kept either way. *)
Definition catch {A} (m : try_block A) (s : state) : state := (m s).1.

(** [if page["error"]:] *)
Definition has_error (e : option string) : bool :=
  match e with Some msg => Py.truthy msg | None => false end.

(** What the loop body takes from outside the repository: the HTML
    parser and the serialiser of its trees, and [json.dumps]. *)
Record library := {
  parse_html : string -> Html.node;
  to_html : Html.node -> string;
  json_dumps : list string -> string;
}.

(** [lastmod_map.get(url)] *)
Definition lastmod_of (lastmod_map : gmap string (option string))
           (u : string) : option string :=
  default None (lastmod_map !! u).

Definition page_values_of (source : string)
           (lib : library) (lastmod_map : gmap string (option string))
           (u : string) (data : Html.extracted) : Db.page_values :=
  {| Db.v_url := u; Db.v_source := source;
     Db.v_title := Html.e_title data;
     Db.v_content := Html.e_content_text data;
     Db.v_content_html := Html.e_content_html data;
     Db.v_breadcrumbs := json_dumps lib (Html.e_breadcrumbs data);
     Db.v_last_modified := lastmod_of lastmod_map u |}.

(** One iteration of [for page in pages] in scrape_framework.py
    ([with_nodes = false]) and scrape_nodes.py ([with_nodes = true]). *)
Definition web_step (with_nodes : bool) (source : string) (lib : library)
           (lastmod_map : gmap string (option string)) (now : string)
           (s : state) (page : Fetch.result) : crash + state :=
  if has_error (Fetch.error page) then inr (s.1, count_error s.2)
  else
    match Fetch.html page with
    | None => inl TypeError
    | Some html =>
        let data :=
          Html.extract_mkdocs_content (parse_html lib) (to_html lib) html in
        if negb (Py.truthy (Html.e_title data)) then inr s
        else
          inr (catch
                 (pid ← write_page now
                           (page_values_of source lib lastmod_map
                              (Fetch.url page) data)
                           (Html.e_sections data)
                           (Html.e_code_examples data);
                  if with_nodes
                  then write_node
                         (extract_node_info (Fetch.url page)
                            (Html.e_title data))
                         (Html.e_content_text data) pid
                  else ret tt)
                 s)
    end.

(** The loop: the [i]-th iteration reads the clock as [clock i]; an
    exception ends the run. *)
Fixpoint run_loop {A} (step : string -> state -> A -> crash + state)
         (clock : nat -> string) (i : nat) (items : list A) (s : state)
  : crash + state :=
  match items with
  | [] => inr s
  | x :: rest =>
      match step (clock i) s x with
      | inl e => inl e
      | inr s' => run_loop step clock (S i) rest s'
      end
  end.

(** *** scrape_framework.py *)

Definition FRAMEWORK_SOURCE : string := "framework".
Definition FRAMEWORK_SKIP_PATTERNS : list string :=
  ["/reference/"; "/search.html"; "/404.html"].

Definition should_skip (patterns : list string) (u : string) : bool :=
  existsb (fun pattern => Py.contains pattern u) patterns.

(** An entry of the sitemap: [url] and [lastmod]. *)
Definition entry : Type := string * option string.

(** [{e["url"]: e["lastmod"] for e in entries}]: later entries win. *)
Definition lastmod_map_of (entries : list entry)
  : gmap string (option string) :=
  foldl (fun m e => <[e.1 := e.2]> m) ∅ entries.

(** [scrape] of scrape_framework.py from the sitemap entries on: the
    database it opens, the network its fetches meet and the clock are
    given; the result is the committed database and the counters, or
    the exception that ended the run before the commit. *)
Definition scrape_framework (lib : library) (net : nat -> nat -> Fetch.outcome)
           (clock : nat -> string) (entries : list entry) (db : Db.conn)
  : crash + state :=
  let urls :=
    filter (fun u => should_skip FRAMEWORK_SKIP_PATTERNS u = false)
           (fst <$> entries) in
  let pages := Fetch.fetch_pages net urls in
  run_loop (web_step false FRAMEWORK_SOURCE lib (lastmod_map_of entries))
           clock 0 pages (db, zero).

(** *** scrape_nodes.py *)

Definition NODES_SOURCE : string := "nodes".
Definition NODES_SKIP_PATTERNS : list string := ["/search.html"; "/404.html"].

(** [list(dict.fromkeys(urls))]: first occurrences, in order. *)
Fixpoint dedup_first (seen : list string) (l : list string) : list string :=
  match l with
  | [] => []
  | u :: rest =>
      if bool_decide (u ∈ seen) then dedup_first seen rest
      else u :: dedup_first (u :: seen) rest
  end.

(** [scrape] of scrape_nodes.py; [normalize_url] rests on
    [urllib.parse.urlparse] and is given. *)
Definition scrape_nodes (lib : library) (normalize_url : string -> string)
           (net : nat -> nat -> Fetch.outcome) (clock : nat -> string)
           (entries : list entry) (db : Db.conn) : crash + state :=
  let urls :=
    dedup_first []
      (normalize_url <$>
         filter (fun u => should_skip NODES_SKIP_PATTERNS u = false)
                (fst <$> entries)) in
  let lastmod_map :=
    lastmod_map_of ((fun e => (normalize_url e.1, e.2)) <$> entries) in
  let pages := Fetch.fetch_pages net urls in
  run_loop (web_step true NODES_SOURCE lib lastmod_map)
           clock 0 pages (db, zero).

(** *** scrape_nodes_github.py *)

Definition BASE_DOCS_URL : string := "https://docs.griptapenodes.com/en/stable".

(** What the second [fetch_one] returns: the listing entry with the
    fetched markdown or an error. *)
Record github_result := {
  g_path : string;
  g_name : string;
  g_download_url : string;
  g_content : option string;
  g_error : option string;
}.

Definition path_to_docs_url (file_path : string) : string :=
  let rel := Py.replace ".md" "" (Py.replace "docs/" "" file_path) in
  if bool_decide (rel = "index") then BASE_DOCS_URL +:+ "/"
  else BASE_DOCS_URL +:+ "/" +:+ rel +:+ "/".

(** [result["name"].replace(".md", "").replace("_", " ").title()] *)
Definition filename_title (name : string) : string :=
  Py.title (Py.replace "_" " " (Py.replace ".md" "" name)).

(** One iteration of [for result in results]. *)
Definition github_step (now : string) (s : state) (result : github_result)
  : crash + state :=
  if has_error (g_error result) then inr (s.1, count_error s.2)
  else
    match g_content result with
    | None => inl AttributeError
    | Some md =>
        let data := Markdown.parse_markdown md in
        let title :=
          if negb (Py.truthy (Markdown.p_title data))
          then filename_title (g_name result)
          else Markdown.p_title data in
        let u := path_to_docs_url (g_path result) in
        inr (catch
               (pid ← write_page now
                         {| Db.v_url := u; Db.v_source := NODES_SOURCE;
                            Db.v_title := title;
                            Db.v_content := Markdown.p_content_text data;
                            Db.v_content_html := "";
                            Db.v_breadcrumbs := "[]";
                            Db.v_last_modified := None |}
                         (Markdown.p_sections data)
                         (Markdown.p_code_examples data);
                write_node (extract_node_info_github (g_path result) title)
                           (Markdown.p_content_text data) pid)
               s)
    end.

(** The loop of [scrape] of scrape_nodes_github.py over the fetched
    files. *)
Definition scrape_github (clock : nat -> string)
           (results : list github_result) (db : Db.conn) : crash + state :=
  run_loop github_step clock 0 results (db, zero).

End Scrape.

(** ** scripts/scrape_common.py: the sitemap *)

Module Sitemap.

(** A [url] element of the sitemap as the XML parser hands it over: its
    [loc] and [lastmod] children, if there, each with its text, if it
    has one. *)
Record url_elem := {
  loc : option (option string);
  lastmod : option (option string);
}.

(** [el is not None and el.text] *)
Definition text_of (el : option (option string)) : option string :=
  match el with
  | Some (Some t) => if Py.truthy t then Some t else None
  | _ => None
  end.

(** The loop over [root.findall("sm:url", ns)]. *)
Definition entries_of (elems : list url_elem) : list Scrape.entry :=
  omap (fun e =>
          match text_of (loc e) with
          | Some t => Some (Py.strip t, Py.strip <$> text_of (lastmod e))
          | None => None
          end) elems.

(** [for attempt in range(MAX_RETRIES): ... else: resp.raise_for_status()],
    from [attempt] on with [remaining] iterations left: the response
    that ends the loop, or the exception that leaves the function;
    nothing is caught here. After the last 429 and its wait, the [else]
    branch raises for that response. *)
Fixpoint attempts (net : nat -> Fetch.outcome) (attempt remaining : nat)
  : (Fetch.exception + Fetch.response) * list Fetch.event :=
  match remaining with
  | O =>
      (* no iteration at all: not met, [MAX_RETRIES] being 5 *)
      (inl (Fetch.OtherException "UnboundLocalError"), [])
  | S remaining' =>
      let wait := 10 * (Z.of_nat attempt + 1) in
      match net attempt with
      | Fetch.Raises e => (inl e, [Fetch.Get (Z.of_nat attempt)])
      | Fetch.Returns r =>
          if Fetch.status_code r =? 429 then
            match remaining' with
            | O =>
                (inl (Fetch.HTTPStatusError 429 (Fetch.status_error r)),
                 [Fetch.Get (Z.of_nat attempt); Fetch.Sleep wait])
            | S _ =>
                let '(res, evs) := attempts net (S attempt) remaining' in
                (res, Fetch.Get (Z.of_nat attempt) :: Fetch.Sleep wait :: evs)
            end
          else if Fetch.is_success (Fetch.status_code r)
          then (inr r, [Fetch.Get (Z.of_nat attempt)])
          else (inl (Fetch.HTTPStatusError (Fetch.status_code r)
                       (Fetch.status_error r)),
                [Fetch.Get (Z.of_nat attempt)])
      end
  end.

(** What a call of [fetch_sitemap] comes to. *)
Inductive result :=
| Entries (entries : list Scrape.entry)
| Raised (e : Fetch.exception)
| ParseError.

(** [fetch_sitemap(url)]; [parse_xml] is [ET.fromstring] followed by
    [findall("sm:url", ns)], [None] when the text is no XML. *)
Definition fetch_sitemap (parse_xml : string -> option (list url_elem))
           (net : nat -> Fetch.outcome) : result * list Fetch.event :=
  match attempts net 0 Fetch.MAX_RETRIES with
  | (inl e, evs) => (Raised e, evs)
  | (inr r, evs) =>
      match parse_xml (Fetch.text r) with
      | Some elems => (Entries (entries_of elems), evs)
      | None => (ParseError, evs)
      end
  end.

End Sitemap.

(** ** src/griptape_mcp/db.py: the query helpers *)

Module Query.

(** *** SQL operators *)

(** Upper-case ASCII letters fold to lower case under LIKE. *)
Definition fold_case (c : ascii) : ascii :=
  let n := Py.code c in
  if ((65 <=? n) && (n <=? 90))%N then ascii_of_N (n + 32) else c.

(** [s LIKE pat]: [%] stands for any run of characters, [_] for any
    one character, letters of ASCII match in either case. *)
Fixpoint like (pat : string) (s : string) {struct pat} : bool :=
  match pat with
  | EmptyString => negb (Py.truthy s)
  | String c pat' =>
      if Py.ascii_eqb c "%"%char then
        (fix any (t : string) : bool :=
           like pat' t
           || match t with
              | EmptyString => false
              | String _ t' => any t'
              end) s
      else
        match s with
        | EmptyString => false
        | String d s' =>
            (Py.ascii_eqb c "_"%char
             || Py.ascii_eqb (fold_case c) (fold_case d))
            && like pat' s'
        end
  end.

(** The pattern [f"%{x}%"] *)
Definition around (x : string) : string := "%" +:+ x +:+ "%".

(** [REPLACE(x, ' ', '')], and [x.replace(" ", "")] *)
Definition unspaced (x : string) : string := Py.replace " " "" x.

(** [LIMIT n]: a negative [n] is no limit. *)
Definition sql_limit {A} (n : Z) (l : list A) : list A :=
  if n <? 0 then l else take (Z.to_nat n) l.

(** *** get_node_by_name *)

(** A row of [SELECT n.*, p.url, p.content FROM nodes n LEFT JOIN pages p
    ON p.id = n.page_id]. *)
Record node_detail := {
  nd_node : Db.node_row;
  nd_url : option string;
  nd_content : option string;
}.

Definition page_of (c : Db.conn) (pid : option Z) : option Db.page_row :=
  match pid with
  | Some i => head (filter (fun p => Db.page_id p = i) (Db.pages c))
  | None => None
  end.

Definition detail (c : Db.conn) (n : Db.node_row) : node_detail :=
  let p := page_of c (Db.node_page_id n) in
  {| nd_node := n;
     nd_url := Db.page_url <$> p;
     nd_content := Db.page_content <$> p |}.

(** The three WHERE clauses. *)
Definition exact_match (name : string) (n : Db.node_row) : bool :=
  bool_decide (Db.node_name n = name)
  || bool_decide (Db.node_display_name n = name).

Definition like_match (name : string) (n : Db.node_row) : bool :=
  like (around name) (Db.node_name n)
  || like (around name) (Db.node_display_name n).

Definition stripped_match (name : string) (n : Db.node_row) : bool :=
  like (around (unspaced name)) (unspaced (Db.node_name n))
  || like (around (unspaced name)) (unspaced (Db.node_display_name n)).

(** [... WHERE w LIMIT 1], [fetchone()]: the first row of the table,
    in rowid order, that satisfies [w]. *)
Definition select_one (c : Db.conn) (w : Db.node_row -> bool)
  : option node_detail :=
  detail c <$> head (filter (fun n => w n = true) (Db.nodes c)).

(** The statements [get_node_by_name] may execute. *)
Inductive tier :=
| Exact
| Substring
| Stripped.

Global Instance tier_eq_dec : EqDecision tier.
Proof. solve_decision. Defined.

(** [get_node_by_name(conn, name)]: the result, and the statements that
    were executed, in order. *)
Definition get_node_by_name (c : Db.conn) (name : string)
  : option node_detail * list tier :=
  match select_one c (exact_match name) with
  | Some row => (Some row, [Exact])
  | None =>
      match select_one c (like_match name) with
      | Some row => (Some row, [Exact; Substring])
      | None =>
          match select_one c (stripped_match name) with
          | Some row => (Some row, [Exact; Substring; Stripped])
          | None => (None, [Exact; Substring; Stripped])
          end
      end
  end.

(** *** search_code_examples *)

(** A row of the three SELECTs: [ce.id AS ce_id], then the columns the
    caller gets. *)
Record sql_row := {
  ce_id : Z;
  r_language : string;
  r_code : string;
  r_context : string;
  r_heading : option string;
  r_title : string;
  r_url : string;
}.

(** The dict that is left after [r.pop("ce_id", None)]. *)
Record out_row := {
  o_language : string;
  o_code : string;
  o_context : string;
  o_heading : option string;
  o_title : string;
  o_url : string;
}.

Definition pop_ce_id (r : sql_row) : out_row :=
  {| o_language := r_language r; o_code := r_code r;
     o_context := r_context r; o_heading := r_heading r;
     o_title := r_title r; o_url := r_url r |}.

(** [_collect(rows)] on the two variables it closes over. *)
Definition collect_row (st : gset Z * list out_row) (r : sql_row)
  : gset Z * list out_row :=
  if bool_decide (ce_id r ∈ st.1) then st
  else ({[ce_id r]} ∪ st.1, st.2 ++ [pop_ce_id r]).

Definition collect (rows : list sql_row) (st : gset Z * list out_row)
  : gset Z * list out_row :=
  foldl collect_row st rows.

Definition row_of (ce : Db.example_row) (s : option Db.section_row)
           (p : Db.page_row) : sql_row :=
  {| ce_id := Db.ex_id ce; r_language := Db.ex_language ce;
     r_code := Db.ex_code ce; r_context := Db.ex_context ce;
     r_heading := Db.sec_heading <$> s;
     r_title := Db.page_title p; r_url := Db.page_url p |}.

(** [LEFT JOIN sections s ON s.id = ce.section_id] *)
Definition section_of (c : Db.conn) (sid : option Z)
  : option Db.section_row :=
  match sid with
  | Some i => head (filter (fun s => Db.sec_id s = i) (Db.sections c))
  | None => None
  end.

Section Layers.

(** The FTS5 engine: for a MATCH expression and the documents of an
    index, the rowids that match, best rank first, or nothing when
    the expression is no valid query ([sqlite3.OperationalError]). *)
Variable fts5 : string -> list Db.fts_doc -> option (list Z).

(** Layer 1: [sections_fts JOIN sections JOIN code_examples JOIN
    pages ... WHERE sections_fts MATCH ? ORDER BY rank LIMIT ?] *)
Definition layer1 (c : Db.conn) (q : string) (limit : Z)
  : option (list sql_row) :=
  hits ← fts5 q (Db.sections_fts c);
  Some (sql_limit limit
    (hit ← hits;
     s ← filter (fun s => Db.sec_id s = hit) (Db.sections c);
     ce ← filter (fun ce => Db.ex_section_id ce = Some (Db.sec_id s))
                 (Db.code_examples c);
     p ← filter (fun p => Db.page_id p = Db.ex_page_id ce) (Db.pages c);
     [row_of ce (Some s) p])).

(** Layer 2: [pages_fts JOIN pages JOIN code_examples LEFT JOIN
    sections ... WHERE pages_fts MATCH ? ORDER BY rank LIMIT ?] *)
Definition layer2 (c : Db.conn) (q : string) (limit : Z)
  : option (list sql_row) :=
  hits ← fts5 q (Db.pages_fts c);
  Some (sql_limit limit
    (hit ← hits;
     p ← filter (fun p => Db.page_id p = hit) (Db.pages c);
     ce ← filter (fun ce => Db.ex_page_id ce = Db.page_id p)
                 (Db.code_examples c);
     [row_of ce (section_of c (Db.ex_section_id ce)) p])).

(** Layer 3: [code_examples JOIN pages LEFT JOIN sections WHERE
    ce.code LIKE ? OR ce.context LIKE ? LIMIT ?] *)
Definition layer3 (c : Db.conn) (q : string) (limit : Z) : list sql_row :=
  sql_limit limit
    (ce ← filter (fun ce => like (around q) (Db.ex_code ce)
                            || like (around q) (Db.ex_context ce) = true)
                 (Db.code_examples c);
     p ← filter (fun p => Db.page_id p = Db.ex_page_id ce) (Db.pages c);
     [row_of ce (section_of c (Db.ex_section_id ce)) p]).

(** The statements [search_code_examples] may execute. *)
Inductive layer :=
| SectionFts
| PageFts
| CodeLike.

Global Instance layer_eq_dec : EqDecision layer.
Proof. solve_decision. Defined.

Definition count (st : gset Z * list out_row) : Z :=
  Z.of_nat (length st.2).

(** [search_code_examples(conn, query, limit)]: the result, and the
    statements that were executed, in order. An [OperationalError]
    of a full-text layer is passed over. *)
Definition search_code_examples (c : Db.conn) (q : string) (limit : Z)
  : list out_row * list layer :=
  let st0 : gset Z * list out_row := (∅, []) in
  let st1 :=
    match layer1 c q limit with
    | Some rows => collect rows st0
    | None => st0
    end in
  let '(st2, log2) :=
    if count st1 <? limit then
      (match layer2 c q (limit - count st1) with
       | Some rows => collect rows st1
       | None => st1
       end, [PageFts])
    else (st1, []) in
  let '(st3, log3) :=
    if count st2 <? limit then
      (collect (layer3 c q (limit - count st2)) st2, [CodeLike])
    else (st2, []) in
  (Py.slice_to st3.2 limit, SectionFts :: log2 ++ log3).

End Layers.

(** *** The page lookups *)

(** [ORDER BY id]: the ids of a table are its primary key, so that the
    rows are in one order only. *)
Fixpoint insert_by {A} (key : A -> Z) (x : A) (l : list A) : list A :=
  match l with
  | [] => [x]
  | y :: rest =>
      if key x <=? key y then x :: l else y :: insert_by key x rest
  end.

Definition order_by {A} (key : A -> Z) (l : list A) : list A :=
  foldr (insert_by key) [] l.

(** [SELECT * FROM pages WHERE url = ?], [fetchone()] *)
Definition get_page_by_url (c : Db.conn) (u : string) : option Db.page_row :=
  head (filter (fun p => Db.page_url p = u) (Db.pages c)).


(** [SELECT * FROM sections WHERE page_id = ? ORDER BY id] *)
Definition get_page_sections (c : Db.conn) (pid : Z) : list Db.section_row :=
  order_by Db.sec_id
    (filter (fun s => Db.sec_page_id s = pid) (Db.sections c)).

(** [SELECT * FROM code_examples WHERE page_id = ? ORDER BY id] *)
Definition get_page_code_examples (c : Db.conn) (pid : Z)
  : list Db.example_row :=
  order_by Db.ex_id
    (filter (fun e => Db.ex_page_id e = pid) (Db.code_examples c)).

(** *** search_pages *)

(** A row of [SELECT p.id, p.url, p.source, p.title, snippet(...)]. *)
Record page_hit := {
  ph_id : Z;
  ph_url : string;
  ph_source : string;
  ph_title : string;
  ph_snippet : string;
}.

Section PageSearch.

(** The FTS5 engine, as for the code examples, and its [snippet]
    function for a query and a row. *)
Variable fts5 : string -> list Db.fts_doc -> option (list Z).
Variable snippet : string -> Db.page_row -> string.

(** [search_pages(conn, query, source, limit)]:
    [pages_fts JOIN pages p ON p.id = pages_fts.rowid WHERE pages_fts
     MATCH ? (AND p.source = ?) ORDER BY rank LIMIT ?];
    [sqlite3.OperationalError] gives the empty list. *)
Definition search_pages (c : Db.conn) (query source : string) (limit : Z)
  : list page_hit :=
  match fts5 query (Db.pages_fts c) with
  | None => []
  | Some hits =>
      (fun p => {| ph_id := Db.page_id p; ph_url := Db.page_url p;
                   ph_source := Db.page_source p;
                   ph_title := Db.page_title p;
                   ph_snippet := snippet query p |})
        <$> sql_limit limit
              (rowid ← hits;
               p ← filter (fun p => Db.page_id p = rowid) (Db.pages c);
               if bool_decide (source = "all")
                  || bool_decide (Db.page_source p = source)
               then [p] else [])
  end.

End PageSearch.

(** *** search_nodes *)

(** A row of [SELECT n.*, p.url FROM nodes n LEFT JOIN pages p ON
    p.id = n.page_id]. *)
Record node_hit := {
  nh_node : Db.node_row;
  nh_url : option string;
}.

Definition hit (c : Db.conn) (n : Db.node_row) : node_hit :=
  {| nh_node := n;
     nh_url := Db.page_url <$> page_of c (Db.node_page_id n) |}.

(** [x LIKE pat] on a column that may hold NULL: NULL is no match. *)
Definition like_null (pat : string) (x : option string) : bool :=
  match x with
  | Some s => like pat s
  | None => false
  end.

(** The WHERE clause of the first statement; [if category:] takes the
    first form for a category that is given and not empty. *)
Definition primary_where (query : string) (category : option string)
           (n : Db.node_row) : bool :=
  let names :=
    like (around query) (Db.node_name n)
    || like (around query) (Db.node_display_name n)
    || like_null (around query) (Db.node_description n) in
  let stripped :=
    like (around (unspaced query)) (unspaced (Db.node_name n))
    || like (around (unspaced query)) (unspaced (Db.node_display_name n)) in
  match category with
  | Some (String a cat) =>
      bool_decide (Db.node_category n = String a cat) && (names || stripped)
  | _ =>
      names || like (around query) (Db.node_category n) || stripped
  end.

(** The WHERE clause of the statement of the fallback, for one word. *)
Definition word_where (word : string) (n : Db.node_row) : bool :=
  like (around word) (Db.node_name n)
  || like (around word) (Db.node_display_name n)
  || like_null (around word) (Db.node_description n).

(** [for r in word_rows: if r["id"] not in seen_ids: ...] *)
Definition combine_row (st : gset Z * list node_hit) (r : node_hit)
  : gset Z * list node_hit :=
  if bool_decide (Db.node_id (nh_node r) ∈ st.1) then st
  else ({[Db.node_id (nh_node r)]} ∪ st.1, st.2 ++ [r]).

Section NodeSearch.

(** [ORDER BY n.name]: the rows by their names; the order of rows of
    one name is SQLite's to choose. *)
Variable order_by_name : list Db.node_row -> list Db.node_row.

(** [... WHERE w ORDER BY n.name LIMIT ?], [fetchall()] *)
Definition select_nodes (c : Db.conn) (w : Db.node_row -> bool) (limit : Z)
  : list node_hit :=
  hit c <$> sql_limit limit
              (order_by_name (filter (fun n => w n = true) (Db.nodes c))).

(** The body of [for word in query.split()]. *)
Definition combine_word (c : Db.conn) (limit : Z)
           (st : gset Z * list node_hit) (word : string)
  : gset Z * list node_hit :=
  if (String.length word <? 2)%nat then st
  else foldl combine_row st (select_nodes c (word_where word) limit).

(** [search_nodes(conn, query, category, limit)] *)
Definition search_nodes (c : Db.conn) (query : string)
           (category : option string) (limit : Z) : list node_hit :=
  let rows := select_nodes c (primary_where query category) limit in
  match rows with
  | [] =>
      if Py.contains " " query
      then
        Py.slice_to
          (foldl (combine_word c limit) (∅, []) (Py.split_ws query)).2 limit
      else rows
  | _ :: _ => rows
  end.

End NodeSearch.

End Query.

(** * Notions used to state the properties *)

(** ** The fetcher *)

(** The response is a "too many requests". *)
Definition is_429 (o : Fetch.outcome) : Prop :=
  exists r, o = Fetch.Returns r /\ Fetch.status_code r = 429.

(** The response is a success within the size limits. *)
Definition acceptable (r : Fetch.response) : Prop :=
  Fetch.is_success (Fetch.status_code r) = true
  /\ (Fetch.content_length r = None
      \/ exists n, Fetch.content_length r = Some (inl n) /\ n <= Fetch.MAX_RESPONSE_SIZE)
  /\ Z.of_nat (String.length (Fetch.text r)) <= Fetch.MAX_RESPONSE_SIZE.

(** The requests that met a 429 and the waits after them: attempts
    [a], [a+1], ..., [a+k-1]. *)
Fixpoint retries (a k : nat) : list Fetch.event :=
  match k with
  | O => []
  | S k' =>
      Fetch.Get (Z.of_nat a) :: Fetch.Sleep (10 * (Z.of_nat a + 1)) :: retries (S a) k'
  end.

(** Exactly one of content and error. *)
Definition one_of (r : Fetch.result) : Prop :=
  (is_Some (Fetch.html r) /\ Fetch.error r = None)
  \/ (Fetch.html r = None /\ is_Some (Fetch.error r)).

(** A network that answers 429 three times and then succeeds. *)
Definition net_three_429 (i k : nat) : Fetch.outcome :=
  Fetch.Returns
    (if (k <? 3)%nat
     then {| Fetch.status_code := 429; Fetch.status_error := "";
             Fetch.content_length := None; Fetch.text := "slow down" |}
     else {| Fetch.status_code := 200; Fetch.status_error := "";
             Fetch.content_length := Some (inl 6);
             Fetch.text := "<html>" |}).

(** ** The markdown extractor *)

(** The headings of a text that lie outside its code fences, in order:
    level and text of each. *)
Fixpoint headings_of (in_code : bool) (lines : list string)
  : list (Z * string) :=
  match lines with
  | [] => []
  | line :: rest =>
      if Py.startswith "```" line then headings_of (negb in_code) rest
      else if in_code then headings_of true rest
      else
        match Markdown.heading_match line with
        | Some (hashes, text) =>
            (Z.of_nat (String.length hashes), Py.strip text)
              :: headings_of false rest
        | None => headings_of false rest
        end
  end.

(** The text of the first level-1 heading that has a text, wherever it
    stands among the headings. *)
Fixpoint first_h1 (hs : list (Z * string)) : string :=
  match hs with
  | [] => ""
  | (lvl, text) :: rest =>
      if (lvl =? 1) && Py.truthy text then text else first_h1 rest
  end.

(** The headings without the level-1 headings up to and including the
    first one that has a text. *)
Fixpoint without_title (hs : list (Z * string)) : list (Z * string) :=
  match hs with
  | [] => []
  | (lvl, text) :: rest =>
      if lvl =? 1 then (if Py.truthy text then rest else without_title rest)
      else (lvl, text) :: without_title rest
  end.

(** The title as the specification words it: the first heading, if it
    is a level-1 heading; a level-1 heading after another heading is none. *)
Definition spec_title (hs : list (Z * string)) : string :=
  match hs with
  | (1, text) :: _ => text
  | _ => ""
  end.

Definition section_key (s : section) : Z * string := (level s, heading s).

Definition md_lines (content : string) : list string :=
  Py.split_on "010"%char content.

(** A level-2 heading, then a level-1 heading. *)
Definition md_h2_then_h1 : string :=
  "## Setup" +:+ Markdown.nl +:+ "# Title".

(** The example of the specification. *)
Definition md_example : string :=
  "# Title" +:+ Markdown.nl +:+ "## Setup" +:+ Markdown.nl +:+ "text"
  +:+ Markdown.nl +:+ "```python" +:+ Markdown.nl +:+ "print(1)"
  +:+ Markdown.nl +:+ "```".

(** ** The HTML extractor *)

(** [occurs_in n h rest]: the node [h] lies below [n], and [rest] are the
    nodes that follow [h] under its parent. *)
Inductive occurs_in : Html.node -> Html.node -> list Html.node -> Prop :=
| occurs_child name attrs before h rest :
    occurs_in (Html.Tag name attrs (before ++ h :: rest)) h rest
| occurs_deeper name attrs kids k h rest :
    k ∈ kids -> occurs_in k h rest ->
    occurs_in (Html.Tag name attrs kids) h rest.

Definition is_heading (n : Html.node) : bool :=
  Html.has_name ["h1"; "h2"; "h3"; "h4"] n.

(** The level of a heading element h1..h4, 0 for any other node. *)
Definition level_of (n : Html.node) : Z :=
  match Html.name_of n with
  | Some "h1" => 1
  | Some "h2" => 2
  | Some "h3" => 3
  | Some "h4" => 4
  | _ => 0
  end.

(** The body as the specification words it: the sibling elements up to
    the next heading of equal or higher level, so that what stands under
    a deeper sub-heading belongs to the body. *)
Fixpoint spec_section_parts (lvl : Z) (siblings : list Html.node)
  : list string :=
  match siblings with
  | [] => []
  | sib :: rest =>
      if is_heading sib && (level_of sib <=? lvl) then []
      else Html.get_text_strip Markdown.nl sib :: spec_section_parts lvl rest
  end.

Definition spec_section_content (h : Html.node) (following : list Html.node)
  : string :=
  Py.join Markdown.nl
    (spec_section_parts (level_of h)
       (filter (fun n => Html.is_tag n = true) following)).

Definition el (name text : string) : Html.node :=
  Html.Tag name [] [Html.Text text].

(** A page with a section "Agents" that has a sub-section "Tools". *)
Definition nested_headings : list Html.node :=
  [el "h2" "Agents"; el "p" "An agent runs tasks.";
   el "h3" "Tools"; el "p" "Tools extend agents.";
   el "h2" "Rules"; el "p" "Rules steer output."].

Definition nested_page : Html.node :=
  Html.Tag "[document]" []
    [Html.Tag "html" []
       [Html.Tag "body" []
          [Html.Tag "article" [("class", Html.AList ["md-content__inner"])]
             (el "h1" "Guide" :: nested_headings)]]].

(** The same page with the sub-section inside an element of its own:
    the heading "Tools" is no sibling of the heading "Agents". *)
Definition boxed_headings : list Html.node :=
  [el "h2" "Agents"; el "p" "An agent runs tasks.";
   Html.Tag "div" [] [el "h3" "Tools"; el "p" "Tools extend agents."];
   el "h2" "Rules"; el "p" "Rules steer output."].

Definition boxed_page : Html.node :=
  Html.Tag "[document]" []
    [Html.Tag "html" []
       [Html.Tag "body" []
          [Html.Tag "article" [("class", Html.AList ["md-content__inner"])]
             (el "h1" "Guide" :: boxed_headings)]]].

(** The pieces of text below a node, in document order: every string
    stripped, the empty ones left out. *)
Definition text_pieces (n : Html.node) : list string :=
  filter (fun s => Py.truthy s = true) (Py.strip <$> Html.strings_of n).

(** ** The store *)

(** Both full-text indexes hold the documents of their tables, no more
    and no less. *)
Definition fts_synced (c : Db.conn) : Prop :=
  Db.pages_fts c ≡ₚ Db.page_doc <$> Db.pages c
  /\ Db.sections_fts c ≡ₚ Db.section_doc <$> Db.sections c.

(** No section and no code example refers to the page [pid]. *)
Definition no_children_of (pid : Z) (c : Db.conn) : Prop :=
  (forall s, s ∈ Db.sections c -> Db.sec_page_id s <> pid)
  /\ (forall e, e ∈ Db.code_examples c -> Db.ex_page_id e <> pid).

(** The rows of [pages] with a given URL. *)
Definition pages_at (u : string) (c : Db.conn) : list Db.page_row :=
  filter (fun p => Db.page_url p = u) (Db.pages c).

(** A step of a [try] block keeps a property of the state, whether it
    ends in an error or not. *)
Definition preserves {A} (I : Scrape.state -> Prop) (m : Scrape.try_block A)
  : Prop :=
  forall s, I s -> I (m s).1.

(** A page of the framework documentation, as extracted. *)
Definition agents_values (title body : string) : Db.page_values :=
  {| Db.v_url := "https://docs.griptape.ai/stable/framework/agents/";
     Db.v_source := "framework"; Db.v_title := title; Db.v_content := body;
     Db.v_content_html := "<article>" +:+ body +:+ "</article>";
     Db.v_breadcrumbs := "[]"; Db.v_last_modified := None |}.

Definition agents_sections : list section :=
  [{| heading := "Setup"; level := 2; content := "pip install";
      anchor := "setup" |}].

Definition agents_examples : list code_example :=
  [{| language := "python"; code := "Agent()"; context := "Setup" |}].

(** The database after one scrape of that page. *)
Definition scraped_once : Scrape.state :=
  (Scrape.write_page "2024-05-01 10:00:00" (agents_values "Agents" "v1")
     agents_sections agents_examples (Db.empty, Scrape.zero)).1.

(** ... and after a second scrape of the same URL. *)
Definition scraped_twice : Scrape.state :=
  (Scrape.write_page "2024-05-02 10:00:00" (agents_values "Agents" "v2")
     agents_sections agents_examples (scraped_once.1, Scrape.zero)).1.

(** From a state with [P], the block ends without an error, in a state
    and with a value that satisfy [Q]. *)
Definition succeeds {A} (P : Scrape.state -> Prop) (m : Scrape.try_block A)
           (Q : A -> Scrape.state -> Prop) : Prop :=
  forall s, P s -> exists a, (m s).2 = Db.Ok a /\ Q a (m s).1.

(** Foreign keys are enforced and the page [pid] is there. *)
Definition ready_for (pid : Z) (s : Scrape.state) : Prop :=
  Db.foreign_keys s.1 = true /\ Db.has_page s.1 pid = true.

(** ** The scrapers *)

(** No page row has an empty title. *)
Definition titles_nonempty (c : Db.conn) : Prop :=
  forall p, p ∈ Db.pages c -> Db.page_title p <> "".


(** A markdown file without any heading. *)
Definition faq_file : Scrape.github_result :=
  {| Scrape.g_path := "docs/faq.md"; Scrape.g_name := "faq.md";
     Scrape.g_download_url :=
       "https://raw.githubusercontent.com/griptape-ai/griptape-nodes/main/docs/faq.md";
     Scrape.g_content := Some "Questions and answers.";
     Scrape.g_error := None |}.

(** A parser library whose documents have no top-level heading. *)
Definition untitled_library : Scrape.library :=
  {| Scrape.parse_html := fun html => Html.Tag "[document]" [] [Html.Text html];
     Scrape.to_html := fun _ => "";
     Scrape.json_dumps := fun _ => "[]" |}.

(** A response that declares eleven million bytes. *)
Definition big_response : Fetch.response :=
  {| Fetch.status_code := 200; Fetch.status_error := "";
     Fetch.content_length := Some (inl 11000000);
     Fetch.text := "<html>" |}.

(** ** The query layer *)

(** The node satisfies the WHERE clause of one of the three tiers. *)
Definition matches_somewhere (name : string) (n : Db.node_row) : bool :=
  Query.exact_match name n || Query.like_match name n
  || Query.stripped_match name n.

(** The two pairs of a stored name and a query of the specification. *)
Definition spaced_pair (stored query : string) : Prop :=
  (stored = "LoadImage" /\ query = "Load Image")
  \/ (stored = "Load Image" /\ query = "LoadImage").

Definition node_named (id : Z) (name : string) : Db.node_row :=
  {| Db.node_id := id; Db.node_name := name; Db.node_display_name := name;
     Db.node_category := "Image"; Db.node_description := None;
     Db.node_page_id := None |}.

Definition with_nodes (rows : list Db.node_row) : Db.conn :=
  {| Db.foreign_keys := false; Db.recursive_triggers := false;
     Db.pages := []; Db.sections := []; Db.code_examples := [];
     Db.nodes := rows; Db.pages_fts := []; Db.sections_fts := [];
     Db.seq_pages := 0; Db.seq_sections := 0; Db.seq_code_examples := 0;
     Db.seq_nodes := Z.of_nat (length rows) |}.

(** A store with the node "LoadImage" alone, and one where a node
    "Load Image Batch" was stored before it. *)
Definition one_loader : Db.conn := with_nodes [node_named 1 "LoadImage"].

Definition two_loaders : Db.conn :=
  with_nodes [node_named 1 "Load Image Batch"; node_named 2 "LoadImage"].

(** A store where the node "Load Image" comes after a node whose name
    holds the same words. *)
Definition exact_second : Db.conn :=
  with_nodes [node_named 1 "Load Image Batch"; node_named 2 "Load Image"].

(** [n] is the first row of [nodes], in table order, that satisfies the
    WHERE clause [w]. *)
Definition first_row (w : Db.node_row -> bool) (c : Db.conn)
           (n : Db.node_row) : Prop :=
  exists before after,
    Db.nodes c = before ++ n :: after
    /\ Forall (fun m => w m = false) before
    /\ w n = true.

(** No row of [nodes] satisfies the WHERE clause [w]. *)
Definition no_row (w : Db.node_row -> bool) (c : Db.conn) : Prop :=
  Forall (fun m => w m = false) (Db.nodes c).

(** The rows in order, each code example at its first occurrence only;
    examples whose id is in [seen] are left out. *)
Fixpoint first_seen (seen : list Z) (rows : list Query.sql_row)
  : list Query.sql_row :=
  match rows with
  | [] => []
  | r :: rest =>
      if bool_decide (Query.ce_id r ∈ seen) then first_seen seen rest
      else r :: first_seen (Query.ce_id r :: seen) rest
  end.

Definition distinct (rows : list Query.sql_row) : list Query.sql_row :=
  first_seen [] rows.

Definition ids (rows : list Query.sql_row) : list Z := Query.ce_id <$> rows.

(** A store with one page, one section and two code examples, of which
    the first is linked to the section. *)
Definition agents_store : Db.conn :=
  {| Db.foreign_keys := false; Db.recursive_triggers := false;
     Db.pages :=
       [{| Db.page_id := 1;
           Db.page_url := "https://docs.griptape.ai/stable/framework/agents/";
           Db.page_source := "framework"; Db.page_title := "Structures";
           Db.page_content := "How to build an agent.";
           Db.page_content_html := ""; Db.page_breadcrumbs := "[]";
           Db.page_last_modified := None;
           Db.page_crawled_at := "2024-05-01 10:00:00" |}];
     Db.sections :=
       [{| Db.sec_id := 1; Db.sec_page_id := 1; Db.sec_heading := "Agent";
           Db.sec_level := 2; Db.sec_content := "An agent runs tasks.";
           Db.sec_anchor := "agent" |}];
     Db.code_examples :=
       [{| Db.ex_id := 1; Db.ex_page_id := 1; Db.ex_section_id := None;
           Db.ex_language := "python"; Db.ex_code := "import Agent";
           Db.ex_context := "" |};
        {| Db.ex_id := 2; Db.ex_page_id := 1; Db.ex_section_id := Some 1;
           Db.ex_language := "python"; Db.ex_code := "Agent().run()";
           Db.ex_context := "Agent" |}];
     Db.nodes := [];
     Db.pages_fts :=
       [{| Db.rowid := 1; Db.col_a := "Structures";
           Db.col_b := "How to build an agent." |}];
     Db.sections_fts :=
       [{| Db.rowid := 1; Db.col_a := "Agent";
           Db.col_b := "An agent runs tasks." |}];
     Db.seq_pages := 1; Db.seq_sections := 1; Db.seq_code_examples := 2;
     Db.seq_nodes := 0 |}.

(** A stand-in for the FTS5 engine: a document matches when the query
    occurs in its first column; documents keep their order. *)
Definition fts5_by_substring (q : string) (idx : list Db.fts_doc)
  : option (list Z) :=
  Some (Db.rowid <$> filter (fun d => Py.contains q (Db.col_a d) = true) idx).

(** The two halves of [fts_synced]. *)
Definition pages_synced (c : Db.conn) : Prop :=
  Db.pages_fts c ≡ₚ Db.page_doc <$> Db.pages c.

Definition sections_synced (c : Db.conn) : Prop :=
  Db.sections_fts c ≡ₚ Db.section_doc <$> Db.sections c.

(** A rendered page with a title, breadcrumbs, two sections and two code
    blocks. *)
Definition agents_page : Html.node :=
  Html.Tag "[document]" []
    [Html.Tag "html" []
       [Html.Tag "body" []
          [Html.Tag "nav" [("class", Html.AList ["md-breadcrumb"])]
             [Html.Tag "a" [] [Html.Text "Home"];
              Html.Tag "a" [] [Html.Text " Structures "]];
           Html.Tag "div" [("class", Html.AList ["md-content"])]
             [Html.Tag "article"
                [("class", Html.AList ["md-content__inner"; "md-typeset"])]
                [Html.Tag "h1" []
                   [Html.Text "Agents";
                    Html.Tag "a" [] [Html.Text Html.pilcrow]];
                 el "p" "An agent runs tasks.";
                 Html.Tag "h2" [("id", Html.AStr "setup")]
                   [Html.Text "Setup";
                    Html.Tag "a" [] [Html.Text Html.pilcrow]];
                 Html.Tag "pre" []
                   [Html.Tag "code" [("class", Html.AList ["language-sh"])]
                      [Html.Text ("pip install griptape" +:+ Markdown.nl)]];
                 Html.Tag "h3" [("id", Html.AStr "usage")]
                   [Html.Text "Usage"];
                 el "p" "Create one:";
                 Html.Tag "div" [("class", Html.AList ["highlight"])]
                   [Html.Tag "pre" []
                      [Html.Tag "code"
                         [("class", Html.AList ["highlight-python"])]
                         [Html.Text "Agent()"]]]]]]]].

(** The primary keys of the three tables are keys. *)
Definition keys_unique (c : Db.conn) : Prop :=
  NoDup (Db.page_id <$> Db.pages c)
  /\ NoDup (Db.sec_id <$> Db.sections c)
  /\ NoDup (Db.ex_id <$> Db.code_examples c).

(** * Notions used to state further properties *)

(** ** Runs of the scrapers *)

(** A property of the database that each of the four write statements of
    the scrapers keeps. *)
Definition kept_by_statements (I : Db.conn -> Prop) : Prop :=
  (forall now v c, I c -> I (Db.insert_or_replace_page now v c).1)
  /\ (forall pid s c c', I c -> Db.insert_section pid s c = Db.Ok c' -> I c')
  /\ (forall pid sid e c c',
         I c -> Db.insert_code_example pid sid e c = Db.Ok c' -> I c')
  /\ (forall name display_name category description pid c c',
         I c ->
         Db.insert_node name display_name category description pid c
         = Db.Ok c' ->
         I c').

(** [scraped db s]: one of the three scrapers, started on the database
    [db], ran to its commit and left the state [s]. *)
Definition scraped (db : Db.conn) (s : Scrape.state) : Prop :=
  (exists lib net clock entries,
      Scrape.scrape_framework lib net clock entries db = inr s)
  \/ (exists lib normalize_url net clock entries,
         Scrape.scrape_nodes lib normalize_url net clock entries db = inr s)
  \/ (exists clock results, Scrape.scrape_github clock results db = inr s).

(** The ids of a table stand in ascending order, none above the counter
    of the table. *)
Definition ascending (ids : list Z) (seq : Z) : Prop :=
  StronglySorted Z.lt ids /\ Forall (fun i => i <= seq) ids.

Definition rows_in_order (c : Db.conn) : Prop :=
  ascending (Db.page_id <$> Db.pages c) (Db.seq_pages c)
  /\ ascending (Db.sec_id <$> Db.sections c) (Db.seq_sections c)
  /\ ascending (Db.ex_id <$> Db.code_examples c) (Db.seq_code_examples c)
  /\ ascending (Db.node_id <$> Db.nodes c) (Db.seq_nodes c).

(** No two page rows hold the same URL. *)
Definition urls_unique (c : Db.conn) : Prop :=
  NoDup (Db.page_url <$> Db.pages c).

(** Foreign keys are enforced and every reference resolves: sections,
    code examples and nodes to their page, code examples to their
    section. *)
Definition references_resolve (c : Db.conn) : Prop :=
  Db.foreign_keys c = true
  /\ (forall s, s ∈ Db.sections c -> Db.has_page c (Db.sec_page_id s) = true)
  /\ (forall e, e ∈ Db.code_examples c ->
                Db.has_page c (Db.ex_page_id e) = true
                /\ forall sid, Db.ex_section_id e = Some sid ->
                               Db.has_section c sid = true)
  /\ (forall n pid, n ∈ Db.nodes c -> Db.node_page_id n = Some pid ->
                    Db.has_page c pid = true).

(** Every page row is in the full-text index as it stands in the table;
    [recursive_triggers] is off, as the scrapers leave it. *)
Definition pages_indexed (c : Db.conn) : Prop :=
  Db.recursive_triggers c = false
  /\ forall p, p ∈ Db.pages c -> Db.page_doc p ∈ Db.pages_fts c.

(** Two runs of the GitHub scraper over one file, the second on the
    database the first one left. *)
Definition node_file : Scrape.github_result :=
  {| Scrape.g_path := "docs/nodes/image/load_image.md";
     Scrape.g_name := "load_image.md";
     Scrape.g_download_url :=
       "https://raw.githubusercontent.com/griptape-ai/griptape-nodes/main/docs/nodes/image/load_image.md";
     Scrape.g_content := Some md_example;
     Scrape.g_error := None |}.

Definition github_once : Scrape.state :=
  match Scrape.scrape_github (fun _ => "2024-05-01 10:00:00")
          [node_file; faq_file] Db.empty with
  | inr s => s
  | inl _ => (Db.empty, Scrape.zero)
  end.

Definition github_twice : Scrape.state :=
  match Scrape.scrape_github (fun _ => "2024-05-02 10:00:00")
          [node_file] github_once.1 with
  | inr s => s
  | inl _ => (Db.empty, Scrape.zero)
  end.

(** What a scraper run leaves of a node row: all but its page link. *)
Definition node_key (n : Db.node_row)
  : Z * string * string * string * option string :=
  (Db.node_id n, Db.node_name n, Db.node_display_name n, Db.node_category n,
   Db.node_description n).

(** A property of the connection and the counters together that each
    statement of the scrapers keeps when it is followed by its count,
    and that counting an error keeps. *)
Definition kept_by_steps (J : Scrape.state -> Prop) : Prop :=
  (forall now v c st,
      J (c, st) ->
      J ((Db.insert_or_replace_page now v c).1, Scrape.count_page st))
  /\ (forall pid s c c' st,
         J (c, st) -> Db.insert_section pid s c = Db.Ok c' ->
         J (c', Scrape.count_section st))
  /\ (forall pid sid e c c' st,
         J (c, st) -> Db.insert_code_example pid sid e c = Db.Ok c' ->
         J (c', Scrape.count_example st))
  /\ (forall name display_name category description pid c c' st,
         J (c, st) ->
         Db.insert_node name display_name category description pid c
         = Db.Ok c' ->
         J (c', Scrape.count_node st))
  /\ (forall c st, J (c, st) -> J (c, Scrape.count_error st)).

(** The node rows of [c0] are kept by [s], and [s] has as many more as
    its counter of nodes says. *)
Definition nodes_added (c0 : Db.conn) (s : Scrape.state) : Prop :=
  exists added,
    node_key <$> Db.nodes s.1 = (node_key <$> Db.nodes c0) ++ added
    /\ Z.of_nat (length added) = Scrape.n_nodes s.2.

(** ** The counters of a run *)

(** The files whose fetch gave an error, and those it gave the text of. *)
Definition failed_files (results : list Scrape.github_result)
  : list Scrape.github_result :=
  filter (fun r => Scrape.has_error (Scrape.g_error r) = true) results.

Definition fetched_files (results : list Scrape.github_result)
  : list Scrape.github_result :=
  filter (fun r => Scrape.has_error (Scrape.g_error r) = false) results.

(** The results of [fetch_pages] that carry an error, and those whose
    page has a title once extracted. *)
Definition failed_pages (pages : list Fetch.result) : list Fetch.result :=
  filter (fun r => Scrape.has_error (Fetch.error r) = true) pages.

Definition titled (lib : Scrape.library) (r : Fetch.result) : bool :=
  negb (Scrape.has_error (Fetch.error r))
  && match Fetch.html r with
     | Some html =>
         Py.truthy
           (Html.e_title
              (Html.extract_mkdocs_content (Scrape.parse_html lib)
                 (Scrape.to_html lib) html))
     | None => false
     end.

Definition titled_pages (lib : Scrape.library) (pages : list Fetch.result)
  : list Fetch.result :=
  filter (fun r => titled lib r = true) pages.

(** The counters of errors and of pages after a loop over [pages]. *)
Definition counts_pages (lib : Scrape.library) (pages : list Fetch.result)
           (s : Scrape.state) : Prop :=
  Scrape.n_errors s.2 = Z.of_nat (length (failed_pages pages))
  /\ Scrape.n_pages s.2 = Z.of_nat (length (titled_pages lib pages)).

(** A parser library that reads every document as [agents_page]. *)
Definition agents_library : Scrape.library :=
  {| Scrape.parse_html := fun _ => agents_page;
     Scrape.to_html := fun _ => "";
     Scrape.json_dumps := fun _ => "[]" |}.

(** A network that serves the first URL and refuses the others. *)
Definition net_first_only (i k : nat) : Fetch.outcome :=
  match i with
  | O => Fetch.Returns
           {| Fetch.status_code := 200; Fetch.status_error := "";
              Fetch.content_length := None; Fetch.text := "<html>" |}
  | S _ => Fetch.Raises (Fetch.OtherException "connection refused")
  end.

Definition two_entries : list Scrape.entry :=
  [("https://docs.griptapenodes.com/en/stable/nodes/image/load_image/",
    Some "2024-04-30");
   ("https://docs.griptapenodes.com/en/stable/faq/", None)].

Definition web_once : Scrape.state :=
  match Scrape.scrape_nodes agents_library id net_first_only
          (fun _ => "2024-05-01 10:00:00") two_entries Db.empty with
  | inr s => s
  | inl _ => (Db.empty, Scrape.zero)
  end.

(** ** The fetcher, further *)

(** The request fails for good with the message [msg]: a status that is
    neither a success nor 429, or an exception other than a 429. *)
Definition hard_failure (o : Fetch.outcome) (msg : string) : Prop :=
  (exists r, o = Fetch.Returns r /\ Fetch.status_code r <> 429
             /\ Fetch.is_success (Fetch.status_code r) = false
             /\ msg = Fetch.status_error r)
  \/ (exists st, o = Fetch.Raises (Fetch.HTTPStatusError st msg) /\ st <> 429)
  \/ o = Fetch.Raises (Fetch.OtherException msg).

Definition total (l : list Z) : Z := foldr Z.add 0 l.

(** The seconds that the waits after 429 responses can take from
    attempt [a] on, with [remaining] attempts left. *)
Fixpoint budget (a remaining : nat) : Z :=
  match remaining with
  | O => 0
  | S remaining' => 10 * (Z.of_nat a + 1) + budget (S a) remaining'
  end.

(** A network that answers 429 once and then 404. *)
Definition net_429_then_404 (k : nat) : Fetch.outcome :=
  Fetch.Returns
    (match k with
     | O => {| Fetch.status_code := 429; Fetch.status_error := "";
               Fetch.content_length := None; Fetch.text := "slow down" |}
     | S _ => {| Fetch.status_code := 404;
                 Fetch.status_error := "Client error '404 Not Found'";
                 Fetch.content_length := None; Fetch.text := "" |}
     end).

(** ** The extractors, further *)

(** What holds of every result of the markdown extractor: the levels
    and anchors of the sections, and code, language and context of the
    code examples. *)
Definition section_well_formed (s : section) : Prop :=
  1 <= level s <= 4 /\ anchor s = Markdown.anchor_of (heading s).

Definition example_well_formed (headings : list string) (e : code_example)
  : Prop :=
  Py.truthy (Py.strip (code e)) = true
  /\ language e <> ""
  /\ (context e = "" \/ context e ∈ headings).

Definition well_formed (d : Markdown.parsed) : Prop :=
  Forall section_well_formed (Markdown.p_sections d)
  /\ Forall (example_well_formed (heading <$> Markdown.p_sections d))
            (Markdown.p_code_examples d).

(** ** The queries, further *)


(** The rows by their names, in the order of the bytes. *)
Definition name_le (a b : Db.node_row) : Prop :=
  String.leb (Db.node_name a) (Db.node_name b) = true.

Global Instance name_le_dec : RelDecision name_le.
Proof. intros a b. unfold name_le. apply _. Defined.

Definition by_name (rows : list Db.node_row) : list Db.node_row :=
  merge_sort name_le rows.

(** Why a node is in the result of [search_nodes]: it satisfies the
    first statement, or that of the fallback for a word of the query. *)
Definition found_by (query : string) (category : option string)
           (n : Db.node_row) : Prop :=
  Query.primary_where query category n = true
  \/ exists word, word ∈ Py.split_ws query
                  /\ (2 <= String.length word)%nat
                  /\ Query.word_where word n = true.

Definition hit_id (r : Query.node_hit) : Z := Db.node_id (Query.nh_node r).

(** ** Reading back what a scraper wrote *)

(** The tables are in the order of their ids and every reference
    resolves: what [init_db] gives and the scrapers keep. *)
Definition consistent (c : Db.conn) : Prop :=
  rows_in_order c /\ references_resolve c.

(** The entry of the extractor that a row holds. *)
Definition section_of_row (r : Db.section_row) : section :=
  {| heading := Db.sec_heading r; level := Db.sec_level r;
     content := Db.sec_content r; anchor := Db.sec_anchor r |}.

Definition example_of_row (r : Db.example_row) : code_example :=
  {| language := Db.ex_language r; code := Db.ex_code r;
     context := Db.ex_context r |}.

(** The section a code example is linked to: the first section of its
    page under the heading that its context names; none for an empty
    context or a context that is no heading of the page. *)
Definition linked_section (sections : list Db.section_row) (ctx : string)
  : option Z :=
  if Py.truthy ctx
  then Db.sec_id <$> head (filter (fun s => Db.sec_heading s = ctx) sections)
  else None.

(** The rows that belong to the page at [u]: its one row in [pages] and
    the sections and code examples that refer to it. *)
Definition stored_under (c : Db.conn) (u : string) (p : Db.page_row)
           (srows : list Db.section_row) (erows : list Db.example_row)
  : Prop :=
  pages_at u c = [p]
  /\ filter (fun s => Db.sec_page_id s = Db.page_id p) (Db.sections c) = srows
  /\ filter (fun e => Db.ex_page_id e = Db.page_id p) (Db.code_examples c)
     = erows.

Definition links_within (srows : list Db.section_row)
           (erows : list Db.example_row) : Prop :=
  forall e sid, e ∈ erows -> Db.ex_section_id e = Some sid ->
                sid ∈ Db.sec_id <$> srows.

(** The rows as the block for the values [v] at the time [now] writes
    them, for the sections [secs] and the code examples [exs]. *)
Definition written_as (v : Db.page_values) (now : string)
           (secs : list section) (exs : list code_example)
           (p : Db.page_row) (srows : list Db.section_row)
           (erows : list Db.example_row) : Prop :=
  Db.page_url p = Db.v_url v /\ Db.page_source p = Db.v_source v
  /\ Db.page_title p = Db.v_title v /\ Db.page_content p = Db.v_content v
  /\ Db.page_content_html p = Db.v_content_html v
  /\ Db.page_breadcrumbs p = Db.v_breadcrumbs v
  /\ Db.page_last_modified p = Db.v_last_modified v
  /\ Db.page_crawled_at p = now
  /\ section_of_row <$> srows = secs
  /\ example_of_row <$> erows = exs
  /\ Forall (fun e => Db.ex_section_id e
                      = linked_section srows (Db.ex_context e)) erows.

(** The page of [v] can be read back with the lookups of db.py as it
    was written. *)
Definition reads_back (c : Db.conn) (v : Db.page_values) (now : string)
           (secs : list section) (exs : list code_example) : Prop :=
  exists p,
    Query.get_page_by_url c (Db.v_url v) = Some p
    /\ written_as v now secs exs p
         (Query.get_page_sections c (Db.page_id p))
         (Query.get_page_code_examples c (Db.page_id p)).

(** The title and the values that the GitHub scraper binds for a file
    with the text [md]. *)
Definition github_title (r : Scrape.github_result) (md : string) : string :=
  if negb (Py.truthy (Markdown.p_title (Markdown.parse_markdown md)))
  then Scrape.filename_title (Scrape.g_name r)
  else Markdown.p_title (Markdown.parse_markdown md).

Definition github_values (r : Scrape.github_result) (md : string)
  : Db.page_values :=
  {| Db.v_url := Scrape.path_to_docs_url (Scrape.g_path r);
     Db.v_source := Scrape.NODES_SOURCE;
     Db.v_title := github_title r md;
     Db.v_content := md;
     Db.v_content_html := "";
     Db.v_breadcrumbs := "[]";
     Db.v_last_modified := None |}.

(** The file was fetched, with the text [md]. *)
Definition fetched (r : Scrape.github_result) (md : string) : Prop :=
  Scrape.has_error (Scrape.g_error r) = false
  /\ Scrape.g_content r = Some md.

(** What the extractor makes of a fetched page. *)
Definition extracted_of (lib : Scrape.library) (html : string)
  : Html.extracted :=
  Html.extract_mkdocs_content (Scrape.parse_html lib) (Scrape.to_html lib)
    html.

(** The page was fetched, with the text [html], and has a title. *)
Definition web_written (lib : Scrape.library) (r : Fetch.result)
           (html : string) : Prop :=
  Scrape.has_error (Fetch.error r) = false
  /\ Fetch.html r = Some html
  /\ Py.truthy (Html.e_title (extracted_of lib html)) = true.

(** The URLs that the two web scrapers fetch, and the map of the
    node-docs scraper. *)
Definition framework_urls (entries : list Scrape.entry) : list string :=
  filter (fun u => Scrape.should_skip Scrape.FRAMEWORK_SKIP_PATTERNS u = false)
         (fst <$> entries).

Definition nodes_urls (normalize_url : string -> string)
           (entries : list Scrape.entry) : list string :=
  Scrape.dedup_first []
    (normalize_url
       <$> filter (fun u => Scrape.should_skip Scrape.NODES_SKIP_PATTERNS u
                            = false) (fst <$> entries)).

Definition nodes_lastmod (normalize_url : string -> string)
           (entries : list Scrape.entry) : gmap string (option string) :=
  Scrape.lastmod_map_of ((fun e => (normalize_url e.1, e.2)) <$> entries).

(** A node row without its page link. *)
Definition unlinked (n : Db.node_row) : Db.node_row :=
  {| Db.node_id := Db.node_id n; Db.node_name := Db.node_name n;
     Db.node_display_name := Db.node_display_name n;
     Db.node_category := Db.node_category n;
     Db.node_description := Db.node_description n;
     Db.node_page_id := None |}.

(** The first node that has the name [name] is [n]. *)
Definition first_named (name : string) (n : Db.node_row) (c : Db.conn)
  : Prop :=
  head (filter (fun n => Query.exact_match name n = true) (Db.nodes c))
  = Some n.

(** The page row that [web_once] holds. *)
Definition web_once_page : Db.page_row :=
  {| Db.page_id := 1;
     Db.page_url :=
       "https://docs.griptapenodes.com/en/stable/nodes/image/load_image/";
     Db.page_source := "nodes"; Db.page_title := "Agents";
     Db.page_content :=
       Html.e_content_text (extracted_of agents_library "<html>");
     Db.page_content_html := ""; Db.page_breadcrumbs := "[]";
     Db.page_last_modified := Some "2024-04-30";
     Db.page_crawled_at := "2024-05-01 10:00:00" |}.

(** ** The sitemap *)

(** A sitemap of two URLs, the second without a date; a third element
    has no location. *)
Definition two_urls : list Sitemap.url_elem :=
  [{| Sitemap.loc := Some (Some " https://docs.griptape.ai/stable/a/ ");
      Sitemap.lastmod := Some (Some "2024-04-30") |};
   {| Sitemap.loc := Some (Some "https://docs.griptape.ai/stable/b/");
      Sitemap.lastmod := None |};
   {| Sitemap.loc := Some None; Sitemap.lastmod := Some (Some "2024-04-30") |}].

(** A network that answers 429 once and then serves the sitemap. *)
Definition net_429_then_sitemap (k : nat) : Fetch.outcome :=
  Fetch.Returns
    (match k with
     | O => {| Fetch.status_code := 429; Fetch.status_error := "";
               Fetch.content_length := None; Fetch.text := "slow down" |}
     | S _ => {| Fetch.status_code := 200; Fetch.status_error := "";
                 Fetch.content_length := None; Fetch.text := "<urlset/>" |}
     end).

(** ** What a run counts below the pages *)

(** The sections, code examples and nodes that a file of the GitHub
    scraper gives: none when its fetch gave an error. *)
Definition file_data (r : Scrape.github_result) : option Markdown.parsed :=
  if Scrape.has_error (Scrape.g_error r) then None
  else Markdown.parse_markdown <$> Scrape.g_content r.

Definition file_sections (r : Scrape.github_result) : Z :=
  match file_data r with
  | Some d => Z.of_nat (length (Markdown.p_sections d))
  | None => 0
  end.

Definition file_examples (r : Scrape.github_result) : Z :=
  match file_data r with
  | Some d => Z.of_nat (length (Markdown.p_code_examples d))
  | None => 0
  end.

Definition file_nodes (r : Scrape.github_result) : Z :=
  match Scrape.g_content r with
  | Some md =>
      if Scrape.has_error (Scrape.g_error r) then 0
      else match Scrape.extract_node_info_github (Scrape.g_path r)
                   (github_title r md) with
           | Some _ => 1
           | None => 0
           end
  | None => 0
  end.

(** The same for a result of [fetch_pages]: none when the fetch gave an
    error or the page has no title. *)
Definition page_data (lib : Scrape.library) (r : Fetch.result)
  : option Html.extracted :=
  if titled lib r then extracted_of lib <$> Fetch.html r else None.

Definition page_sections (lib : Scrape.library) (r : Fetch.result) : Z :=
  match page_data lib r with
  | Some d => Z.of_nat (length (Html.e_sections d))
  | None => 0
  end.

Definition page_examples (lib : Scrape.library) (r : Fetch.result) : Z :=
  match page_data lib r with
  | Some d => Z.of_nat (length (Html.e_code_examples d))
  | None => 0
  end.

Definition page_nodes (lib : Scrape.library) (r : Fetch.result) : Z :=
  match page_data lib r with
  | Some d =>
      match Scrape.extract_node_info (Fetch.url r) (Html.e_title d) with
      | Some _ => 1
      | None => 0
      end
  | None => 0
  end.

(** The three counters below the pages. *)
Definition counted (s : Scrape.state) : Z * Z * Z :=
  (Scrape.n_sections s.2, Scrape.n_code_examples s.2, Scrape.n_nodes s.2).

(** The state after the first step of the GitHub scraper on [node_file]. *)
Definition stepped_once : Scrape.state :=
  match Scrape.github_step "2024-05-01 10:00:00" (Db.empty, Scrape.zero)
          node_file with
  | inr s => s
  | inl _ => (Db.empty, Scrape.zero)
  end.
(** * Properties *)

(** ** The fetcher *)

Section FetchFacts.

Import Fetch.

Variable net : nat -> outcome.
Variable u : string.

Lemma accept_ok r :
  acceptable r ->
  accept u r
  = ({| url := u; html := Some (text r); error := None |},
     [Sleep REQUEST_DELAY]).
Proof.
  intros (_ & Hlen & Htext). unfold accept.
  assert (Hn : forall n, n <= MAX_RESPONSE_SIZE ->
                         (MAX_RESPONSE_SIZE <? n) = false)
    by (intros; apply Z.ltb_ge; lia).
  destruct Hlen as [-> | (n & -> & Hle)].
  - rewrite (Hn 0) by (unfold MAX_RESPONSE_SIZE; lia).
    by rewrite (Hn _ Htext).
  - rewrite (Hn n Hle). by rewrite (Hn _ Htext).
Qed.

Lemma attempts_retry (a rem : nat) r :
  net a = Returns r -> status_code r = 429 ->
  attempts net u a (S rem)
  = ((attempts net u (S a) rem).1,
     Get (Z.of_nat a) :: Sleep (10 * (Z.of_nat a + 1))
       :: (attempts net u (S a) rem).2).
Proof.
  intros Hnet H429. cbn [attempts]. rewrite Hnet, H429. cbn.
  by destruct (attempts net u (S a) rem).
Qed.

Lemma attempts_retries (k : nat) : forall a rem,
  (forall j, (j < k)%nat -> is_429 (net (a + j))) ->
  attempts net u a (k + rem)
  = ((attempts net u (a + k) rem).1,
     retries a k ++ (attempts net u (a + k) rem).2).
Proof.
  induction k as [|k IH]; intros a rem H.
  - rewrite Nat.add_0_r. cbn. by destruct (attempts net u a rem).
  - destruct (H 0%nat) as (r & Hr & H429); [lia|].
    rewrite Nat.add_0_r in Hr.
    change (S k + rem)%nat with (S (k + rem)).
    rewrite (attempts_retry _ _ _ Hr H429).
    rewrite IH.
    + replace (S a + k)%nat with (a + S k)%nat by lia. done.
    + intros j Hj. replace (S a + j)%nat with (a + S j)%nat by lia.
      apply H. lia.
Qed.

Lemma attempts_accept (a rem : nat) r :
  net a = Returns r -> acceptable r ->
  attempts net u a (S rem)
  = ({| url := u; html := Some (text r); error := None |},
     [Get (Z.of_nat a); Sleep REQUEST_DELAY]).
Proof.
  intros Hnet Hok. pose proof Hok as (Hs & _).
  cbn [attempts]. rewrite Hnet.
  assert ((status_code r =? 429) = false) as ->.
  { apply Z.eqb_neq. intros E. rewrite E in Hs. discriminate. }
  rewrite Hs. by rewrite (accept_ok _ Hok).
Qed.

Lemma accept_url r : url (accept u r).1 = u.
Proof.
  unfold accept.
  destruct (content_length r) as [[n|q]|]; cbn;
    repeat (case_match; cbn); done.
Qed.

Lemma accept_one_of r : one_of (accept u r).1.
Proof.
  unfold accept, one_of.
  destruct (content_length r) as [[n|q]|]; cbn;
    repeat (case_match; cbn); eauto.
Qed.

Lemma failed_one_of msg : one_of (failed u msg).
Proof. right. cbn. eauto. Qed.

(** What every run of the retry loop satisfies: the result is for [u],
    holds one of content and error, and the requests are the attempts
    [a], [a+1], ... in order, at most [rem] of them. *)
Lemma attempts_sound (rem : nat) : forall a,
  let re := attempts net u a rem in
  url re.1 = u /\ one_of re.1
  /\ exists n, (n <= rem)%nat
               /\ gets re.2 = Z.of_nat <$> seq a n.
Proof.
  induction rem as [|rem IH]; intros a; cbn zeta.
  - cbn. split_and!; [done|apply failed_one_of|].
    exists 0%nat. split; [lia|done].
  - specialize (IH (S a)). cbn zeta in IH.
    destruct IH as (IHu & IHo & n & Hn & Hg).
    assert (Hretry :
      let re := (let '(res, evs) := attempts net u (S a) rem in
                 (res, Get (Z.of_nat a)
                         :: Sleep (10 * (Z.of_nat a + 1)) :: evs)) in
      url re.1 = u /\ one_of re.1
      /\ exists n, (n <= S rem)%nat /\ gets re.2 = Z.of_nat <$> seq a n).
    { destruct (attempts net u (S a) rem) as [res evs]. cbn in *.
      split_and!; [done..|]. exists (S n). split; [lia|].
      change (gets (Get (Z.of_nat a)
                      :: Sleep (10 * (Z.of_nat a + 1)) :: evs))
        with (Z.of_nat a :: gets evs).
      by rewrite Hg. }
    assert (Hstop : forall re0 : result * list event,
      url re0.1 = u -> one_of re0.1 -> gets re0.2 = [] ->
      let re := (re0.1, Get (Z.of_nat a) :: re0.2) in
      url re.1 = u /\ one_of re.1
      /\ exists n, (n <= S rem)%nat /\ gets re.2 = Z.of_nat <$> seq a n).
    { intros re0 H1 H2 H3. cbn [fst snd]. split_and!; [done..|].
      exists 1%nat. split; [lia|].
      change (gets (Get (Z.of_nat a) :: re0.2))
        with (Z.of_nat a :: gets re0.2).
      by rewrite H3. }
    assert (Hacc : forall r, gets (accept u r).2 = []).
    { intros r. unfold accept.
      destruct (content_length r) as [[m|q]|]; cbn;
        repeat (case_match; cbn); done. }
    cbn [attempts].
    destruct (net a) as [r|[st msg|msg]].
    + destruct (status_code r =? 429); [exact Hretry|].
      destruct (is_success (status_code r)).
      * apply Hstop; [apply accept_url|apply accept_one_of|apply Hacc].
      * cbn. apply (Hstop (failed u (status_error r), []));
          [done|apply failed_one_of|done].
    + destruct ((st =? 429) && bool_decide (a < MAX_RETRIES - 1)%nat);
        [exact Hretry|].
      apply (Hstop (failed u msg, [])); [done|apply failed_one_of|done].
    + apply (Hstop (failed u msg, [])); [done|apply failed_one_of|done].
Qed.

End FetchFacts.

Lemma fetch_pages_lookup (net : nat -> nat -> Fetch.outcome)
      (urls : list string) (i : nat) :
  Fetch.fetch_pages net urls !! i
  = (fun u => (Fetch.fetch_one (net i) u).1) <$> urls !! i.
Proof. unfold Fetch.fetch_pages. by rewrite list_lookup_imap. Qed.

(** C6. A 429 is retried, at most [MAX_RETRIES] = 5 requests in all, with
    a wait of 10 s times the number of the attempt after each 429. For
    the [i]-th URL of a call of [fetch_pages]: a success after [k] < 5
    such responses gives the fetched text, after the requests and waits
    [retries 0 k]; five 429 in a row give the error result "Max retries
    exceeded (429)"; whatever the network does, the task makes the
    requests 0, 1, ... and no more than five, and returns a result; and
    that result, the [i]-th of [fetch_pages], depends on no other task. *)
Theorem fetch_one_rate_limit (net : nat -> nat -> Fetch.outcome)
        (urls : list string) (i : nat) (u : string) :
  urls !! i = Some u ->
  (forall (k : nat) r,
      (k < Fetch.MAX_RETRIES)%nat ->
      (forall j, (j < k)%nat -> is_429 (net i j)) ->
      net i k = Fetch.Returns r -> acceptable r ->
      Fetch.fetch_one (net i) u
      = ({| Fetch.url := u; Fetch.html := Some (Fetch.text r);
            Fetch.error := None |},
         retries 0 k
           ++ [Fetch.Get (Z.of_nat k); Fetch.Sleep Fetch.REQUEST_DELAY]))
  /\ ((forall j, (j < Fetch.MAX_RETRIES)%nat -> is_429 (net i j)) ->
      Fetch.fetch_one (net i) u
      = (Fetch.failed u "Max retries exceeded (429)",
         retries 0 Fetch.MAX_RETRIES))
  /\ (exists n, (n <= Fetch.MAX_RETRIES)%nat
                /\ Fetch.gets (Fetch.fetch_one (net i) u).2
                   = Z.of_nat <$> seq 0 n)
  /\ Fetch.fetch_pages net urls !! i = Some (Fetch.fetch_one (net i) u).1.
Proof.
  intros Hu. split_and!.
  - intros k r Hk H429 Hr Hok. unfold Fetch.fetch_one.
    replace Fetch.MAX_RETRIES with (k + S (Fetch.MAX_RETRIES - S k))%nat
      by (unfold Fetch.MAX_RETRIES in *; lia).
    rewrite attempts_retries by exact H429.
    by rewrite (attempts_accept _ _ _ _ _ Hr Hok).
  - intros H429. unfold Fetch.fetch_one.
    replace Fetch.MAX_RETRIES with (Fetch.MAX_RETRIES + 0)%nat at 1 by lia.
    rewrite attempts_retries by exact H429.
    cbn [Fetch.attempts fst snd]. by rewrite app_nil_r.
  - apply (attempts_sound (net i) u Fetch.MAX_RETRIES 0).
  - by rewrite fetch_pages_lookup, Hu.
Qed.

(** Three 429 and then a success: waits of 10, 20 and 30 seconds, four
    requests, and the content. *)
Lemma fetch_one_rate_limit_witness :
  Fetch.fetch_one (net_three_429 0) "https://docs.griptape.ai/a/"
  = ({| Fetch.url := "https://docs.griptape.ai/a/";
        Fetch.html := Some "<html>"; Fetch.error := None |},
     [Fetch.Get 0; Fetch.Sleep 10; Fetch.Get 1; Fetch.Sleep 20;
      Fetch.Get 2; Fetch.Sleep 30; Fetch.Get 3; Fetch.Sleep 1]).
Proof.
  refine (proj1 (fetch_one_rate_limit net_three_429
                   ["https://docs.griptape.ai/a/"] 0
                   "https://docs.griptape.ai/a/" eq_refl)
                3%nat _ _ _ eq_refl _).
  - unfold Fetch.MAX_RETRIES. lia.
  - intros j Hj. unfold is_429, net_three_429.
    destruct j as [|[|[|j]]]; [eexists; split; reflexivity..|lia].
  - unfold acceptable, Fetch.MAX_RESPONSE_SIZE. cbn.
    split_and!; [reflexivity| |lia].
    right. eexists. split; [reflexivity|lia].
Defined.

(** C10. [fetch_pages] returns one result per URL, the [i]-th for the
    [i]-th URL, each with either the content or an error and not both. *)
Theorem fetch_pages_aligned (net : nat -> nat -> Fetch.outcome)
        (urls : list string) :
  length (Fetch.fetch_pages net urls) = length urls
  /\ Fetch.url <$> Fetch.fetch_pages net urls = urls
  /\ Forall one_of (Fetch.fetch_pages net urls).
Proof.
  split_and!.
  - unfold Fetch.fetch_pages. by rewrite length_imap.
  - apply list_eq. intros i. rewrite list_lookup_fmap, fetch_pages_lookup.
    destruct (urls !! i) as [u|]; [|done]. cbn. f_equal.
    apply (attempts_sound (net i) u Fetch.MAX_RETRIES 0).
  - apply Forall_lookup. intros i r. rewrite fetch_pages_lookup.
    destruct (urls !! i) as [u|]; [|done]. cbn. intros [= <-].
    apply (attempts_sound (net i) u Fetch.MAX_RETRIES 0).
Qed.

(** ** The markdown extractor *)

(** The end-to-end example of the specification. *)
Example parse_markdown_example :
  Markdown.parse_markdown md_example
  = {| Markdown.p_title := "Title";
       Markdown.p_content_text := md_example;
       Markdown.p_sections :=
         [{| heading := "Setup"; level := 2; content := "text";
             anchor := "setup" |}];
       Markdown.p_code_examples :=
         [{| language := "python"; code := "print(1)";
             context := "Setup" |}] |}.
Proof. reflexivity. Qed.

Lemma save_section_keys (st : Markdown.state) :
  section_key <$> Markdown.save_section st
  = section_key <$> Markdown.sections st.
Proof.
  unfold Markdown.save_section.
  destruct (Markdown.current_section st) as [i|]; [|done].
  destruct (Markdown.text_parts st) as [|t ts]; [done|].
  apply list_eq. intros j. rewrite !list_lookup_fmap.
  destruct (decide (i = j)) as [->|Hne].
  - rewrite list_lookup_alter_eq.
    by destruct (Markdown.sections st !! j).
  - by rewrite list_lookup_alter_ne.
Qed.

(** What the scan of the remaining lines adds to a state. *)
Lemma scan_from (lines : list string) : forall st : Markdown.state,
  let hs := headings_of (Markdown.in_code_block st) lines in
  let st' := foldl Markdown.step st lines in
  Markdown.title st'
  = (if Py.truthy (Markdown.title st) then Markdown.title st
     else first_h1 hs)
  /\ section_key <$> Markdown.sections st'
     = (section_key <$> Markdown.sections st)
         ++ (if Py.truthy (Markdown.title st) then hs else without_title hs).
Proof.
  induction lines as [|line rest IH]; intros st; cbn zeta.
  - cbn [foldl headings_of first_h1 without_title].
    destruct (Markdown.title st); cbn [Py.truthy]; by rewrite app_nil_r.
  - cbn [foldl headings_of]. specialize (IH (Markdown.step st line)).
    cbn zeta in IH. destruct IH as [IHt IHs]. rewrite IHt, IHs. clear IHt IHs.
    unfold Markdown.step.
    destruct (Py.startswith "```" line).
    { destruct (Markdown.in_code_block st); cbn; done. }
    destruct (Markdown.in_code_block st) eqn:Hin; [cbn; done|].
    destruct (Markdown.heading_match line) as [[hashes text]|]; [|cbn; done].
    destruct (Py.truthy (Markdown.title st)) eqn:Htitle.
    + rewrite andb_false_r. cbn [Markdown.title Markdown.sections
                                   Markdown.in_code_block].
      rewrite Htitle. split; [done|].
      rewrite fmap_app, save_section_keys, <- app_assoc. done.
    + rewrite andb_true_r.
      destruct (Z.of_nat (String.length hashes) =? 1) eqn:Hlvl.
      * cbn [Markdown.title Markdown.sections Markdown.in_code_block
               first_h1 without_title].
        rewrite Hlvl. cbn [andb].
        destruct (Py.truthy (Py.strip text)); done.
      * cbn [Markdown.title Markdown.sections Markdown.in_code_block
               first_h1 without_title].
        rewrite Htitle, Hlvl. cbn [andb]. split; [done|].
        rewrite fmap_app, save_section_keys, <- app_assoc. done.
Qed.

(** C4, as the code has it. The title is the text of the first level-1
    heading that has a text, whether or not other headings come before
    it; the sections are the other headings, in order: every heading but
    the level-1 headings up to and including that one. *)
Theorem parse_markdown_title (content : string) :
  let hs := headings_of false (md_lines content) in
  let data := Markdown.parse_markdown content in
  Markdown.p_title data = first_h1 hs
  /\ section_key <$> Markdown.p_sections data = without_title hs.
Proof.
  cbn zeta. unfold Markdown.parse_markdown, Markdown.scan.
  cbn [Markdown.p_title Markdown.p_sections].
  rewrite save_section_keys.
  destruct (scan_from (md_lines content) Markdown.init) as [Ht Hs].
  cbn in Ht, Hs. unfold md_lines in *. by rewrite Ht, Hs.
Qed.

(** C4 as stated fails: a level-1 heading that follows a level-2 heading
    becomes the title, where the specification's wording gives none. *)
Lemma h1_after_h2_becomes_title :
  headings_of false (md_lines md_h2_then_h1) = [(2, "Setup"); (1, "Title")]
  /\ Markdown.p_title (Markdown.parse_markdown md_h2_then_h1) = "Title"
  /\ Markdown.p_title (Markdown.parse_markdown md_h2_then_h1)
     <> spec_title (headings_of false (md_lines md_h2_then_h1)).
Proof. split_and!; [reflexivity|reflexivity|discriminate]. Qed.

(** ** The HTML extractor *)

(** Induction over a document: a property of all children gives the
    property of the element. *)
Lemma node_induction (P : Html.node -> Prop) :
  (forall s, P (Html.Text s)) ->
  (forall name attrs kids, Forall P kids -> P (Html.Tag name attrs kids)) ->
  forall n, P n.
Proof.
  intros HText HTag. fix IH 1. intros [s|name attrs kids].
  - apply HText.
  - apply HTag. induction kids as [|k kids IHkids]; constructor.
    + apply IH.
    + apply IHkids.
Qed.

(** The scan stops at the first heading among the elements it is given. *)
Lemma section_parts_prefix (siblings : list Html.node) :
  exists body tail,
    siblings = body ++ tail
    /\ Forall (fun n => is_heading n = false) body
    /\ (tail = [] \/ exists t tl, tail = t :: tl /\ is_heading t = true)
    /\ Html.section_parts siblings
       = Html.get_text_strip Markdown.nl <$> body.
Proof.
  induction siblings as [|sib rest (body & tail & -> & Hbody & Htail & Hparts)].
  - exists [], []. split_and!; [done|constructor|by left|done].
  - cbn [Html.section_parts]. fold (is_heading sib).
    destruct (is_heading sib) eqn:Hsib.
    + exists [], (sib :: body ++ tail).
      split_and!; [done|constructor| |done]. right. eauto.
    + exists (sib :: body), tail.
      split_and!; [done|by constructor|done|]. cbn. by rewrite Hparts.
Qed.

Lemma extract_sections_occur : forall (n : Html.node) (s : section),
  s ∈ Html.extract_sections n ->
  exists h rest,
    occurs_in n h rest
    /\ Html.has_name ["h2"; "h3"; "h4"] h = true
    /\ s = Html.make_section h rest.
Proof.
  induction n as [t|name attrs kids IH] using node_induction; intros s Hs.
  - cbn in Hs. by apply elem_of_nil in Hs.
  - cbn [Html.extract_sections] in Hs.
    assert (Hgo : forall before l,
      kids = before ++ l ->
      s ∈ (fix go (l : list Html.node) : list section :=
             match l with
             | [] => []
             | k :: rest =>
                 (if Html.has_name ["h2"; "h3"; "h4"] k
                  then [Html.make_section k rest] else [])
                 ++ Html.extract_sections k ++ go rest
             end) l ->
      exists h rest,
        occurs_in (Html.Tag name attrs kids) h rest
        /\ Html.has_name ["h2"; "h3"; "h4"] h = true
        /\ s = Html.make_section h rest).
    { intros before l. revert before.
      induction l as [|k rest IHl]; intros before Hkids Hin.
      - by apply elem_of_nil in Hin.
      - rewrite !elem_of_app in Hin. destruct Hin as [Hin|[Hin|Hin]].
        + destruct (Html.has_name ["h2"; "h3"; "h4"] k) eqn:Hk;
            [|by apply elem_of_nil in Hin].
          apply list_elem_of_singleton in Hin. subst s.
          exists k, rest. split_and!; [|done..].
          rewrite Hkids. constructor.
        + assert (Hk : k ∈ kids).
          { rewrite Hkids, elem_of_app. right. left. }
          rewrite Forall_forall in IH.
          destruct (IH k Hk s Hin) as (h & r & Ho & Hh & ->).
          exists h, r. split_and!; [|done..].
          by apply occurs_deeper with k.
        + apply (IHl (before ++ [k])); [|done].
          by rewrite <- app_assoc. }
    by apply (Hgo [] kids).
Qed.

Lemma occurs_in_trans (n k h : Html.node) (r rest : list Html.node) :
  occurs_in n k r -> occurs_in k h rest -> occurs_in n h rest.
Proof.
  intros Hnk Hkh. induction Hnk as [name attrs before k r|name attrs kids k' k r Hin Hk IH].
  - apply occurs_deeper with k; [|done].
    rewrite elem_of_app. right. left.
  - apply occurs_deeper with k'; [done|]. by apply IH.
Qed.

Lemma find_all_occur (p : Html.node -> bool) : forall (n k : Html.node),
  k ∈ Html.find_all p n -> exists r, occurs_in n k r.
Proof.
  induction n as [t|name attrs kids IH] using node_induction; intros k Hk.
  - cbn in Hk. by apply elem_of_nil in Hk.
  - cbn [Html.find_all] in Hk.
    apply list_elem_of_In, in_flat_map in Hk.
    destruct Hk as (c & Hc & Hk).
    apply list_elem_of_In in Hc, Hk.
    apply list_elem_of_split in Hc as (before & after & ->).
    rewrite elem_of_app in Hk. destruct Hk as [Hk|Hk].
    + destruct (p c); [|by apply elem_of_nil in Hk].
      apply list_elem_of_singleton in Hk. subst k.
      exists after. constructor.
    + rewrite Forall_forall in IH.
      destruct (IH c) with (k := k) as (r & Hr); [|done|].
      { rewrite elem_of_app. right. left. }
      exists r. apply occurs_deeper with c; [|done].
      rewrite elem_of_app. right. left.
Qed.

Lemma find_occurs (p : Html.node -> bool) (n k : Html.node) :
  Html.find p n = Some k -> exists r, occurs_in n k r.
Proof.
  unfold Html.find. intros Hk. apply (find_all_occur p).
  destruct (Html.find_all p n); [done|].
  cbn in Hk. injection Hk as ->. left.
Qed.

Lemma extract_soup_sections (to_html : Html.node -> string)
      (soup : Html.node) (s : section) :
  s ∈ Html.e_sections (Html.extract_soup to_html soup) ->
  exists content_el r, occurs_in soup content_el r
                       /\ s ∈ Html.extract_sections content_el.
Proof.
  unfold Html.extract_soup.
  destruct (Html.content_selector soup) as [sel|];
    [|cbn; intros H; by apply elem_of_nil in H].
  destruct (Html.find sel soup) as [content_el|] eqn:Hfind;
    [|cbn; intros H; by apply elem_of_nil in H].
  cbn [Html.e_sections]. intros Hs.
  destruct (find_occurs _ _ _ Hfind) as (r & Hr). eauto.
Qed.

(** The text of an element holds the text of every node below it, in
    its place. *)
Lemma text_pieces_below (n d : Html.node) (r : list Html.node) :
  occurs_in n d r ->
  exists pre post, text_pieces n = pre ++ text_pieces d ++ post.
Proof.
  unfold text_pieces.
  induction 1 as [name attrs before h rest
                 |name attrs kids k h rest Hin Hk (pre & post & IH)].
  - cbn [Html.strings_of]. rewrite flat_map_app. cbn [flat_map].
    rewrite !fmap_app, !filter_app. eauto.
  - apply list_elem_of_split in Hin as (l1 & l2 & ->).
    cbn [Html.strings_of]. rewrite flat_map_app. cbn [flat_map].
    rewrite !fmap_app, !filter_app, IH.
    exists (filter (fun s => Py.truthy s = true)
                   (Py.strip <$> flat_map Html.strings_of l1) ++ pre),
           (post ++ filter (fun s => Py.truthy s = true)
                           (Py.strip <$> flat_map Html.strings_of l2)).
    by rewrite <- !app_assoc.
Qed.

(** C3, as the code has it. Every section the HTML extractor produces
    comes from a heading h2..h4 of the document. Its body is the text of
    the elements that follow the heading under the same parent, up to
    the first of them that is itself a heading h1..h4, of any level:
    such a sibling heading ends the body, and neither it nor what
    follows it is part of the body. A heading that lies inside one of
    the elements before that point does not end the body: the text of
    such an element is in the body as a whole, with the text of every
    node below it. *)
Theorem section_body_stops_at_next_heading (to_html : Html.node -> string)
        (soup : Html.node) (s : section) :
  s ∈ Html.e_sections (Html.extract_soup to_html soup) ->
  exists h rest body tail,
    occurs_in soup h rest
    /\ Html.has_name ["h2"; "h3"; "h4"] h = true
    /\ heading s = Html.clean_text h
    /\ level s = level_of h
    /\ filter (fun n => Html.is_tag n = true) rest = body ++ tail
    /\ Forall (fun n => is_heading n = false) body
    /\ (tail = [] \/ exists t tl, tail = t :: tl /\ is_heading t = true)
    /\ content s
       = Py.join Markdown.nl (Html.get_text_strip Markdown.nl <$> body)
    /\ (forall b d r,
          b ∈ body -> occurs_in b d r ->
          exists pre post,
            Html.get_text_strip Markdown.nl b
            = Py.join Markdown.nl (pre ++ text_pieces d ++ post)).
Proof.
  intros Hs.
  destruct (extract_soup_sections _ _ _ Hs) as (content_el & r & Hel & Hs').
  destruct (extract_sections_occur _ _ Hs') as (h & rest & Ho & Hh & ->).
  destruct (section_parts_prefix
              (filter (fun n => Html.is_tag n = true) rest))
    as (body & tail & Hsplit & Hbody & Htail & Hparts).
  exists h, rest, body, tail. split_and!; try done.
  - by apply occurs_in_trans with content_el r.
  - cbn [level Html.make_section]. unfold Html.heading_level, level_of.
    destruct h as [t|name attrs kids]; [done|].
    cbn in Hh. cbn [Html.name_of].
    apply bool_decide_eq_true in Hh.
    repeat (apply elem_of_cons in Hh as [->|Hh]; [done|]).
    by apply elem_of_nil in Hh.
  - cbn [content Html.make_section]. by rewrite Hparts.
  - intros b d r' _ Hd.
    destruct (text_pieces_below b d r' Hd) as (pre & post & Hpieces).
    exists pre, post. unfold Html.get_text_strip.
    fold (text_pieces b). by rewrite Hpieces.
Qed.

(** On the page with a sub-section, the section "Agents" ends where
    "Tools" begins; on the page where "Tools" stands inside a div, the
    body of "Agents" goes on to the heading "Rules" and holds the text of
    the div. *)
Lemma section_body_stops_at_next_heading_witness :
  (exists h rest body tail,
     occurs_in nested_page h rest
     /\ Html.has_name ["h2"; "h3"; "h4"] h = true
     /\ "Agents" = Html.clean_text h
     /\ 2 = level_of h
     /\ filter (fun n => Html.is_tag n = true) rest = body ++ tail
     /\ Forall (fun n => is_heading n = false) body
     /\ (tail = [] \/ exists t tl, tail = t :: tl /\ is_heading t = true)
     /\ "An agent runs tasks."
        = Py.join Markdown.nl (Html.get_text_strip Markdown.nl <$> body)
     /\ (forall b d r,
           b ∈ body -> occurs_in b d r ->
           exists pre post,
             Html.get_text_strip Markdown.nl b
             = Py.join Markdown.nl (pre ++ text_pieces d ++ post)))
  /\ (exists h rest body tail,
        occurs_in boxed_page h rest
        /\ Html.has_name ["h2"; "h3"; "h4"] h = true
        /\ "Agents" = Html.clean_text h
        /\ 2 = level_of h
        /\ filter (fun n => Html.is_tag n = true) rest = body ++ tail
        /\ Forall (fun n => is_heading n = false) body
        /\ (tail = [] \/ exists t tl, tail = t :: tl /\ is_heading t = true)
        /\ "An agent runs tasks." +:+ Markdown.nl +:+ "Tools"
           +:+ Markdown.nl +:+ "Tools extend agents."
           = Py.join Markdown.nl (Html.get_text_strip Markdown.nl <$> body)
        /\ (forall b d r,
              b ∈ body -> occurs_in b d r ->
              exists pre post,
                Html.get_text_strip Markdown.nl b
                = Py.join Markdown.nl (pre ++ text_pieces d ++ post))).
Proof.
  split.
  - apply (section_body_stops_at_next_heading (fun _ => "") nested_page
             {| heading := "Agents"; level := 2;
                content := "An agent runs tasks."; anchor := "" |}).
    vm_compute. left.
  - apply (section_body_stops_at_next_heading (fun _ => "") boxed_page
             {| heading := "Agents"; level := 2;
                content := "An agent runs tasks." +:+ Markdown.nl +:+ "Tools"
                           +:+ Markdown.nl +:+ "Tools extend agents.";
                anchor := "" |}).
    vm_compute. left.
Defined.

(** A heading that is no sibling of the section's heading does not end
    the body. Where the sub-section "Tools" stands inside a div, the body
    of "Agents" holds the text of the div, the heading "Tools" and what
    stands under it included, and "Tools" has a section of its own with
    the same paragraph. *)
Example section_body_holds_nested_heading :
  (fun s => (heading s, content s))
    <$> Html.e_sections (Html.extract_soup (fun _ => "") boxed_page)
  = [("Agents",
      "An agent runs tasks." +:+ Markdown.nl +:+ "Tools" +:+ Markdown.nl
      +:+ "Tools extend agents.");
     ("Tools", "Tools extend agents.");
     ("Rules", "Rules steer output.")].
Proof. vm_compute. reflexivity. Qed.

(** C3 as stated fails: the text under the sub-heading "Tools" is no
    part of the body of "Agents", where the specification's wording
    makes it one. *)
Lemma section_body_excludes_subsections :
  content <$> Html.e_sections (Html.extract_soup (fun _ => "") nested_page)
  = ["An agent runs tasks."; "Tools extend agents."; "Rules steer output."]
  /\ spec_section_content (el "h2" "Agents") (tail nested_headings)
     = "An agent runs tasks." +:+ Markdown.nl +:+ "Tools" +:+ Markdown.nl
       +:+ "Tools extend agents."
  /\ (content <$> Html.e_sections
                    (Html.extract_soup (fun _ => "") nested_page)) !! 0%nat
     <> Some (spec_section_content (el "h2" "Agents") (tail nested_headings)).
Proof. split_and!; [reflexivity|reflexivity|discriminate]. Qed.

(** ** The store *)

Lemma max_id_ge (ids : list Z) (i : Z) : i ∈ ids -> i <= Db.max_id ids.
Proof.
  unfold Db.max_id. induction ids as [|j ids IH]; intros Hi.
  - by apply elem_of_nil in Hi.
  - cbn. apply elem_of_cons in Hi as [->|Hi]; [lia|].
    specialize (IH Hi). lia.
Qed.

(** A new rowid is above every rowid in the table. *)
Lemma next_id_fresh (ids : list Z) (seq i : Z) :
  i ∈ ids -> i < Db.next_id ids seq.
Proof. intros Hi%max_id_ge. unfold Db.next_id. lia. Qed.

Lemma preserves_ret {A} (I : Scrape.state -> Prop) (a : A) :
  preserves I (Scrape.ret a).
Proof. by intros s Hs. Qed.

Lemma preserves_bind {A B} (I : Scrape.state -> Prop)
      (m : Scrape.try_block A) (k : A -> Scrape.try_block B) :
  preserves I m -> (forall a, preserves I (k a)) -> preserves I (m ≫= k).
Proof.
  intros Hm Hk s Hs. unfold mbind, Scrape.try_bind.
  specialize (Hm s Hs). destruct (m s) as [s' [a|msg]]; [|done].
  by apply Hk.
Qed.

Lemma preserves_for_each {A} (I : Scrape.state -> Prop) (l : list A)
      (body : A -> Scrape.try_block unit) :
  (forall x, preserves I (body x)) -> preserves I (Scrape.for_each l body).
Proof.
  intros Hbody. induction l as [|x l IH]; cbn [Scrape.for_each].
  - apply preserves_ret.
  - apply preserves_bind; [apply Hbody|]. intros _. apply IH.
Qed.

Lemma preserves_count (I : Scrape.state -> Prop) (f : Scrape.stats -> Scrape.stats) :
  (forall c st, I (c, st) -> I (c, f st)) -> preserves I (Scrape.count f).
Proof. intros H [c st] Hs. by apply H. Qed.

Lemma preserves_query {A} (I : Scrape.state -> Prop) (q : Db.conn -> A) :
  preserves I (Scrape.query q).
Proof. by intros s Hs. Qed.

Lemma preserves_execute (I : Scrape.state -> Prop)
      (stmt : Db.conn -> Db.sql_result Db.conn) :
  (forall c c' st, I (c, st) -> stmt c = Db.Ok c' -> I (c', st)) ->
  preserves I (Scrape.execute stmt).
Proof.
  intros H [c st] Hs. unfold Scrape.execute. cbn [fst snd].
  destruct (stmt c) as [c'|msg] eqn:Hstmt; [|done]. by apply (H c).
Qed.

(** The writes of the children of page [pid] leave [pages] alone and add
    no child of another page. *)
Lemma write_children_keeps (pid old_id : Z) (pages : list Db.page_row)
      (secs : list section) (exs : list code_example) :
  pid <> old_id ->
  preserves (fun s => Db.pages s.1 = pages /\ no_children_of old_id s.1)
            (Scrape.write_children pid secs exs).
Proof.
  intros Hne. unfold Scrape.write_children, no_children_of.
  apply preserves_bind; [|intros _]; apply preserves_for_each.
  - intros sec. apply preserves_bind; [|intros _].
    + apply preserves_execute. intros c c' st (Hp & Hs & He).
      unfold Db.insert_section.
      destruct (Db.foreign_keys c && negb (Db.has_page c pid)); [done|].
      intros [= <-]. cbn. split_and!; [done| |done].
      intros s [Hin|Hin%list_elem_of_singleton]%elem_of_app; [by apply Hs|].
      by subst s.
    + by apply preserves_count.
  - intros ex. apply preserves_bind; [|intros sid; apply preserves_bind;
                                       [|intros _]].
    + destruct (Py.truthy (context ex));
        [apply preserves_query|apply preserves_ret].
    + apply preserves_execute. intros c c' st (Hp & Hs & He).
      unfold Db.insert_code_example.
      destruct (Db.foreign_keys c && _); [done|].
      intros [= <-]. cbn. split_and!; [done..|].
      intros e [Hin|Hin%list_elem_of_singleton]%elem_of_app; [by apply He|].
      by subst e.
    + by apply preserves_count.
Qed.

Lemma filter_none {A} (P : A -> Prop) `{!forall x, Decision (P x)}
      (l : list A) :
  (forall x, x ∈ l -> ~ P x) -> filter P l = [].
Proof.
  induction l as [|a l IH]; intros Hl; [done|].
  rewrite filter_cons_False by (apply Hl; left).
  apply IH. intros x Hx. apply Hl. by right.
Qed.

Lemma filter_all {A} (P : A -> Prop) `{!forall x, Decision (P x)}
      (l : list A) :
  (forall x, x ∈ l -> P x) -> filter P l = l.
Proof.
  induction l as [|a l IH]; intros Hl; [done|].
  rewrite filter_cons_True by (apply Hl; left).
  f_equal. apply IH. intros x Hx. apply Hl. by right.
Qed.

Lemma filter_same {A} (P Q : A -> Prop) `{!forall x, Decision (P x)}
      `{!forall x, Decision (Q x)} (l : list A) :
  (forall x, x ∈ l -> P x <-> Q x) -> filter P l = filter Q l.
Proof.
  induction l as [|a l IH]; intros Hl; [done|].
  rewrite !filter_cons.
  rewrite IH by (intros x Hx; apply Hl; by right).
  destruct (decide (P a)) as [HP|HP], (decide (Q a)) as [HQ|HQ];
    try done; exfalso; apply (Hl a) in HP || apply (Hl a) in HQ;
    try done; left.
Qed.

Lemma same_key {A B} (f : A -> B) (l : list A) (x y : A) :
  NoDup (f <$> l) -> x ∈ l -> y ∈ l -> f x = f y -> x = y.
Proof.
  induction l as [|a l IH]; intros Hnd Hx Hy Hf.
  - by apply elem_of_nil in Hx.
  - rewrite fmap_cons in Hnd. apply NoDup_cons in Hnd as [Ha Hnd].
    apply elem_of_cons in Hx as [->|Hx], Hy as [->|Hy]; [done|..].
    + destruct Ha. rewrite Hf. by apply list_elem_of_fmap_2.
    + destruct Ha. rewrite <- Hf. by apply list_elem_of_fmap_2.
    + by apply IH.
Qed.

(** After the upsert statement one row holds the URL, the new one, and,
    with foreign keys on, nothing refers to a row it replaced. *)
Lemma insert_or_replace_page_spec (now : string) (v : Db.page_values)
      (c : Db.conn) :
  let c' := (Db.insert_or_replace_page now v c).1 in
  let new_id := (Db.insert_or_replace_page now v c).2 in
  (exists new, pages_at (Db.v_url v) c' = [new]
               /\ Db.page_id new = new_id
               /\ Db.page_title new = Db.v_title v
               /\ Db.page_content new = Db.v_content v)
  /\ (forall old, old ∈ Db.pages c -> Db.page_id old <> new_id)
  /\ (Db.foreign_keys c = true ->
      forall old, old ∈ Db.pages c -> Db.page_url old = Db.v_url v ->
                  no_children_of (Db.page_id old) c').
Proof.
  cbn zeta. unfold Db.insert_or_replace_page. cbn [fst snd].
  set (old_rows := filter (fun p => Db.page_url p = Db.v_url v) (Db.pages c)).
  split_and!.
  - eexists. split; [|shelve].
    unfold pages_at. cbn [Db.pages Db.replace_delete].
    rewrite filter_app, filter_cons_True by done.
    rewrite filter_nil, filter_none; [reflexivity|].
    intros p [Hgone Hp]%list_elem_of_filter Hurl.
    apply bool_decide_eq_false in Hgone. apply Hgone.
    apply list_elem_of_fmap_2. by apply list_elem_of_filter.
    Unshelve. done.
  - intros old Hold Heq.
    assert (Db.page_id old ∈ Db.page_id <$> Db.pages c)
      as Hlt%(next_id_fresh _ (Db.seq_pages c))
      by by apply list_elem_of_fmap_2.
    lia.
  - intros Hfk old Hold Hurl.
    assert (Hgone : bool_decide (Db.page_id old ∈ Db.page_id <$> old_rows) = true).
    { apply bool_decide_eq_true, list_elem_of_fmap_2.
      by apply list_elem_of_filter. }
    unfold no_children_of. cbn [Db.sections Db.code_examples Db.replace_delete].
    rewrite Hfk. split.
    + intros s [Hs _]%list_elem_of_filter Heq.
      rewrite Heq, Hgone in Hs. done.
    + intros e (e0 & -> & [He _]%list_elem_of_filter)%list_elem_of_fmap Heq.
      cbn in Heq. rewrite Heq, Hgone in He. done.
Qed.

Lemma succeeds_ret {A} (P : Scrape.state -> Prop) (a : A) :
  succeeds P (Scrape.ret a) (fun _ s => P s).
Proof. intros s Hs. by exists a. Qed.

Lemma succeeds_bind {A B} (P : Scrape.state -> Prop)
      (Q : A -> Scrape.state -> Prop) (R : B -> Scrape.state -> Prop)
      (m : Scrape.try_block A) (k : A -> Scrape.try_block B) :
  succeeds P m Q -> (forall a, succeeds (Q a) (k a) R) ->
  succeeds P (m ≫= k) R.
Proof.
  intros Hm Hk s Hs. unfold mbind, Scrape.try_bind.
  destruct (Hm s Hs) as (a & Ha & HQ).
  destruct (m s) as [s' r]. cbn in Ha, HQ. subst r.
  by apply Hk.
Qed.

Lemma succeeds_for_each {A} (P : Scrape.state -> Prop) (l : list A)
      (body : A -> Scrape.try_block unit) :
  (forall x, succeeds P (body x) (fun _ s => P s)) ->
  succeeds P (Scrape.for_each l body) (fun _ s => P s).
Proof.
  intros Hbody. induction l as [|x l IH]; cbn [Scrape.for_each].
  - apply succeeds_ret.
  - eapply succeeds_bind; [apply Hbody|]. intros ?. apply IH.
Qed.

Lemma succeeds_count (P : Scrape.state -> Prop)
      (f : Scrape.stats -> Scrape.stats) :
  (forall c st, P (c, st) -> P (c, f st)) ->
  succeeds P (Scrape.count f) (fun _ s => P s).
Proof. intros H [c st] Hs. exists tt. split; [done|]. by apply H. Qed.

Lemma find_section_has (pid : Z) (h : string) (c : Db.conn) (sid : Z) :
  Db.find_section pid h c = Some sid -> Db.has_section c sid = true.
Proof.
  unfold Db.find_section, Db.has_section. intros Hfind.
  apply bool_decide_eq_true.
  destruct (filter _ (Db.sections c)) as [|row rows] eqn:Hf; [done|].
  cbn in Hfind. injection Hfind as <-.
  apply list_elem_of_fmap_2.
  assert (row ∈ filter (fun s => Db.sec_page_id s = pid
                                 /\ Db.sec_heading s = h) (Db.sections c))
    as [_ Hin]%list_elem_of_filter by (rewrite Hf; left).
  done.
Qed.

(** With foreign keys on and the page row written, the writes of the
    children raise no [IntegrityError]. *)
Lemma write_children_succeeds (pid : Z) (secs : list section)
      (exs : list code_example) :
  succeeds (ready_for pid) (Scrape.write_children pid secs exs)
           (fun _ s => ready_for pid s).
Proof.
  unfold Scrape.write_children.
  eapply succeeds_bind; [|intros ?]; apply succeeds_for_each.
  - intros sec. eapply succeeds_bind; [|intros ?; by apply succeeds_count].
    intros [c st] [Hfk Hp]. cbn [fst] in Hfk, Hp.
    unfold Scrape.execute, Db.insert_section. cbn [fst snd].
    rewrite Hfk, Hp. cbn. by exists tt.
  - intros ex.
    apply succeeds_bind
      with (Q := fun sid s =>
                   ready_for pid s
                   /\ match sid with
                      | Some i => Db.has_section s.1 i = true
                      | None => True
                      end).
    + intros s Hs. destruct (Py.truthy (context ex)).
      * eexists. split; [reflexivity|]. split; [done|].
        cbn [Scrape.query fst].
        destruct (Db.find_section pid (context ex) s.1) eqn:Hfind; [|done].
        by apply find_section_has in Hfind.
      * by exists None.
    + intros sid.
      eapply succeeds_bind; [|intros ?; by apply succeeds_count].
      intros [c st] [[Hfk Hp] Hsid]. cbn [fst] in Hfk, Hp, Hsid.
      unfold Scrape.execute, Db.insert_code_example. cbn [fst snd].
      rewrite Hfk, Hp. destruct sid as [i|]; [rewrite Hsid|]; cbn;
        by exists tt.
Qed.

Lemma upsert_page_ready (now : string) (v : Db.page_values)
      (s : Scrape.state) :
  Db.foreign_keys s.1 = true ->
  ready_for (Db.insert_or_replace_page now v s.1).2
            (Scrape.upsert_page now v s).1.
Proof.
  intros Hfk. unfold Scrape.upsert_page, Db.insert_or_replace_page, ready_for.
  cbn [fst snd Db.foreign_keys Db.replace_delete]. split; [done|].
  unfold Db.has_page. cbn [Db.pages].
  apply bool_decide_eq_true. rewrite fmap_app, elem_of_app. right. left.
Qed.

(** C1. An upsert of a page whose URL is in the store, over a connection
    with foreign keys on as the scrapers open it: the block raises no
    error; afterwards one row holds that URL, with the new title and
    body and a new id; and no section or code example refers to the row
    that was replaced, neither once the upsert statement is done (before
    the children of the new row are written) nor at the end. *)
Theorem upsert_supersedes (now : string) (v : Db.page_values)
        (secs : list section) (exs : list code_example)
        (s : Scrape.state) (old : Db.page_row) :
  Db.foreign_keys s.1 = true ->
  old ∈ Db.pages s.1 ->
  Db.page_url old = Db.v_url v ->
  let upserted := (Scrape.upsert_page now v s).1.1 in
  let final := (Scrape.write_page now v secs exs s).1.1 in
  (exists new,
      pages_at (Db.v_url v) final = [new]
      /\ Db.page_title new = Db.v_title v
      /\ Db.page_content new = Db.v_content v
      /\ Db.page_id new <> Db.page_id old
      /\ (Scrape.write_page now v secs exs s).2 = Db.Ok (Db.page_id new))
  /\ no_children_of (Db.page_id old) upserted
  /\ no_children_of (Db.page_id old) final.
Proof.
  intros Hfk Hold Hurl. cbn zeta.
  destruct (insert_or_replace_page_spec now v s.1)
    as ((new & Hnew & Hid & Htitle & Hcontent) & Hfresh & Hchildren).
  specialize (Hfresh old Hold). specialize (Hchildren Hfk old Hold Hurl).
  pose proof (upsert_page_ready now v s Hfk) as Hready.
  unfold Scrape.write_page, mbind, Scrape.try_bind.
  unfold Scrape.upsert_page in *.
  destruct (Db.insert_or_replace_page now v s.1) as [c1 pid] eqn:Hup.
  cbn [fst snd] in *. unfold Scrape.count. cbn [fst snd].
  set (s1 := (c1, Scrape.count_page s.2)).
  assert (Hkeep : Db.pages (Scrape.write_children pid secs exs s1).1.1
                  = Db.pages c1
                  /\ no_children_of (Db.page_id old)
                       (Scrape.write_children pid secs exs s1).1.1).
  { apply (write_children_keeps pid (Db.page_id old) (Db.pages c1));
      [congruence|done]. }
  destruct (write_children_succeeds pid secs exs s1) as ([] & Hok & _);
    [done|].
  destruct (Scrape.write_children pid secs exs s1) as [s2 r].
  cbn [fst snd] in *. subst r. unfold Scrape.ret, mret, Scrape.try_ret.
  cbn [fst snd].
  destruct Hkeep as [Hpages Hnone].
  split_and!; [|done..].
  exists new. unfold pages_at in *. rewrite Hpages.
  split_and!; [done..|congruence|congruence].
Qed.

(** A second scrape of the framework page "Agents" replaces the first. *)
Lemma upsert_supersedes_witness :
  (exists new,
      pages_at "https://docs.griptape.ai/stable/framework/agents/"
               scraped_twice.1 = [new]
      /\ Db.page_title new = "Agents"
      /\ Db.page_content new = "v2"
      /\ Db.page_id new <> 1
      /\ (Scrape.write_page "2024-05-02 10:00:00"
            (agents_values "Agents" "v2") agents_sections agents_examples
            (scraped_once.1, Scrape.zero)).2 = Db.Ok (Db.page_id new))
  /\ no_children_of 1
       (Scrape.upsert_page "2024-05-02 10:00:00"
          (agents_values "Agents" "v2") (scraped_once.1, Scrape.zero)).1.1
  /\ no_children_of 1 scraped_twice.1.
Proof.
  refine (upsert_supersedes "2024-05-02 10:00:00"
            (agents_values "Agents" "v2") agents_sections agents_examples
            (scraped_once.1, Scrape.zero)
            {| Db.page_id := 1;
               Db.page_url :=
                 "https://docs.griptape.ai/stable/framework/agents/";
               Db.page_source := "framework"; Db.page_title := "Agents";
               Db.page_content := "v1";
               Db.page_content_html := "<article>v1</article>";
               Db.page_breadcrumbs := "[]"; Db.page_last_modified := None;
               Db.page_crawled_at := "2024-05-01 10:00:00" |}
            _ _ _).
  - reflexivity.
  - vm_compute. left.
  - reflexivity.
Defined.

(** C2 fails on the code. After a second scrape of one URL the table
    [pages] holds the new row alone, while the index [pages_fts] still
    holds the document of the replaced row next to the new one: REPLACE
    removes the old row without firing [pages_ad], since
    [recursive_triggers] is off. *)
Theorem fts_stale_after_replace :
  Db.page_doc <$> Db.pages scraped_twice.1
  = [{| Db.rowid := 2; Db.col_a := "Agents"; Db.col_b := "v2" |}]
  /\ Db.pages_fts scraped_twice.1
     = [{| Db.rowid := 1; Db.col_a := "Agents"; Db.col_b := "v1" |};
        {| Db.rowid := 2; Db.col_a := "Agents"; Db.col_b := "v2" |}]
  /\ ~ fts_synced scraped_twice.1.
Proof.
  split_and!; [reflexivity..|].
  intros [Hpages _]. apply Permutation_length in Hpages.
  vm_compute in Hpages. discriminate.
Qed.

(** What the triggers do keep in sync. *)

Lemma fts_delete_present (d : Db.fts_doc) (idx : list Db.fts_doc) :
  d ∈ idx -> idx ≡ₚ d :: Db.fts_delete d idx.
Proof.
  induction idx as [|e idx IH]; intros Hd.
  - by apply elem_of_nil in Hd.
  - cbn [Db.fts_delete]. case_bool_decide as He.
    + by subst e.
    + apply elem_of_cons in Hd as [->|Hd]; [done|].
      rewrite (IH Hd) at 1. apply Permutation_swap.
Qed.

(** Deleting the documents of some rows, one by one, takes just these
    documents out of an index that holds them. *)
Lemma fts_delete_all {A} (doc : A -> Db.fts_doc) (rows : list A) :
  forall (idx rest : list Db.fts_doc),
  idx ≡ₚ (doc <$> rows) ++ rest ->
  foldl (fun i r => Db.fts_delete (doc r) i) idx rows ≡ₚ rest.
Proof.
  induction rows as [|r rows IH]; intros idx rest Hidx; [done|].
  cbn [foldl]. apply IH.
  assert (doc r ∈ idx) as Hin by (rewrite Hidx; left).
  apply fts_delete_present in Hin.
  rewrite Hin in Hidx. cbn in Hidx. by apply Permutation_cons_inv in Hidx.
Qed.

(** The index of [sections] stays in sync under the upsert of a page:
    the deletes of the cascade fire [sections_ad]. *)
Lemma insert_or_replace_page_sections_synced (now : string)
      (v : Db.page_values) (c : Db.conn) :
  sections_synced c ->
  sections_synced (Db.insert_or_replace_page now v c).1.
Proof.
  unfold sections_synced, Db.insert_or_replace_page.
  cbn [fst Db.sections Db.sections_fts Db.replace_delete].
  intros Hsync. destruct (Db.foreign_keys c); [|done].
  apply (fts_delete_all Db.section_doc). rewrite Hsync, <- fmap_app.
  apply fmap_Permutation.
  set (old_ids := Db.page_id <$> _).
  rewrite <- (filter_app_complement
               (fun s => bool_decide (Db.sec_page_id s ∈ old_ids) = true)
               (Db.sections c)) at 1.
  apply Permutation_app; [done|].
  erewrite list_filter_iff; [done|]. intros s. cbn.
  by destruct (bool_decide (Db.sec_page_id s ∈ old_ids)).
Qed.

Lemma insert_section_synced (pid : Z) (s : section) (c c' : Db.conn) :
  sections_synced c -> Db.insert_section pid s c = Db.Ok c' ->
  sections_synced c'.
Proof.
  unfold sections_synced, Db.insert_section.
  destruct (Db.foreign_keys c && negb (Db.has_page c pid)); [done|].
  intros Hsync [= <-]. cbn [Db.sections Db.sections_fts].
  unfold Db.sections_ai, Db.fts_insert. by rewrite fmap_app, Hsync.
Qed.

(** The index of [pages] stays in sync under an upsert that replaces
    nothing, and under any upsert if [recursive_triggers] is on (rowids
    being unique); the scrapers leave it off. *)
Lemma insert_or_replace_page_synced (now : string) (v : Db.page_values)
      (c : Db.conn) :
  pages_synced c ->
  pages_at (Db.v_url v) c = []
  \/ (Db.recursive_triggers c = true /\ NoDup (Db.page_id <$> Db.pages c)) ->
  pages_synced (Db.insert_or_replace_page now v c).1.
Proof.
  unfold pages_synced, pages_at, Db.insert_or_replace_page.
  cbn [fst Db.pages Db.pages_fts Db.replace_delete].
  unfold Db.pages_ai, Db.fts_insert. intros Hsync Hcase.
  rewrite fmap_app. apply Permutation_app; [|done].
  destruct Hcase as [Hnone|[Hrec Hids]].
  - rewrite Hnone. cbn [fmap list_fmap foldl].
    replace (if Db.recursive_triggers c then Db.pages_fts c
             else Db.pages_fts c) with (Db.pages_fts c)
      by by destruct (Db.recursive_triggers c).
    rewrite Hsync. apply fmap_Permutation.
    rewrite filter_all; [done|].
    intros p _. apply bool_decide_eq_false. apply not_elem_of_nil.
  - rewrite Hrec. unfold Db.pages_ad.
    apply (fts_delete_all Db.page_doc). rewrite Hsync, <- fmap_app.
    apply fmap_Permutation.
    set (old := filter _ (Db.pages c)).
    rewrite <- (filter_app_complement
                 (fun p => Db.page_url p = Db.v_url v) (Db.pages c)) at 1.
    fold old. apply Permutation_app; [done|].
    erewrite filter_same; [done|]. intros p Hp. cbn.
    rewrite bool_decide_eq_false. split.
    + intros Hurl (q & Hid & [Hq Hqin]%list_elem_of_filter)%list_elem_of_fmap.
      apply Hurl. by rewrite (same_key Db.page_id _ p q Hids Hp Hqin Hid).
    + intros Hno Hurl. apply Hno. apply list_elem_of_fmap_2.
      by apply list_elem_of_filter.
Qed.

(** ** The scrapers *)

Lemma run_loop_invariant {A} (I : Scrape.state -> Prop)
      (step : string -> Scrape.state -> A -> Scrape.crash + Scrape.state)
      (clock : nat -> string) (items : list A) :
  (forall now s x s', I s -> step now s x = inr s' -> I s') ->
  forall i s s', I s -> Scrape.run_loop step clock i items s = inr s' -> I s'.
Proof.
  intros Hstep. induction items as [|x items IH]; intros i s s' Hs Hrun.
  - cbn in Hrun. by injection Hrun as <-.
  - cbn [Scrape.run_loop] in Hrun.
    destruct (step (clock i) s x) as [e|s1] eqn:Hx; [done|].
    apply (IH (S i) s1); [|done]. by apply (Hstep (clock i) s x).
Qed.

(** The writes after the page row keep what depends on [pages] and on
    the counters of pages and errors. *)
Lemma write_children_frame (P : list Db.page_row -> Z -> Z -> Prop)
      (pid : Z) (secs : list section) (exs : list code_example) :
  preserves (fun s => P (Db.pages s.1) (Scrape.n_pages s.2)
                        (Scrape.n_errors s.2))
            (Scrape.write_children pid secs exs).
Proof.
  unfold Scrape.write_children.
  apply preserves_bind; [|intros _]; apply preserves_for_each.
  - intros sec. apply preserves_bind; [|intros _].
    + apply preserves_execute. intros c c' st HP.
      unfold Db.insert_section.
      destruct (Db.foreign_keys c && negb (Db.has_page c pid)); [done|].
      by intros [= <-].
    + by apply preserves_count.
  - intros ex. apply preserves_bind; [|intros sid; apply preserves_bind;
                                       [|intros _]].
    + destruct (Py.truthy (context ex));
        [apply preserves_query|apply preserves_ret].
    + apply preserves_execute. intros c c' st HP.
      unfold Db.insert_code_example.
      destruct (Db.foreign_keys c && _); [done|].
      by intros [= <-].
    + by apply preserves_count.
Qed.

Lemma write_node_frame (P : list Db.page_row -> Z -> Z -> Prop)
      (info : option Scrape.node_info) (content_text : string) (pid : Z) :
  preserves (fun s => P (Db.pages s.1) (Scrape.n_pages s.2)
                        (Scrape.n_errors s.2))
            (Scrape.write_node info content_text pid).
Proof.
  destruct info as [i|]; cbn [Scrape.write_node]; [|apply preserves_ret].
  apply preserves_bind; [|intros _; by apply preserves_count].
  apply preserves_execute. intros c c' st HP. unfold Db.insert_node.
  destruct (Db.foreign_keys c && negb (Db.has_page c pid)); [done|].
  by intros [= <-].
Qed.

(** The [try] block of a loop body, taken apart: the upsert and the
    count of the page, then the children and what follows them. *)
Lemma page_block_unfold (now : string) (v : Db.page_values)
      (secs : list section) (exs : list code_example)
      (after : Z -> Scrape.try_block unit) (s : Scrape.state) :
  Scrape.catch (Scrape.write_page now v secs exs ≫= after) s
  = ((Scrape.write_children (Db.insert_or_replace_page now v s.1).2 secs exs
        ≫= fun _ => after (Db.insert_or_replace_page now v s.1).2)
       ((Db.insert_or_replace_page now v s.1).1, Scrape.count_page s.2)).1.
Proof.
  unfold Scrape.catch, Scrape.write_page, Scrape.upsert_page, Scrape.count,
    Scrape.ret, mbind, mret, Scrape.try_bind, Scrape.try_ret.
  destruct (Db.insert_or_replace_page now v s.1) as [c1 pid].
  cbn [fst snd].
  by destruct (Scrape.write_children pid secs exs
                 (c1, Scrape.count_page s.2)) as [s2 [[]|msg]].
Qed.

Lemma page_block_frame (P : list Db.page_row -> Z -> Z -> Prop)
      (now : string) (v : Db.page_values) (secs : list section)
      (exs : list code_example) (after : Z -> Scrape.try_block unit)
      (s : Scrape.state) :
  (forall pid, preserves (fun s => P (Db.pages s.1) (Scrape.n_pages s.2)
                                     (Scrape.n_errors s.2)) (after pid)) ->
  P (Db.pages (Db.insert_or_replace_page now v s.1).1)
    (Scrape.n_pages s.2 + 1) (Scrape.n_errors s.2) ->
  let s' := Scrape.catch (Scrape.write_page now v secs exs ≫= after) s in
  P (Db.pages s'.1) (Scrape.n_pages s'.2) (Scrape.n_errors s'.2).
Proof.
  intros Hafter HP. cbn zeta. rewrite page_block_unfold.
  apply (preserves_bind
           (fun s0 => P (Db.pages s0.1) (Scrape.n_pages s0.2)
                        (Scrape.n_errors s0.2))); [|by intros _|done].
  apply write_children_frame.
Qed.

Lemma insert_or_replace_page_titles (now : string) (v : Db.page_values)
      (c : Db.conn) :
  titles_nonempty c -> Db.v_title v <> "" ->
  titles_nonempty (Db.insert_or_replace_page now v c).1.
Proof.
  intros Hc Hv p. unfold Db.insert_or_replace_page.
  cbn [fst Db.pages Db.replace_delete].
  intros [[_ Hp]%list_elem_of_filter|Hp%list_elem_of_singleton]%elem_of_app.
  - by apply Hc.
  - by subst p.
Qed.

Lemma truthy_nonempty (s : string) : Py.truthy s = true <-> s <> "".
Proof. by destruct s. Qed.

(** The loop body of the two web scrapers writes no page without a
    title. *)
Lemma web_step_titles (with_nodes : bool) (source : string)
      (lib : Scrape.library) (lastmod_map : gmap string (option string))
      (now : string) (s : Scrape.state) (page : Fetch.result)
      (s' : Scrape.state) :
  titles_nonempty s.1 ->
  Scrape.web_step with_nodes source lib lastmod_map now s page = inr s' ->
  titles_nonempty s'.1.
Proof.
  intros Hs. unfold Scrape.web_step.
  destruct (Scrape.has_error (Fetch.error page)); [by intros [= <-]|].
  destruct (Fetch.html page) as [html|]; [|done].
  set (data := Html.extract_mkdocs_content _ _ html).
  destruct (Py.truthy (Html.e_title data)) eqn:Htitle;
    cbn [negb]; [|by intros [= <-]].
  intros [= <-]. unfold titles_nonempty.
  apply (page_block_frame (fun pages _ _ =>
           forall p, p ∈ pages -> Db.page_title p <> "")).
  - intros pid. destruct with_nodes; [|apply preserves_ret].
    apply (write_node_frame (fun pages _ _ =>
             forall p, p ∈ pages -> Db.page_title p <> "")).
  - apply insert_or_replace_page_titles; [done|].
    by apply truthy_nonempty.
Qed.

(** C5, as the code has it. In the framework and the node-docs web
    scrapers a fetched page whose extraction yields no title is passed
    over: the database and all counters, the error counter among them,
    stay as they are; and these two scrapers leave no page row with an
    empty title in a database that had none. The GitHub scraper does not
    pass such a page over: it writes it under the title made from the
    file name, and counts it as a page and not as an error. *)
Theorem untitled_pages (now : string) (s : Scrape.state) :
  (forall with_nodes source lib lastmod_map page html,
      Scrape.has_error (Fetch.error page) = false ->
      Fetch.html page = Some html ->
      Html.e_title
        (Html.extract_mkdocs_content (Scrape.parse_html lib)
           (Scrape.to_html lib) html) = "" ->
      Scrape.web_step with_nodes source lib lastmod_map now s page = inr s)
  /\ (forall lib net clock entries s',
        titles_nonempty s.1 ->
        Scrape.scrape_framework lib net clock entries s.1 = inr s' ->
        titles_nonempty s'.1)
  /\ (forall lib normalize_url net clock entries s',
        titles_nonempty s.1 ->
        Scrape.scrape_nodes lib normalize_url net clock entries s.1
        = inr s' ->
        titles_nonempty s'.1)
  /\ (forall result md,
        Scrape.has_error (Scrape.g_error result) = false ->
        Scrape.g_content result = Some md ->
        Markdown.p_title (Markdown.parse_markdown md) = "" ->
        exists s' new,
          Scrape.github_step now s result = inr s'
          /\ pages_at (Scrape.path_to_docs_url (Scrape.g_path result)) s'.1
             = [new]
          /\ Db.page_title new
             = Scrape.filename_title (Scrape.g_name result)
          /\ Scrape.n_pages s'.2 = Scrape.n_pages s.2 + 1
          /\ Scrape.n_errors s'.2 = Scrape.n_errors s.2).
Proof.
  split_and!.
  - intros with_nodes source lib lastmod_map page html Herr Hhtml Htitle.
    unfold Scrape.web_step. by rewrite Herr, Hhtml, Htitle.
  - intros lib net clock entries s' Hs. unfold Scrape.scrape_framework.
    apply (run_loop_invariant (fun s => titles_nonempty s.1)); [|done].
    intros now0 s0 x s1. apply web_step_titles.
  - intros lib normalize_url net clock entries s' Hs.
    unfold Scrape.scrape_nodes.
    apply (run_loop_invariant (fun s => titles_nonempty s.1)); [|done].
    intros now0 s0 x s1. apply web_step_titles.
  - intros result md Herr Hmd Htitle.
    unfold Scrape.github_step. rewrite Herr, Hmd, Htitle. cbn [Py.truthy negb].
    set (v := {| Db.v_url := _ |}).
    set (after := fun pid : Z => Scrape.write_node _ _ pid).
    destruct (insert_or_replace_page_spec now v s.1)
      as ((new & Hnew & _ & Hnew_title & _) & _).
    eexists _, new. split; [reflexivity|].
    apply (page_block_frame
             (fun pages n e =>
                filter (fun p => Db.page_url p = Db.v_url v) pages = [new]
                /\ Db.page_title new
                   = Scrape.filename_title (Scrape.g_name result)
                /\ n = Scrape.n_pages s.2 + 1
                /\ e = Scrape.n_errors s.2) now v _ _ after s).
    + intros pid.
      apply (write_node_frame
               (fun pages n e =>
                  filter (fun p => Db.page_url p = Db.v_url v) pages = [new]
                  /\ Db.page_title new
                     = Scrape.filename_title (Scrape.g_name result)
                  /\ n = Scrape.n_pages s.2 + 1
                  /\ e = Scrape.n_errors s.2)).
    + done.
Qed.

(** A page without a top-level heading, fetched by the framework
    scraper, changes nothing. *)
Lemma untitled_pages_witness :
  Scrape.web_step false Scrape.FRAMEWORK_SOURCE untitled_library ∅
    "2024-05-01 10:00:00" (Db.empty, Scrape.zero)
    {| Fetch.url := "https://docs.griptape.ai/stable/";
       Fetch.html := Some "<p>moved</p>"; Fetch.error := None |}
  = inr (Db.empty, Scrape.zero).
Proof.
  refine (proj1 (untitled_pages "2024-05-01 10:00:00" (Db.empty, Scrape.zero))
                false Scrape.FRAMEWORK_SOURCE untitled_library ∅
                {| Fetch.url := "https://docs.griptape.ai/stable/";
                   Fetch.html := Some "<p>moved</p>"; Fetch.error := None |}
                "<p>moved</p>" _ _ _); reflexivity.
Defined.

(** C5 as stated fails for the GitHub scraper: a fetched file whose
    extraction yields no title is written, under the title "Faq". *)
Lemma github_untitled_page_is_written :
  Markdown.p_title (Markdown.parse_markdown "Questions and answers.") = ""
  /\ exists s',
      Scrape.github_step "2024-05-01 10:00:00" (Db.empty, Scrape.zero) faq_file
      = inr s'
      /\ Db.page_title <$> Db.pages s'.1 = ["Faq"]
      /\ Scrape.n_pages s'.2 = 1.
Proof. split; [reflexivity|]. eexists. split_and!; reflexivity. Qed.




(** The error of that page names the declared size. *)
Example oversized_message :
  (Fetch.fetch_one (fun _ => Fetch.Returns big_response) "u").1
  = Fetch.failed "u" "Response too large (11000000 bytes)".
Proof. reflexivity. Qed.

(** ** The query layer *)

Lemma select_one_some (c : Db.conn) (w : Db.node_row -> bool)
      (row : Query.node_detail) :
  Query.select_one c w = Some row ->
  exists n, n ∈ Db.nodes c /\ w n = true /\ row = Query.detail c n.
Proof.
  unfold Query.select_one. intros Hrow.
  destruct (filter _ (Db.nodes c)) as [|n rest] eqn:Hf; [done|].
  cbn in Hrow. injection Hrow as <-. exists n.
  assert (n ∈ filter (fun n => w n = true) (Db.nodes c))
    as [Hw Hn]%list_elem_of_filter by (rewrite Hf; left).
  done.
Qed.

Lemma select_one_none (c : Db.conn) (w : Db.node_row -> bool)
      (n : Db.node_row) :
  n ∈ Db.nodes c -> w n = true -> Query.select_one c w <> None.
Proof.
  unfold Query.select_one. intros Hn Hw.
  destruct (filter _ (Db.nodes c)) as [|m rest] eqn:Hf; [|done].
  assert (n ∈ filter (fun n => w n = true) (Db.nodes c)) as Hin
    by by apply list_elem_of_filter.
  rewrite Hf in Hin. by apply elem_of_nil in Hin.
Qed.

Lemma spaced_pair_stripped (name : string) (n : Db.node_row) :
  spaced_pair (Db.node_name n) name -> Query.stripped_match name n = true.
Proof.
  unfold Query.stripped_match.
  by intros [[-> ->]|[-> ->]].
Qed.

(** Membership of a statement in a log that is written out. *)
Ltac in_log := solve [repeat first [by left | right]].
Ltac not_in_log :=
  let H := fresh in
  intros H;
  repeat (apply elem_of_cons in H as [H|H]; [discriminate|]);
  by apply elem_of_nil in H.

Ltac log_side :=
  first [done | not_in_log | intros; in_log | intros []; done].

(** A statement with LIMIT 1 returns the first row that satisfies its
    WHERE clause, and no row when none does. *)
Lemma select_one_first (c : Db.conn) (w : Db.node_row -> bool)
      (n : Db.node_row) :
  first_row w c n -> Query.select_one c w = Some (Query.detail c n).
Proof.
  intros (before & after & Hc & Hb & Hn). unfold Query.select_one.
  rewrite Hc, filter_app, filter_cons_True by done.
  rewrite (filter_none (fun m => w m = true) before); [done|].
  intros x Hx Hwx. rewrite Forall_forall in Hb.
  rewrite (Hb x Hx) in Hwx. done.
Qed.

Lemma select_one_no_row (c : Db.conn) (w : Db.node_row -> bool) :
  no_row w c -> Query.select_one c w = None.
Proof.
  unfold no_row, Query.select_one. intros Hno.
  rewrite (filter_none (fun m => w m = true) (Db.nodes c)); [done|].
  intros x Hx Hwx. rewrite Forall_forall in Hno.
  rewrite (Hno x Hx) in Hwx. done.
Qed.

Lemma first_row_or_none (w : Db.node_row -> bool) (c : Db.conn) :
  no_row w c \/ exists n, first_row w c n.
Proof.
  unfold no_row, first_row. induction (Db.nodes c) as [|a l IH].
  - left. constructor.
  - destruct (w a) eqn:Ha.
    + right. exists a, [], l. split_and!; [done|constructor|done].
    + destruct IH as [IH|(n & before & after & -> & Hb & Hn)].
      * left. by constructor.
      * right. exists n, (a :: before), after.
        split_and!; [done|by constructor|done].
Qed.

(** The statements that ran, and the rows of the specification's
    example. *)
Lemma node_lookup_order (c : Db.conn) (name : string) :
  let result := (Query.get_node_by_name c name).1 in
  let log := (Query.get_node_by_name c name).2 in
  (Query.Exact ∈ log)
  /\ (Query.Substring ∈ log
      <-> Query.select_one c (Query.exact_match name) = None)
  /\ (Query.Stripped ∈ log
      <-> Query.select_one c (Query.exact_match name) = None
          /\ Query.select_one c (Query.like_match name) = None)
  /\ (forall n,
        n ∈ Db.nodes c -> spaced_pair (Db.node_name n) name ->
        is_Some result
        /\ ((forall m, m ∈ Db.nodes c -> matches_somewhere name m = true ->
                       m = n) ->
            result = Some (Query.detail c n))).
Proof.
  cbn zeta. unfold Query.get_node_by_name.
  destruct (Query.select_one c (Query.exact_match name)) as [r1|] eqn:H1;
    [|destruct (Query.select_one c (Query.like_match name)) as [r2|] eqn:H2;
      [|destruct (Query.select_one c (Query.stripped_match name))
          as [r3|] eqn:H3]];
    cbn [fst snd].
  all: split; [in_log|].
  all: do 2 (split; [split; log_side|]).
  all: intros n Hn Hpair.
  4: { by destruct (select_one_none c _ n Hn (spaced_pair_stripped _ _ Hpair)). }
  all: split; [done|]; intros Honly; f_equal.
  - apply select_one_some in H1 as (m & Hm & Hw & ->).
    f_equal. apply Honly; [done|]. unfold matches_somewhere. by rewrite Hw.
  - apply select_one_some in H2 as (m & Hm & Hw & ->).
    f_equal. apply Honly; [done|]. unfold matches_somewhere.
    rewrite Hw. by rewrite orb_true_r.
  - apply select_one_some in H3 as (m & Hm & Hw & ->).
    f_equal. apply Honly; [done|]. unfold matches_somewhere.
    rewrite Hw. by rewrite orb_true_r.
Qed.

(** C9, as the code has it. The three statements run in the order exact,
    substring, stripped substring, each only when the ones before found
    no row. The lookup returns the first row, in table order, that
    satisfies the first of the three clauses that any row satisfies: a
    row with the exact name wins over every row that only holds the
    query as a substring, wherever it stands in the table, and a row
    that holds the query as a substring wins over every row that matches
    only once the spaces are taken out. The lookup returns nothing
    exactly when no row satisfies any of the clauses, and one of these
    four cases always applies. For a stored node "LoadImage" and the
    query "Load Image", or the other way round, the lookup therefore
    returns a row; it returns this node whenever no other stored node
    matches the query in one of the tiers. *)
Theorem node_lookup_tiers (c : Db.conn) (name : string) :
  let result := (Query.get_node_by_name c name).1 in
  let log := (Query.get_node_by_name c name).2 in
  (Query.Exact ∈ log)
  /\ (Query.Substring ∈ log
      <-> Query.select_one c (Query.exact_match name) = None)
  /\ (Query.Stripped ∈ log
      <-> Query.select_one c (Query.exact_match name) = None
          /\ Query.select_one c (Query.like_match name) = None)
  /\ (forall n,
        n ∈ Db.nodes c -> spaced_pair (Db.node_name n) name ->
        is_Some result
        /\ ((forall m, m ∈ Db.nodes c -> matches_somewhere name m = true ->
                       m = n) ->
            result = Some (Query.detail c n)))
  /\ (forall n,
        first_row (Query.exact_match name) c n ->
        result = Some (Query.detail c n) /\ log = [Query.Exact])
  /\ (forall n,
        no_row (Query.exact_match name) c ->
        first_row (Query.like_match name) c n ->
        result = Some (Query.detail c n)
        /\ log = [Query.Exact; Query.Substring])
  /\ (forall n,
        no_row (Query.exact_match name) c ->
        no_row (Query.like_match name) c ->
        first_row (Query.stripped_match name) c n ->
        result = Some (Query.detail c n)
        /\ log = [Query.Exact; Query.Substring; Query.Stripped])
  /\ (no_row (Query.exact_match name) c ->
      no_row (Query.like_match name) c ->
      no_row (Query.stripped_match name) c ->
      result = None
      /\ log = [Query.Exact; Query.Substring; Query.Stripped])
  /\ ((exists n, first_row (Query.exact_match name) c n)
      \/ (no_row (Query.exact_match name) c
          /\ exists n, first_row (Query.like_match name) c n)
      \/ (no_row (Query.exact_match name) c
          /\ no_row (Query.like_match name) c
          /\ exists n, first_row (Query.stripped_match name) c n)
      \/ (no_row (Query.exact_match name) c
          /\ no_row (Query.like_match name) c
          /\ no_row (Query.stripped_match name) c)).
Proof.
  cbn zeta.
  destruct (node_lookup_order c name) as (Hexact & Hsub & Hstrip & Hpair).
  split; [exact Hexact|]. split; [exact Hsub|]. split; [exact Hstrip|].
  split; [exact Hpair|]. unfold Query.get_node_by_name.
  split; [|split; [|split; [|split]]].
  - intros n Hn. by rewrite (select_one_first _ _ _ Hn).
  - intros n H1 Hn.
    by rewrite (select_one_no_row _ _ H1), (select_one_first _ _ _ Hn).
  - intros n H1 H2 Hn.
    by rewrite (select_one_no_row _ _ H1), (select_one_no_row _ _ H2),
               (select_one_first _ _ _ Hn).
  - intros H1 H2 H3.
    by rewrite (select_one_no_row _ _ H1), (select_one_no_row _ _ H2),
               (select_one_no_row _ _ H3).
  - destruct (first_row_or_none (Query.exact_match name) c) as [H1|H1];
      [|by left].
    destruct (first_row_or_none (Query.like_match name) c) as [H2|H2];
      [|by right; left].
    destruct (first_row_or_none (Query.stripped_match name) c) as [H3|H3].
    + by right; right; right.
    + by right; right; left.
Qed.

(** With "LoadImage" the only node, "Load Image" finds it, in the third
    tier. With "Load Image" stored after "Load Image Batch", the query
    "Load Image" returns the node of that very name, from the exact
    statement alone, and not the earlier row that holds the query as a
    substring. *)
Lemma node_lookup_tiers_witness :
  (is_Some (Query.get_node_by_name one_loader "Load Image").1
   /\ (Query.get_node_by_name one_loader "Load Image").1
      = Some (Query.detail one_loader (node_named 1 "LoadImage")))
  /\ (first_row (Query.exact_match "Load Image") exact_second
        (node_named 2 "Load Image")
      /\ (Query.get_node_by_name exact_second "Load Image").1
         = Some (Query.detail exact_second (node_named 2 "Load Image"))
      /\ (Query.get_node_by_name exact_second "Load Image").2
         = [Query.Exact]).
Proof.
  split.
  - pose proof (node_lookup_tiers one_loader "Load Image")
      as (_ & _ & _ & Hfound & _).
    destruct (Hfound (node_named 1 "LoadImage")) as [Hsome Hthis].
    + left.
    + left. done.
    + split; [exact Hsome|]. apply Hthis.
      intros m Hm _. by apply list_elem_of_singleton in Hm.
  - assert (Hfirst : first_row (Query.exact_match "Load Image") exact_second
                       (node_named 2 "Load Image")).
    { exists [node_named 1 "Load Image Batch"], [].
      split_and!; [reflexivity|by repeat constructor|reflexivity]. }
    split; [exact Hfirst|].
    pose proof (node_lookup_tiers exact_second "Load Image")
      as (_ & _ & _ & _ & Hrow & _).
    exact (Hrow _ Hfirst).
Defined.

(** The row that the lookup returns there is not the first row of the
    table that satisfies one of the three clauses: that is "Load Image
    Batch", which the substring clause accepts. *)
Example node_lookup_prefers_exact :
  Query.get_node_by_name exact_second "Load Image"
  = (Some (Query.detail exact_second (node_named 2 "Load Image")),
     [Query.Exact])
  /\ head (filter (fun n => matches_somewhere "Load Image" n = true)
                  (Db.nodes exact_second))
     = Some (node_named 1 "Load Image Batch").
Proof. split; reflexivity. Qed.

(** C9 as stated fails: with a node "Load Image Batch" in the store, the
    query "Load Image" returns that node, found by the substring tier,
    and not the stored node "LoadImage". *)
Lemma node_lookup_returns_other_node :
  node_named 2 "LoadImage" ∈ Db.nodes two_loaders
  /\ Query.get_node_by_name two_loaders "Load Image"
     = (Some (Query.detail two_loaders (node_named 1 "Load Image Batch")),
        [Query.Exact; Query.Substring])
  /\ (Query.get_node_by_name two_loaders "Load Image").1
     <> Some (Query.detail two_loaders (node_named 2 "LoadImage")).
Proof.
  split_and!; [right; left|reflexivity|discriminate].
Qed.

(** Membership in lists built with [++] and [::], taken apart. *)
Ltac list_mem :=
  repeat first [rewrite elem_of_app | rewrite elem_of_cons].

Lemma first_seen_ids (rows : list Query.sql_row) : forall seen x,
  x ∈ ids (first_seen seen rows) <-> x ∈ ids rows /\ x ∉ seen.
Proof.
  unfold ids. induction rows as [|r rows IH]; intros seen x.
  - cbn. rewrite elem_of_nil. tauto.
  - cbn [first_seen]. case_bool_decide as Hr.
    + rewrite IH, fmap_cons, elem_of_cons. split; [tauto|].
      intros [[->|Hx] Hno]; tauto.
    + rewrite !fmap_cons, !elem_of_cons, IH, elem_of_cons.
      split; [intros [->|(Hx & Hno)]; tauto|].
      destruct (decide (x = Query.ce_id r)); tauto.
Qed.

Lemma first_seen_NoDup (rows : list Query.sql_row) : forall seen,
  NoDup (ids (first_seen seen rows)).
Proof.
  unfold ids. induction rows as [|r rows IH]; intros seen.
  - constructor.
  - cbn [first_seen]. case_bool_decide as Hr; [apply IH|].
    rewrite fmap_cons. constructor; [|apply IH].
    intros Hin%first_seen_ids. destruct Hin as [_ Hno]. apply Hno. left.
Qed.

(** Only membership in [seen] counts. *)
Lemma first_seen_ext (rows : list Query.sql_row) : forall seen seen',
  (forall x, x ∈ seen <-> x ∈ seen') ->
  first_seen seen rows = first_seen seen' rows.
Proof.
  induction rows as [|r rows IH]; intros seen seen' Hsame; [done|].
  cbn [first_seen].
  rewrite (bool_decide_ext _ (Query.ce_id r ∈ seen') (Hsame _)).
  case_bool_decide; [by apply IH|]. f_equal. apply IH.
  intros x. rewrite !elem_of_cons, Hsame. tauto.
Qed.

Lemma first_seen_app (rows more : list Query.sql_row) : forall seen,
  first_seen seen (rows ++ more)
  = first_seen seen rows
      ++ first_seen (ids (first_seen seen rows) ++ seen) more.
Proof.
  induction rows as [|r rows IH]; intros seen; [done|].
  cbn [app first_seen]. case_bool_decide as Hr; [apply IH|].
  rewrite IH. cbn [app]. f_equal. f_equal. apply first_seen_ext.
  intros x. unfold ids. rewrite fmap_cons. list_mem. tauto.
Qed.

Lemma distinct_app (rows more : list Query.sql_row) :
  distinct (rows ++ more)
  = distinct rows ++ first_seen (ids (distinct rows)) more.
Proof. unfold distinct. by rewrite first_seen_app, app_nil_r. Qed.

(** [_collect] adds the rows whose example has not been seen, in order. *)
Lemma collect_first_seen (rows : list Query.sql_row) :
  forall (seen : list Z) (st : gset Z * list Query.out_row),
  st.1 = list_to_set seen ->
  Query.collect rows st
  = (list_to_set (ids (first_seen seen rows) ++ seen),
     st.2 ++ (Query.pop_ce_id <$> first_seen seen rows)).
Proof.
  unfold Query.collect.
  induction rows as [|r rows IH]; intros seen [s out] Hs; cbn [fst snd] in *.
  - cbn. rewrite app_nil_r. by subst s.
  - cbn [foldl first_seen]. unfold Query.collect_row at 2. cbn [fst snd].
    rewrite (bool_decide_ext (Query.ce_id r ∈ s) (Query.ce_id r ∈ seen))
      by (subst s; apply elem_of_list_to_set).
    case_bool_decide as Hr.
    + by apply IH.
    + rewrite (IH (Query.ce_id r :: seen)).
      * cbn [fst snd]. f_equal.
        -- apply set_eq. intros x. unfold ids.
           rewrite !elem_of_list_to_set, fmap_cons. list_mem. tauto.
        -- rewrite fmap_cons, <- app_assoc. done.
      * cbn [fst]. subst s. by rewrite list_to_set_cons.
Qed.

(** The state of [search_code_examples] after the rows [rows] have been
    collected, and after more have. *)
Lemma collect_distinct (rows more : list Query.sql_row)
      (st : gset Z * list Query.out_row) :
  st = (list_to_set (ids (distinct rows)), Query.pop_ce_id <$> distinct rows) ->
  Query.collect more st
  = (list_to_set (ids (distinct (rows ++ more))),
     Query.pop_ce_id <$> distinct (rows ++ more)).
Proof.
  intros ->. rewrite (collect_first_seen more (ids (distinct rows))) by done.
  rewrite distinct_app. cbn [fst snd]. f_equal.
  - apply set_eq. intros x. unfold ids.
    rewrite !elem_of_list_to_set, fmap_app, !elem_of_app. tauto.
  - by rewrite fmap_app.
Qed.

Lemma slice_to_take {A} (l : list A) (n : Z) :
  exists k, Py.slice_to l n = take k l.
Proof. unfold Py.slice_to. destruct (0 <=? n); eauto. Qed.

(** Rows of distinct examples are all kept. *)
Lemma first_seen_all (rows : list Query.sql_row) : forall seen,
  NoDup (ids rows) -> (forall x, x ∈ ids rows -> x ∉ seen) ->
  first_seen seen rows = rows.
Proof.
  unfold ids. induction rows as [|r rows IH]; intros seen Hnd Hseen; [done|].
  rewrite fmap_cons in Hnd, Hseen. apply NoDup_cons in Hnd as [Hr Hnd].
  cbn [first_seen]. rewrite bool_decide_eq_false_2 by (apply Hseen; left).
  f_equal. apply IH; [done|]. intros x Hx [->|Hin]%elem_of_cons; [done|].
  by apply (Hseen x); [right|].
Qed.

Lemma distinct_all (rows : list Query.sql_row) :
  NoDup (ids rows) -> distinct rows = rows.
Proof.
  intros Hnd. apply first_seen_all; [done|]. intros x _. apply not_elem_of_nil.
Qed.

Lemma distinct_state_count (rows : list Query.sql_row) :
  Query.count (list_to_set (ids (distinct rows)),
               Query.pop_ce_id <$> distinct rows)
  = Z.of_nat (length (distinct rows)).
Proof. unfold Query.count. cbn [snd]. by rewrite length_fmap. Qed.

Lemma collect_default (rows : list Query.sql_row)
      (more : option (list Query.sql_row)) :
  match more with
  | Some l =>
      Query.collect l (list_to_set (ids (distinct rows)),
                       Query.pop_ce_id <$> distinct rows)
  | None => (list_to_set (ids (distinct rows)),
             Query.pop_ce_id <$> distinct rows)
  end
  = (list_to_set (ids (distinct (rows ++ default [] more))),
     Query.pop_ce_id <$> distinct (rows ++ default [] more)).
Proof.
  destruct more as [l|]; cbn [default].
  - by apply collect_distinct.
  - by rewrite app_nil_r.
Qed.

(** Where a row of the output stands tells which layer produced its
    example first. *)
Lemma distinct_position (rows more : list Query.sql_row) (k i : nat)
      (r : Query.sql_row) :
  take k (distinct (rows ++ more)) !! i = Some r ->
  (Query.ce_id r ∈ ids rows <-> (i < length (distinct rows))%nat).
Proof.
  intros [Hr _]%lookup_take_Some. rewrite distinct_app in Hr.
  apply lookup_app_Some in Hr as [Hr|[Hi Hr]].
  - split; [intros _; by eapply lookup_lt_Some|intros _].
    assert (Query.ce_id r ∈ ids (distinct rows)) as Hin.
    { unfold ids. apply list_elem_of_fmap_2. by eapply list_elem_of_lookup_2. }
    unfold distinct in Hin. by apply first_seen_ids in Hin as [Hin _].
  - split; [|lia]. intros Hin.
    assert (Query.ce_id r ∈ ids (first_seen (ids (distinct rows)) more))
      as [_ Hno]%first_seen_ids.
    { unfold ids. apply list_elem_of_fmap_2. by eapply list_elem_of_lookup_2. }
    destruct Hno. unfold distinct. apply first_seen_ids. split; [done|].
    apply not_elem_of_nil.
Qed.

(** The rows of the section layer, before LIMIT. *)
Lemma layer1_row (c : Db.conn) (hits : list Z) (r : Query.sql_row) :
  r ∈ (hit ← hits;
       s ← filter (fun s => Db.sec_id s = hit) (Db.sections c);
       ce ← filter (fun ce => Db.ex_section_id ce = Some (Db.sec_id s))
                   (Db.code_examples c);
       p ← filter (fun p => Db.page_id p = Db.ex_page_id ce) (Db.pages c);
       [Query.row_of ce (Some s) p])
  <-> exists hit s ce p,
        hit ∈ hits
        /\ s ∈ Db.sections c /\ Db.sec_id s = hit
        /\ ce ∈ Db.code_examples c
        /\ Db.ex_section_id ce = Some (Db.sec_id s)
        /\ p ∈ Db.pages c /\ Db.page_id p = Db.ex_page_id ce
        /\ r = Query.row_of ce (Some s) p.
Proof.
  split.
  - intros (hit & (s & (ce & (p & Hr%list_elem_of_singleton
                                & [Hp Hpin]%list_elem_of_filter)
                                  %list_elem_of_bind
                           & [Hce Hcein]%list_elem_of_filter)
                             %list_elem_of_bind
                      & [Hs Hsin]%list_elem_of_filter)%list_elem_of_bind
                & Hhit)%list_elem_of_bind.
    by exists hit, s, ce, p.
  - intros (hit & s & ce & p & Hhit & Hsin & Hs & Hcein & Hce & Hpin & Hp & ->).
    apply list_elem_of_bind. exists hit. split; [|done].
    apply list_elem_of_bind. exists s.
    split; [|by apply list_elem_of_filter].
    apply list_elem_of_bind. exists ce.
    split; [|by apply list_elem_of_filter].
    apply list_elem_of_bind. exists p.
    split; [left|by apply list_elem_of_filter].
Qed.

Lemma NoDup_table {A B} (f : A -> B) (l : list A) :
  NoDup (f <$> l) -> NoDup l.
Proof. apply NoDup_fmap_1. Qed.

(** In a database whose primary keys are keys, and with an index that
    reports no rowid twice, the section layer returns no example twice:
    its number of rows is its number of examples. *)
Lemma layer1_rows_distinct
      (fts5 : string -> list Db.fts_doc -> option (list Z))
      (c : Db.conn) (q : string) (limit : Z) (rows : list Query.sql_row) :
  keys_unique c ->
  (forall hits, fts5 q (Db.sections_fts c) = Some hits -> NoDup hits) ->
  Query.layer1 fts5 c q limit = Some rows ->
  NoDup (ids rows).
Proof.
  intros (Hpages & Hsections & Hexamples) Hfts. unfold Query.layer1.
  destruct (fts5 q (Db.sections_fts c)) as [hits|] eqn:Hhits; [|done].
  cbn [mbind option_bind]. intros [= <-].
  specialize (Hfts hits eq_refl).
  assert (Hrow : forall ce ce' s s' p p',
    ce ∈ Db.code_examples c -> ce' ∈ Db.code_examples c ->
    Query.row_of ce s p = Query.row_of ce' s' p' -> ce = ce').
  { intros ce ce' s s' p p' Hce Hce' Heq.
    apply (same_key Db.ex_id (Db.code_examples c)); [done..|].
    by injection Heq. }
  set (all := hits ≫= _).
  assert (Hall : NoDup (ids all)).
  { unfold ids. apply NoDup_fmap_2_strong.
    - intros x y (hit & s & ce & p & _ & Hs & _ & Hce & Hlink & Hp & Hpid & ->)
                   %layer1_row
                 (hit' & s' & ce' & p' & _ & Hs' & _ & Hce' & Hlink' & Hp' & Hpid'
                  & ->)%layer1_row Hid.
      cbn in Hid.
      assert (ce = ce') as <- by by apply (same_key Db.ex_id (Db.code_examples c)).
      assert (s = s') as <-.
      { apply (same_key Db.sec_id (Db.sections c)); [done..|]. congruence. }
      assert (p = p') as <-.
      { apply (same_key Db.page_id (Db.pages c)); [done..|]. congruence. }
      done.
    - subst all. apply NoDup_bind; [| |done].
      + intros hit hit' r _ _
          (s & (ce & (p & ->%list_elem_of_singleton & _)%list_elem_of_bind
                & [Hce Hcein]%list_elem_of_filter)%list_elem_of_bind
           & [Hs Hsin]%list_elem_of_filter)%list_elem_of_bind
          (s' & (ce' & (p' & Heq%list_elem_of_singleton & _)%list_elem_of_bind
                 & [Hce' Hcein']%list_elem_of_filter)%list_elem_of_bind
           & [Hs' Hsin']%list_elem_of_filter)%list_elem_of_bind.
        apply Hrow in Heq; [|done..]. subst ce'. congruence.
      + intros hit _. apply NoDup_bind;
          [| |apply NoDup_filter; by eapply NoDup_table].
        * intros s s' r [_ Hsin]%list_elem_of_filter
                        [_ Hsin']%list_elem_of_filter
            (ce & (p & ->%list_elem_of_singleton & _)%list_elem_of_bind
             & [Hce Hcein]%list_elem_of_filter)%list_elem_of_bind
            (ce' & (p' & Heq%list_elem_of_singleton & _)%list_elem_of_bind
             & [Hce' Hcein']%list_elem_of_filter)%list_elem_of_bind.
          apply Hrow in Heq; [|done..]. subst ce'.
          apply (same_key Db.sec_id (Db.sections c)); [done..|]. congruence.
        * intros s _. apply NoDup_bind;
            [| |apply NoDup_filter; by eapply NoDup_table].
          -- intros ce ce' r [_ Hcein]%list_elem_of_filter
                             [_ Hcein']%list_elem_of_filter
               (p & ->%list_elem_of_singleton & _)%list_elem_of_bind
               (p' & Heq%list_elem_of_singleton & _)%list_elem_of_bind.
             by apply Hrow in Heq.
          -- intros ce _. apply NoDup_bind;
               [| |apply NoDup_filter; by eapply NoDup_table].
             ++ intros p p' r [Hp Hpin]%list_elem_of_filter
                                [Hp' Hpin']%list_elem_of_filter _ _.
                apply (same_key Db.page_id (Db.pages c)); [done..|].
                congruence.
             ++ intros p _. apply NoDup_singleton. }
  unfold Query.sql_limit. destruct (limit <? 0); [done|].
  unfold ids in *. rewrite fmap_take.
  eapply sublist_NoDup; [exact Hall|apply sublist_take].
Qed.

(** C8. With [rows1], [rows2], [rows3] the rows the three statements
    return and counts taken over distinct code examples: the page layer
    runs exactly when the section layer gave fewer examples than the
    limit ([n1] is the number of rows it returned when these are rows
    of different examples, as [layer1_rows_distinct] shows them to be
    in a database with unique keys), the substring layer exactly when
    the two
    together gave fewer; the output is the first [limit] of the distinct
    examples of [rows1 ++ rows2 ++ rows3], each at its first occurrence;
    no example is in it twice; and an example of the section layer
    stands before every example that only the substring layer
    produced. *)
Theorem search_layers (fts5 : string -> list Db.fts_doc -> option (list Z))
        (c : Db.conn) (q : string) (limit : Z) :
  let rows1 := default [] (Query.layer1 fts5 c q limit) in
  let n1 := Z.of_nat (length (distinct rows1)) in
  let rows2 :=
    if n1 <? limit then default [] (Query.layer2 fts5 c q (limit - n1))
    else [] in
  let n2 := Z.of_nat (length (distinct (rows1 ++ rows2))) in
  let rows3 := if n2 <? limit then Query.layer3 c q (limit - n2) else [] in
  let found := Py.slice_to (distinct (rows1 ++ rows2 ++ rows3)) limit in
  let results := (Query.search_code_examples fts5 c q limit).1 in
  let log := (Query.search_code_examples fts5 c q limit).2 in
  (Query.PageFts ∈ log <-> n1 < limit)
  /\ (NoDup (ids rows1) -> n1 = Z.of_nat (length rows1))
  /\ (Query.CodeLike ∈ log <-> n2 < limit)
  /\ results = Query.pop_ce_id <$> found
  /\ NoDup (ids found)
  /\ (forall i j r1 r3,
         found !! i = Some r1 -> found !! j = Some r3 ->
         Query.ce_id r1 ∈ ids rows1 ->
         Query.ce_id r3 ∉ ids (rows1 ++ rows2) ->
         (i < j)%nat).
Proof.
  cbn zeta. unfold Query.search_code_examples.
  set (rows1 := default [] (Query.layer1 fts5 c q limit)).
  pose proof (collect_default [] (Query.layer1 fts5 c q limit)) as H1.
  cbn [app] in H1. change (distinct []) with (@nil Query.sql_row) in H1.
  cbn [ids fmap list_fmap list_to_set foldr] in H1.
  fold rows1 in H1. rewrite H1. clear H1.
  rewrite distinct_state_count.
  set (n1 := Z.of_nat (length (distinct rows1))).
  set (rows2 := if n1 <? limit
                then default [] (Query.layer2 fts5 c q (limit - n1))
                else []).
  assert (H2 :
    (if n1 <? limit
     then (match Query.layer2 fts5 c q (limit - n1) with
           | Some rows =>
               Query.collect rows
                 (list_to_set (ids (distinct rows1)),
                  Query.pop_ce_id <$> distinct rows1)
           | None => (list_to_set (ids (distinct rows1)),
                      Query.pop_ce_id <$> distinct rows1)
           end, [Query.PageFts])
     else ((list_to_set (ids (distinct rows1)),
            Query.pop_ce_id <$> distinct rows1), []))
    = ((list_to_set (ids (distinct (rows1 ++ rows2))),
        Query.pop_ce_id <$> distinct (rows1 ++ rows2)),
       if n1 <? limit then [Query.PageFts] else [])).
  { subst rows2. destruct (n1 <? limit).
    - by rewrite collect_default.
    - by rewrite app_nil_r. }
  rewrite H2. clear H2.
  rewrite distinct_state_count.
  set (n2 := Z.of_nat (length (distinct (rows1 ++ rows2)))).
  set (rows3 := if n2 <? limit then Query.layer3 c q (limit - n2) else []).
  assert (H3 :
    (if n2 <? limit
     then (Query.collect (Query.layer3 c q (limit - n2))
             (list_to_set (ids (distinct (rows1 ++ rows2))),
              Query.pop_ce_id <$> distinct (rows1 ++ rows2)),
           [Query.CodeLike])
     else ((list_to_set (ids (distinct (rows1 ++ rows2))),
            Query.pop_ce_id <$> distinct (rows1 ++ rows2)), []))
    = ((list_to_set (ids (distinct (rows1 ++ rows2 ++ rows3))),
        Query.pop_ce_id <$> distinct (rows1 ++ rows2 ++ rows3)),
       if n2 <? limit then [Query.CodeLike] else [])).
  { subst rows3. destruct (n2 <? limit).
    - rewrite (collect_distinct (rows1 ++ rows2)) by done.
      by rewrite <- app_assoc.
    - by rewrite !app_nil_r. }
  rewrite H3. clear H3. cbn [fst snd].
  destruct (slice_to_take (distinct (rows1 ++ rows2 ++ rows3)) limit)
    as [k Hk].
  split_and!.
  - destruct (n1 <? limit) eqn:Hn1.
    + apply Z.ltb_lt in Hn1. split; [done|intros _; in_log].
    + apply Z.ltb_ge in Hn1. split; [|lia]. intros Hin.
      apply elem_of_cons in Hin as [?|Hin]; [done|].
      cbn [app] in Hin. destruct (n2 <? limit); [|by apply elem_of_nil in Hin].
      apply elem_of_cons in Hin as [?|Hin]; [done|by apply elem_of_nil in Hin].
  - intros Hnd. subst n1. by rewrite distinct_all.
  - destruct (n2 <? limit) eqn:Hn2.
    + apply Z.ltb_lt in Hn2. split; [done|intros _].
      right. rewrite elem_of_app. right. left.
    + apply Z.ltb_ge in Hn2. split; [|lia]. intros Hin.
      apply elem_of_cons in Hin as [?|Hin]; [done|].
      rewrite app_nil_r in Hin.
      destruct (n1 <? limit); [|by apply elem_of_nil in Hin].
      apply elem_of_cons in Hin as [?|Hin]; [done|by apply elem_of_nil in Hin].
  - unfold Py.slice_to. destruct (0 <=? limit).
    + by rewrite fmap_take.
    + by rewrite fmap_take, length_fmap.
  - rewrite Hk. unfold ids. rewrite fmap_take.
    eapply sublist_NoDup; [|apply sublist_take]. apply first_seen_NoDup.
  - rewrite Hk. intros i j r1 r3 Hi Hj Hin1 Hnot3.
    pose proof Hi as Hi'.
    apply distinct_position in Hi'. apply Hi' in Hin1.
    rewrite app_assoc in Hj. apply distinct_position in Hj.
    assert (~ (j < length (distinct (rows1 ++ rows2)))%nat) by tauto.
    assert (length (distinct rows1) <= length (distinct (rows1 ++ rows2)))%nat.
    { rewrite distinct_app, length_app. lia. }
    lia.
Qed.

(** The query "Agent" matches the heading of a section and the code of
    two examples: the example linked to the section comes first, the
    other one follows from the substring layer, and the linked one is
    not repeated. *)
Example search_section_before_substring :
  Query.search_code_examples fts5_by_substring agents_store "Agent" 10
  = ([{| Query.o_language := "python"; Query.o_code := "Agent().run()";
         Query.o_context := "Agent"; Query.o_heading := Some "Agent";
         Query.o_title := "Structures";
         Query.o_url := "https://docs.griptape.ai/stable/framework/agents/" |};
      {| Query.o_language := "python"; Query.o_code := "import Agent";
         Query.o_context := ""; Query.o_heading := None;
         Query.o_title := "Structures";
         Query.o_url := "https://docs.griptape.ai/stable/framework/agents/" |}],
     [Query.SectionFts; Query.PageFts; Query.CodeLike]).
Proof. reflexivity. Qed.

(** With the limit reached by the section layer, the other two layers do
    not run. *)
Example search_stops_at_limit :
  (Query.search_code_examples fts5_by_substring agents_store "Agent" 1).2
  = [Query.SectionFts].
Proof. reflexivity. Qed.

(** The HTML extractor on a rendered page: the pilcrow of the headings is
    dropped, a section ends at the next heading, a code block takes its
    context from the paragraph or heading before it. *)
Example extract_soup_example :
  Html.extract_soup (fun _ => "<article>") agents_page
  = {| Html.e_title := "Agents";
       Html.e_content_text :=
         Py.join Markdown.nl
           ["Agents"; Html.pilcrow; "An agent runs tasks."; "Setup";
            Html.pilcrow; "pip install griptape"; "Usage"; "Create one:";
            "Agent()"];
       Html.e_content_html := "<article>";
       Html.e_breadcrumbs := ["Home"; "Structures"];
       Html.e_sections :=
         [{| heading := "Setup"; level := 2;
             content := "pip install griptape"; anchor := "setup" |};
          {| heading := "Usage"; level := 3;
             content := "Create one:" +:+ Markdown.nl +:+ "Agent()";
             anchor := "usage" |}];
       Html.e_code_examples :=
         [{| language := "sh"; code := "pip install griptape";
             context := "Setup" |};
          {| language := "python"; code := "Agent()";
             context := "Create one:" |}] |}.
Proof. reflexivity. Qed.

(** For the query "Agent" on the store above: the page layer runs, and
    the example of the section layer, at position 0, stands before the
    one that the substring layer alone produced, at position 1. *)
Lemma search_layers_witness :
  Query.PageFts
    ∈ (Query.search_code_examples fts5_by_substring agents_store "Agent" 10).2
  /\ (0 < 1)%nat.
Proof.
  pose proof (search_layers fts5_by_substring agents_store "Agent" 10)
    as (Hpage & _ & _ & _ & _ & Horder).
  split.
  - apply Hpage. vm_compute. reflexivity.
  - eapply (Horder 0%nat 1%nat).
    + vm_compute. reflexivity.
    + vm_compute. reflexivity.
    + vm_compute. left.
    + vm_compute. intros Hin%list_elem_of_singleton. discriminate.
Defined.

(** * Further properties *)

(** ** What every run of a scraper keeps *)

Lemma preserves_upsert (I : Db.conn -> Prop) (now : string)
      (v : Db.page_values) :
  kept_by_statements I ->
  preserves (fun s => I s.1) (Scrape.upsert_page now v).
Proof.
  intros (Hup & _) [c st] Hs. unfold Scrape.upsert_page. cbn [fst snd] in *.
  specialize (Hup now v c Hs).
  by destruct (Db.insert_or_replace_page now v c).
Qed.

Lemma preserves_write_page (I : Db.conn -> Prop) (now : string)
      (v : Db.page_values) (secs : list section) (exs : list code_example) :
  kept_by_statements I ->
  preserves (fun s => I s.1) (Scrape.write_page now v secs exs).
Proof.
  intros HI. pose proof HI as (_ & Hsec & Hex & _).
  unfold Scrape.write_page.
  apply preserves_bind; [by apply preserves_upsert|intros pid].
  apply preserves_bind; [by apply preserves_count|intros _].
  apply preserves_bind; [|intros _; apply preserves_ret].
  unfold Scrape.write_children.
  apply preserves_bind; [|intros _]; apply preserves_for_each.
  - intros sec. apply preserves_bind; [|intros _; by apply preserves_count].
    apply preserves_execute. intros c c' st. apply Hsec.
  - intros ex. apply preserves_bind; [|intros sid; apply preserves_bind;
                                       [|intros _; by apply preserves_count]].
    + destruct (Py.truthy (context ex));
        [apply preserves_query|apply preserves_ret].
    + apply preserves_execute. intros c c' st. apply Hex.
Qed.

Lemma preserves_write_node (I : Db.conn -> Prop)
      (info : option Scrape.node_info) (content_text : string) (pid : Z) :
  kept_by_statements I ->
  preserves (fun s => I s.1) (Scrape.write_node info content_text pid).
Proof.
  intros (_ & _ & _ & Hnode).
  destruct info as [i|]; cbn [Scrape.write_node]; [|apply preserves_ret].
  apply preserves_bind; [|intros _; by apply preserves_count].
  apply preserves_execute. intros c c' st. apply Hnode.
Qed.

Lemma web_step_keeps (I : Db.conn -> Prop) (with_nodes : bool)
      (source : string) (lib : Scrape.library)
      (lastmod_map : gmap string (option string)) (now : string)
      (s : Scrape.state) (page : Fetch.result) (s' : Scrape.state) :
  kept_by_statements I -> I s.1 ->
  Scrape.web_step with_nodes source lib lastmod_map now s page = inr s' ->
  I s'.1.
Proof.
  intros HI Hs. unfold Scrape.web_step.
  destruct (Scrape.has_error (Fetch.error page)); [by intros [= <-]|].
  destruct (Fetch.html page) as [html|]; [|done].
  destruct (negb _); [by intros [= <-]|]. intros [= <-].
  unfold Scrape.catch.
  apply (preserves_bind (fun s => I s.1)); [|intros pid|done].
  - by apply preserves_write_page.
  - destruct with_nodes; [by apply preserves_write_node|apply preserves_ret].
Qed.

Lemma github_step_keeps (I : Db.conn -> Prop) (now : string)
      (s : Scrape.state) (result : Scrape.github_result)
      (s' : Scrape.state) :
  kept_by_statements I -> I s.1 ->
  Scrape.github_step now s result = inr s' -> I s'.1.
Proof.
  intros HI Hs. unfold Scrape.github_step.
  destruct (Scrape.has_error (Scrape.g_error result)); [by intros [= <-]|].
  destruct (Scrape.g_content result) as [md|]; [|done]. intros [= <-].
  unfold Scrape.catch.
  apply (preserves_bind (fun s => I s.1)); [|intros pid|done].
  - by apply preserves_write_page.
  - by apply preserves_write_node.
Qed.

(** A property that the four statements keep holds after a run of any of
    the three scrapers if it held before. *)
Lemma scraped_keeps (I : Db.conn -> Prop) (db : Db.conn) (s : Scrape.state) :
  kept_by_statements I -> I db -> scraped db s -> I s.1.
Proof.
  intros HI Hdb [(lib & net & clock & entries & Hrun)
                |[(lib & norm & net & clock & entries & Hrun)
                 |(clock & results & Hrun)]].
  - revert Hrun. unfold Scrape.scrape_framework.
    apply (run_loop_invariant (fun s => I s.1)); [|done].
    intros now s0 x s1 Hs0. by apply web_step_keeps.
  - revert Hrun. unfold Scrape.scrape_nodes.
    apply (run_loop_invariant (fun s => I s.1)); [|done].
    intros now s0 x s1 Hs0. by apply web_step_keeps.
  - revert Hrun. unfold Scrape.scrape_github.
    apply (run_loop_invariant (fun s => I s.1)); [|done].
    intros now s0 x s1 Hs0. by apply github_step_keeps.
Qed.


(** *** Row ids *)

Lemma ascending_filter {A} (f : A -> Z) (P : A -> Prop)
      `{!forall x, Decision (P x)} (l : list A) (seq : Z) :
  ascending (f <$> l) seq -> ascending (f <$> filter P l) seq.
Proof.
  unfold ascending. induction l as [|a l IH]; [done|].
  rewrite fmap_cons, StronglySorted_cons, Forall_cons.
  intros [[Hlt Hs] [Ha Hle]]. destruct (IH (conj Hs Hle)) as [IHs IHle].
  rewrite filter_cons. destruct (decide (P a)); [|done].
  rewrite fmap_cons, StronglySorted_cons, Forall_cons.
  split_and!; [|done..].
  apply Forall_forall. intros i (x & -> & [_ Hx]%list_elem_of_filter)
                                 %list_elem_of_fmap.
  rewrite Forall_forall in Hlt. apply Hlt. by apply list_elem_of_fmap_2.
Qed.

Lemma ascending_insert (ids : list Z) (seq : Z) :
  ascending ids seq ->
  ascending (ids ++ [Db.next_id ids seq]) (Db.next_id ids seq).
Proof.
  unfold ascending. intros [Hs Hle]. split.
  - apply StronglySorted_app_2; [|done|repeat constructor].
    intros i j Hi ->%list_elem_of_singleton. by apply next_id_fresh.
  - apply Forall_app. split; [|by repeat constructor].
    apply Forall_forall. intros i Hi%(next_id_fresh _ seq). lia.
Qed.

Lemma ascending_seq (ids : list Z) (seq seq' : Z) :
  seq <= seq' -> ascending ids seq -> ascending ids seq'.
Proof.
  unfold ascending. intros Hle [Hs Hall]. split; [done|].
  eapply Forall_impl; [exact Hall|]. intros i Hi. cbn in *. lia.
Qed.

Lemma rows_in_order_kept : kept_by_statements rows_in_order.
Proof.
  unfold kept_by_statements, rows_in_order. split_and!.
  - intros now v c (Hp & Hs & He & Hn).
    unfold Db.insert_or_replace_page.
    cbn [fst Db.pages Db.sections Db.code_examples Db.nodes Db.seq_pages
           Db.seq_sections Db.seq_code_examples Db.seq_nodes
           Db.replace_delete].
    split_and!.
    + rewrite fmap_app. cbn [fmap list_fmap].
      pose proof (ascending_insert _ _ Hp) as [Hs' Hle'].
      unfold ascending. rewrite StronglySorted_app, Forall_app.
      apply StronglySorted_app in Hs' as (Hlt & _ & Hone).
      apply Forall_app in Hle' as [Hle' Hlast].
      split_and!; [|by eapply proj1, ascending_filter|done| |done].
      * intros i j (x & -> & [_ Hx]%list_elem_of_filter)%list_elem_of_fmap.
        apply Hlt. by apply list_elem_of_fmap_2.
      * apply Forall_forall.
        intros i (x & -> & [_ Hx]%list_elem_of_filter)%list_elem_of_fmap.
        rewrite Forall_forall in Hle'. apply Hle'.
        by apply list_elem_of_fmap_2.
    + destruct (Db.foreign_keys c); [by apply ascending_filter|done].
    + destruct (Db.foreign_keys c); [|done].
      rewrite <- list_fmap_compose.
      erewrite list_fmap_ext; [by apply ascending_filter|done].
    + destruct (Db.foreign_keys c); [|done].
      rewrite <- list_fmap_compose. by erewrite list_fmap_ext.
  - intros pid s c c' (Hp & Hs & He & Hn). unfold Db.insert_section.
    destruct (_ && _); [done|]. intros [= <-].
    cbn [Db.pages Db.sections Db.code_examples Db.nodes Db.seq_pages
           Db.seq_sections Db.seq_code_examples Db.seq_nodes].
    split_and!; [done| |done..].
    rewrite fmap_app. by apply ascending_insert.
  - intros pid sid e c c' (Hp & Hs & He & Hn). unfold Db.insert_code_example.
    destruct (_ && _); [done|]. intros [= <-].
    cbn [Db.pages Db.sections Db.code_examples Db.nodes Db.seq_pages
           Db.seq_sections Db.seq_code_examples Db.seq_nodes].
    split_and!; [done..| |done].
    rewrite fmap_app. by apply ascending_insert.
  - intros name dn cat desc pid c c' (Hp & Hs & He & Hn).
    unfold Db.insert_node.
    destruct (_ && _); [done|]. intros [= <-].
    cbn [Db.pages Db.sections Db.code_examples Db.nodes Db.seq_pages
           Db.seq_sections Db.seq_code_examples Db.seq_nodes].
    split_and!; [done..|].
    rewrite fmap_app. by apply ascending_insert.
Qed.

Lemma ascending_NoDup (ids : list Z) (seq : Z) : ascending ids seq -> NoDup ids.
Proof.
  intros [Hs _]. induction Hs as [|i ids Hs IH Hlt]; constructor; [|done].
  intros Hin. rewrite Forall_forall in Hlt. specialize (Hlt i Hin). lia.
Qed.

(** X1. A run of a scraper on a database whose tables hold their rows in
    ascending order of distinct ids, none above the AUTOINCREMENT
    counter, leaves such a database: ids are never reused and stay
    primary keys. *)
Theorem scrape_keeps_rowids (db : Db.conn) (s : Scrape.state) :
  rows_in_order db -> scraped db s ->
  rows_in_order s.1 /\ keys_unique s.1.
Proof.
  intros Hdb Hrun.
  assert (rows_in_order s.1) as Hs
    by (apply (scraped_keeps rows_in_order db); [apply rows_in_order_kept|done..]).
  split; [done|]. destruct Hs as (Hp & Hs & He & _).
  split_and!; by eapply ascending_NoDup.
Qed.

Lemma scrape_keeps_rowids_witness :
  rows_in_order github_once.1 /\ keys_unique github_once.1.
Proof.
  apply (scrape_keeps_rowids Db.empty).
  - repeat split; constructor.
  - right; right.
    exists (fun _ => "2024-05-01 10:00:00"), [node_file; faq_file].
    reflexivity.
Defined.

(** *** URLs *)

Lemma NoDup_fmap_filter {A B} (f : A -> B) (P : A -> Prop)
      `{!forall x, Decision (P x)} (l : list A) :
  NoDup (f <$> l) -> NoDup (f <$> filter P l).
Proof.
  intros Hl. eapply sublist_NoDup; [exact Hl|].
  apply fmap_sublist, sublist_filter.
Qed.

Lemma urls_unique_kept : kept_by_statements urls_unique.
Proof.
  unfold kept_by_statements, urls_unique. split_and!.
  - intros now v c Hc. unfold Db.insert_or_replace_page.
    cbn [fst Db.pages Db.replace_delete]. rewrite fmap_app.
    apply NoDup_app. split_and!.
    + by apply NoDup_fmap_filter.
    + intros u (p & -> & [Hgone Hp]%list_elem_of_filter)%list_elem_of_fmap
             Hnew%list_elem_of_singleton.
      cbn in Hnew. apply bool_decide_eq_false in Hgone. apply Hgone.
      apply list_elem_of_fmap_2. by apply list_elem_of_filter.
    + apply NoDup_singleton.
  - intros pid s c c' Hc. unfold Db.insert_section.
    destruct (_ && _); [done|]. by intros [= <-].
  - intros pid sid e c c' Hc. unfold Db.insert_code_example.
    destruct (_ && _); [done|]. by intros [= <-].
  - intros name dn cat desc pid c c' Hc. unfold Db.insert_node.
    destruct (_ && _); [done|]. by intros [= <-].
Qed.

(** X2. A run of a scraper never leaves two page rows with one URL,
    however often a URL is scraped. *)
Theorem scrape_keeps_urls_unique (db : Db.conn) (s : Scrape.state) :
  urls_unique db -> scraped db s -> urls_unique s.1.
Proof. apply scraped_keeps, urls_unique_kept. Qed.

Lemma scrape_keeps_urls_unique_witness : urls_unique github_once.1.
Proof.
  apply (scrape_keeps_urls_unique Db.empty).
  - constructor.
  - right; right.
    exists (fun _ => "2024-05-01 10:00:00"), [node_file; faq_file].
    reflexivity.
Defined.

(** *** References *)

Lemma has_page_alive (c : Db.conn) (old_ids : list Z) (pid : Z) :
  Db.has_page c pid = true -> pid ∉ old_ids ->
  pid ∈ Db.page_id
        <$> filter (fun p => bool_decide (Db.page_id p ∈ old_ids) = false)
                   (Db.pages c).
Proof.
  unfold Db.has_page. intros (p & -> & Hp)%bool_decide_eq_true
                                             %list_elem_of_fmap Hno.
  apply list_elem_of_fmap_2, list_elem_of_filter.
  split; [by apply bool_decide_eq_false|done].
Qed.

Lemma references_resolve_kept : kept_by_statements references_resolve.
Proof.
  unfold kept_by_statements, references_resolve. split_and!.
  - intros now v c (Hfk & Hs & He & Hn).
    unfold Db.insert_or_replace_page, Db.has_page, Db.has_section.
    cbn [fst Db.foreign_keys Db.pages Db.sections Db.code_examples
           Db.nodes Db.replace_delete].
    rewrite Hfk.
    set (old_ids := Db.page_id
                      <$> filter (fun p => Db.page_url p = Db.v_url v)
                                 (Db.pages c)).
    set (row := Db.Build_page_row _ _ _ _ _ _ _ _ _).
    assert (Hpage : forall pid,
      Db.has_page c pid = true -> pid ∉ old_ids ->
      bool_decide
        (pid ∈ Db.page_id
               <$> filter (fun p => bool_decide (Db.page_id p ∈ old_ids)
                                    = false) (Db.pages c) ++ [row]) = true).
    { intros pid Hpid Hno. apply bool_decide_eq_true.
      rewrite fmap_app, elem_of_app. left. by apply has_page_alive. }
    split_and!; [done|..].
    + intros s [Hgone Hin]%list_elem_of_filter.
      apply Hpage; [by apply Hs|]. by apply bool_decide_eq_false in Hgone.
    + intros e (e0 & -> & [Hgone Hin]%list_elem_of_filter)%list_elem_of_fmap.
      cbn [Db.ex_page_id Db.ex_section_id].
      destruct (He e0 Hin) as [Hp0 Hsid0]. split.
      * apply Hpage; [done|]. by apply bool_decide_eq_false in Hgone.
      * intros sid Hsid. destruct (Db.ex_section_id e0) as [sid0|]; [|done].
        case_bool_decide as Hdead; [done|]. injection Hsid as <-.
        specialize (Hsid0 sid0 eq_refl).
        apply bool_decide_eq_true in Hsid0.
        apply list_elem_of_fmap in Hsid0 as (r & -> & Hr).
        apply bool_decide_eq_true, list_elem_of_fmap_2, list_elem_of_filter.
        split; [|done]. apply not_true_iff_false. intros Hrgone.
        destruct Hdead. apply list_elem_of_fmap_2.
        by apply list_elem_of_filter.
    + intros n pid (n0 & -> & Hin)%list_elem_of_fmap. cbn [Db.node_page_id].
      destruct (Db.node_page_id n0) as [pid0|] eqn:Hpid0; [|done].
      case_bool_decide as Hgone; [done|]. intros [= <-].
      apply Hpage; [by eapply Hn|done].
  - intros pid s c c' (Hfk & Hs & He & Hn). unfold Db.insert_section.
    rewrite Hfk. cbn [andb]. destruct (Db.has_page c pid) eqn:Hpid; [|done].
    cbn [negb]. intros [= <-].
    unfold Db.has_page, Db.has_section in *.
    cbn [Db.foreign_keys Db.pages Db.sections Db.code_examples Db.nodes].
    split_and!; [done| |
                 |done].
    + intros r [Hr|Hr%list_elem_of_singleton]%elem_of_app; [by apply Hs|].
      by subst r.
    + intros e Hin. destruct (He e Hin) as [Hp0 Hsid0]. split; [done|].
      intros sid Hsid. specialize (Hsid0 sid Hsid).
      apply bool_decide_eq_true. apply bool_decide_eq_true in Hsid0.
      rewrite fmap_app, elem_of_app. by left.
  - intros pid sid e c c' (Hfk & Hs & He & Hn). unfold Db.insert_code_example.
    rewrite Hfk. cbn [andb].
    destruct (Db.has_page c pid) eqn:Hpid; [|done]. cbn [andb].
    destruct (match sid with Some i => Db.has_section c i | None => true end)
      eqn:Hsid; [|done].
    cbn [negb]. intros [= <-].
    unfold Db.has_page, Db.has_section in *.
    cbn [Db.foreign_keys Db.pages Db.sections Db.code_examples Db.nodes].
    split_and!; [done..| |done].
    intros r [Hr|Hr%list_elem_of_singleton]%elem_of_app; [by apply He|].
    subst r. cbn [Db.ex_page_id Db.ex_section_id]. split; [done|].
    by intros i ->.
  - intros name dn cat desc pid c c' (Hfk & Hs & He & Hn).
    unfold Db.insert_node. rewrite Hfk. cbn [andb].
    destruct (Db.has_page c pid) eqn:Hpid; [|done].
    cbn [negb]. intros [= <-].
    unfold Db.has_page, Db.has_section in *.
    cbn [Db.foreign_keys Db.pages Db.sections Db.code_examples Db.nodes].
    split_and!; [done..|].
    intros n p [Hin|Hin%list_elem_of_singleton]%elem_of_app; [by apply Hn|].
    subst n. cbn. by intros [= <-].
Qed.

(** X3. Over a connection with foreign keys on, a run of a scraper keeps
    every reference resolved: each section, code example and node with a
    page link points at a page row that is there, and each section link
    of a code example at a section row that is there. *)
Theorem scrape_keeps_references (db : Db.conn) (s : Scrape.state) :
  references_resolve db -> scraped db s -> references_resolve s.1.
Proof. apply scraped_keeps, references_resolve_kept. Qed.

Lemma scrape_keeps_references_witness : references_resolve github_once.1.
Proof.
  apply (scrape_keeps_references Db.empty).
  - split_and!; [done|intros ? []%elem_of_nil..|intros ?? []%elem_of_nil].
  - right; right.
    exists (fun _ => "2024-05-01 10:00:00"), [node_file; faq_file].
    reflexivity.
Defined.

(** *** The full-text indexes *)

Lemma sections_synced_kept : kept_by_statements sections_synced.
Proof.
  unfold kept_by_statements. split_and!.
  - intros now v c. apply insert_or_replace_page_sections_synced.
  - intros pid s c c'. apply insert_section_synced.
  - intros pid sid e c c' Hc. unfold Db.insert_code_example.
    destruct (_ && _); [done|]. by intros [= <-].
  - intros name dn cat desc pid c c' Hc. unfold Db.insert_node.
    destruct (_ && _); [done|]. by intros [= <-].
Qed.

(** X4. The index of the sections stays in step with the table over a
    whole run of a scraper: it holds the heading and the body of each
    section row once, and nothing of a section that a re-scrape
    removed. *)
Theorem scrape_keeps_sections_synced (db : Db.conn) (s : Scrape.state) :
  sections_synced db -> scraped db s -> sections_synced s.1.
Proof. apply scraped_keeps, sections_synced_kept. Qed.

Lemma scrape_keeps_sections_synced_witness : sections_synced github_once.1.
Proof.
  apply (scrape_keeps_sections_synced Db.empty).
  - unfold sections_synced. cbn. constructor.
  - right; right.
    exists (fun _ => "2024-05-01 10:00:00"), [node_file; faq_file].
    reflexivity.
Defined.

Lemma pages_indexed_kept : kept_by_statements pages_indexed.
Proof.
  unfold kept_by_statements, pages_indexed. split_and!.
  - intros now v c [Hrec Hc]. unfold Db.insert_or_replace_page.
    cbn [fst Db.pages Db.pages_fts Db.recursive_triggers Db.replace_delete].
    rewrite Hrec. split; [done|]. unfold Db.pages_ai, Db.fts_insert.
    intros p [[_ Hp]%list_elem_of_filter|Hp%list_elem_of_singleton]
             %elem_of_app; rewrite elem_of_app.
    + left. by apply Hc.
    + right. subst p. by apply list_elem_of_singleton.
  - intros pid s c c' Hc. unfold Db.insert_section.
    destruct (_ && _); [done|]. by intros [= <-].
  - intros pid sid e c c' Hc. unfold Db.insert_code_example.
    destruct (_ && _); [done|]. by intros [= <-].
  - intros name dn cat desc pid c c' Hc. unfold Db.insert_node.
    destruct (_ && _); [done|]. by intros [= <-].
Qed.

(** X5. Over a connection that leaves [recursive_triggers] off, a run of
    a scraper keeps every page row in the index of the pages with the
    title and the body the row has: what a re-scrape leaves behind in
    the index is more entries, never a page that is missing. *)
Theorem scrape_keeps_pages_indexed (db : Db.conn) (s : Scrape.state) :
  pages_indexed db -> scraped db s -> pages_indexed s.1.
Proof. apply scraped_keeps, pages_indexed_kept. Qed.

Lemma scrape_keeps_pages_indexed_witness : pages_indexed github_once.1.
Proof.
  apply (scrape_keeps_pages_indexed Db.empty).
  - split; [done|]. by intros p ?%elem_of_nil.
  - right; right.
    exists (fun _ => "2024-05-01 10:00:00"), [node_file; faq_file].
    reflexivity.
Defined.

(** ** What every run keeps of the connection and the counters *)

Lemma preserves_counted (J : Scrape.state -> Prop)
      (stmt : Db.conn -> Db.sql_result Db.conn)
      (f : Scrape.stats -> Scrape.stats) :
  (forall c c' st, J (c, st) -> stmt c = Db.Ok c' -> J (c', f st)) ->
  preserves J (Scrape.execute stmt;; Scrape.count f).
Proof.
  intros H [c st] Hs.
  unfold mbind, Scrape.try_bind, Scrape.execute, Scrape.count.
  cbn [fst snd]. destruct (stmt c) as [c'|msg] eqn:Hstmt; [|done].
  cbn [fst snd]. by apply (H c).
Qed.

Lemma write_children_counted (J : Scrape.state -> Prop) (pid : Z)
      (secs : list section) (exs : list code_example) :
  kept_by_steps J -> preserves J (Scrape.write_children pid secs exs).
Proof.
  intros (_ & Hsec & Hex & _). unfold Scrape.write_children.
  apply preserves_bind; [|intros _]; apply preserves_for_each.
  - intros sec. apply preserves_counted. intros c c' st. apply Hsec.
  - intros ex. apply preserves_bind.
    + destruct (Py.truthy (context ex));
        [apply preserves_query|apply preserves_ret].
    + intros sid. apply preserves_counted. intros c c' st. apply Hex.
Qed.

Lemma write_node_counted (J : Scrape.state -> Prop)
      (info : option Scrape.node_info) (content_text : string) (pid : Z) :
  kept_by_steps J -> preserves J (Scrape.write_node info content_text pid).
Proof.
  intros (_ & _ & _ & Hnode & _).
  destruct info as [i|]; cbn [Scrape.write_node]; [|apply preserves_ret].
  apply preserves_counted. intros c c' st. apply Hnode.
Qed.

Lemma page_block_counted (J : Scrape.state -> Prop) (now : string)
      (v : Db.page_values) (secs : list section) (exs : list code_example)
      (after : Z -> Scrape.try_block unit) (s : Scrape.state) :
  kept_by_steps J -> (forall pid, preserves J (after pid)) -> J s ->
  J (Scrape.catch (Scrape.write_page now v secs exs ≫= after) s).
Proof.
  intros HJ Hafter Hs. rewrite page_block_unfold.
  apply (preserves_bind J); [by apply write_children_counted|by intros _|].
  destruct s as [c st]. by apply HJ.
Qed.

Lemma web_step_counted (J : Scrape.state -> Prop) (with_nodes : bool)
      (source : string) (lib : Scrape.library)
      (lastmod_map : gmap string (option string)) (now : string)
      (s : Scrape.state) (page : Fetch.result) (s' : Scrape.state) :
  kept_by_steps J -> J s ->
  Scrape.web_step with_nodes source lib lastmod_map now s page = inr s' ->
  J s'.
Proof.
  intros HJ Hs. unfold Scrape.web_step.
  destruct (Scrape.has_error (Fetch.error page)).
  { intros [= <-]. destruct s as [c st]. by apply HJ. }
  destruct (Fetch.html page) as [html|]; [|done].
  destruct (negb _); [by intros [= <-]|]. intros [= <-].
  apply page_block_counted; [done| |done]. intros pid.
  destruct with_nodes; [by apply write_node_counted|apply preserves_ret].
Qed.

Lemma github_step_counted (J : Scrape.state -> Prop) (now : string)
      (s : Scrape.state) (result : Scrape.github_result)
      (s' : Scrape.state) :
  kept_by_steps J -> J s ->
  Scrape.github_step now s result = inr s' -> J s'.
Proof.
  intros HJ Hs. unfold Scrape.github_step.
  destruct (Scrape.has_error (Scrape.g_error result)).
  { intros [= <-]. destruct s as [c st]. by apply HJ. }
  destruct (Scrape.g_content result) as [md|]; [|done]. intros [= <-].
  apply page_block_counted; [done| |done]. intros pid.
  by apply write_node_counted.
Qed.

(** A property that the counted statements keep holds at the end of a
    run of any of the three scrapers if it holds of the database the run
    opens and of counters at zero. *)
Lemma scraped_counted (J : Scrape.state -> Prop) (db : Db.conn)
      (s : Scrape.state) :
  kept_by_steps J -> J (db, Scrape.zero) -> scraped db s -> J s.
Proof.
  intros HJ Hdb [(lib & net & clock & entries & Hrun)
                |[(lib & norm & net & clock & entries & Hrun)
                 |(clock & results & Hrun)]].
  - revert Hrun. unfold Scrape.scrape_framework.
    apply (run_loop_invariant J); [|done].
    intros now s0 x s1 Hs0. by apply web_step_counted.
  - revert Hrun. unfold Scrape.scrape_nodes.
    apply (run_loop_invariant J); [|done].
    intros now s0 x s1 Hs0. by apply web_step_counted.
  - revert Hrun. unfold Scrape.scrape_github.
    apply (run_loop_invariant J); [|done].
    intros now s0 x s1 Hs0. by apply github_step_counted.
Qed.

(** *** Nodes *)

Lemma nodes_added_kept (c0 : Db.conn) : kept_by_steps (nodes_added c0).
Proof.
  unfold kept_by_steps, nodes_added. split_and!.
  - intros now v c st (added & Hkeys & Hlen). exists added. split; [|done].
    rewrite <- Hkeys. unfold Db.insert_or_replace_page.
    cbn [fst Db.nodes Db.replace_delete].
    destruct (Db.foreign_keys c); [|done].
    rewrite <- list_fmap_compose. by apply list_fmap_ext.
  - intros pid s c c' st (added & Hkeys & Hlen). unfold Db.insert_section.
    destruct (_ && _); [done|]. intros [= <-]. by exists added.
  - intros pid sid e c c' st (added & Hkeys & Hlen).
    unfold Db.insert_code_example.
    destruct (_ && _); [done|]. intros [= <-]. by exists added.
  - intros name dn cat desc pid c c' st (added & Hkeys & Hlen).
    unfold Db.insert_node.
    destruct (_ && _); [done|]. intros [= <-].
    set (row := Db.Build_node_row _ _ _ _ _ _).
    exists (added ++ [node_key row]). cbn [fst snd Db.nodes Scrape.count_node
                                            Scrape.n_nodes] in *.
    rewrite fmap_app, Hkeys, length_app, <- (assoc_L (++)). split; [done|].
    cbn [length]. lia.
  - intros c st (added & Hkeys & Hlen). by exists added.
Qed.

(** X6. A run of a scraper removes no node row, changes none but for
    its page link, and moves none; what it adds comes after them, and is
    as many rows as its counter of nodes says. A node page that is
    scraped again so gets one more row for its node each time. *)
Theorem scrape_keeps_nodes (db : Db.conn) (s : Scrape.state) :
  scraped db s -> nodes_added db s.
Proof.
  apply scraped_counted; [apply nodes_added_kept|].
  exists []. by rewrite app_nil_r.
Qed.

Lemma scrape_keeps_nodes_witness : nodes_added github_once.1 github_twice.
Proof.
  apply (scrape_keeps_nodes github_once.1).
  right; right. exists (fun _ => "2024-05-02 10:00:00"), [node_file].
  vm_compute. reflexivity.
Defined.

(** ** The counters of a run *)

(** A property of what the loop has gone through so far and the state
    it has reached. *)
Lemma run_loop_fold {A} (R : list A -> Scrape.state -> Prop)
      (step : string -> Scrape.state -> A -> Scrape.crash + Scrape.state)
      (clock : nat -> string) (items : list A) (s0 s' : Scrape.state) :
  (forall seen x s s1,
      R seen s -> step (clock (length seen)) s x = inr s1 ->
      R (seen ++ [x]) s1) ->
  R [] s0 -> Scrape.run_loop step clock 0 items s0 = inr s' -> R items s'.
Proof.
  intros Hstep.
  enough (forall seen s,
             R seen s ->
             Scrape.run_loop step clock (length seen) items s = inr s' ->
             R (seen ++ items) s') as Hgen by apply (Hgen []).
  induction items as [|x items IH]; intros seen s Hs Hrun.
  - cbn in Hrun. injection Hrun as <-. by rewrite app_nil_r.
  - cbn [Scrape.run_loop] in Hrun.
    destruct (step (clock (length seen)) s x) as [e|s1] eqn:Hx; [done|].
    rewrite cons_middle, (assoc_L (++)). apply (IH (seen ++ [x]) s1).
    + by apply (Hstep seen x s).
    + by rewrite length_app, Nat.add_1_r.
Qed.

Lemma page_block_counts (now : string) (v : Db.page_values)
      (secs : list section) (exs : list code_example)
      (info : Z -> option Scrape.node_info) (content_text : string)
      (s : Scrape.state) :
  let s' :=
    Scrape.catch
      (Scrape.write_page now v secs exs
         ≫= fun pid => Scrape.write_node (info pid) content_text pid) s in
  Scrape.n_pages s'.2 = Scrape.n_pages s.2 + 1
  /\ Scrape.n_errors s'.2 = Scrape.n_errors s.2.
Proof.
  apply (page_block_frame
           (fun _ np ne => np = Scrape.n_pages s.2 + 1
                           /\ ne = Scrape.n_errors s.2)); [|done].
  intros pid.
  apply (write_node_frame
           (fun _ np ne => np = Scrape.n_pages s.2 + 1
                           /\ ne = Scrape.n_errors s.2)).
Qed.

Lemma github_step_counts (now : string) (s : Scrape.state)
      (r : Scrape.github_result) (s' : Scrape.state) :
  Scrape.github_step now s r = inr s' ->
  if Scrape.has_error (Scrape.g_error r)
  then Scrape.n_errors s'.2 = Scrape.n_errors s.2 + 1
       /\ Scrape.n_pages s'.2 = Scrape.n_pages s.2
  else Scrape.n_errors s'.2 = Scrape.n_errors s.2
       /\ Scrape.n_pages s'.2 = Scrape.n_pages s.2 + 1.
Proof.
  unfold Scrape.github_step.
  destruct (Scrape.has_error (Scrape.g_error r)); [by intros [= <-]|].
  destruct (Scrape.g_content r) as [md|]; [|done]. intros [= <-].
  set (title := if negb _ then _ else _).
  pose proof (page_block_counts now
                {| Db.v_url := Scrape.path_to_docs_url (Scrape.g_path r);
                   Db.v_source := Scrape.NODES_SOURCE;
                   Db.v_title := title;
                   Db.v_content :=
                     Markdown.p_content_text (Markdown.parse_markdown md);
                   Db.v_content_html := "";
                   Db.v_breadcrumbs := "[]";
                   Db.v_last_modified := None |}
                (Markdown.p_sections (Markdown.parse_markdown md))
                (Markdown.p_code_examples (Markdown.parse_markdown md))
                (fun _ => Scrape.extract_node_info_github (Scrape.g_path r)
                            title)
                (Markdown.p_content_text (Markdown.parse_markdown md)) s)
    as [Hp He].
  by split.
Qed.

(** X7. The GitHub scraper counts an error for each file whose fetch
    gave an error message and a page for each other file, whatever the
    file holds and whether or not an insert below the page row fails: the
    two counters add up to the number of files. *)
Theorem github_counts_every_file (clock : nat -> string)
        (results : list Scrape.github_result) (db : Db.conn)
        (s : Scrape.state) :
  Scrape.scrape_github clock results db = inr s ->
  Scrape.n_errors s.2 = Z.of_nat (length (failed_files results))
  /\ Scrape.n_pages s.2 = Z.of_nat (length (fetched_files results))
  /\ Scrape.n_pages s.2 + Scrape.n_errors s.2 = Z.of_nat (length results).
Proof.
  unfold Scrape.scrape_github.
  apply (run_loop_fold
           (fun seen s =>
              Scrape.n_errors s.2 = Z.of_nat (length (failed_files seen))
              /\ Scrape.n_pages s.2 = Z.of_nat (length (fetched_files seen))
              /\ Scrape.n_pages s.2 + Scrape.n_errors s.2
                 = Z.of_nat (length seen))); [|done].
  intros seen r s0 s1 (He & Hp & Hsum) Hstep%github_step_counts.
  unfold failed_files, fetched_files in *.
  rewrite !filter_app, !length_app, !filter_cons, !filter_nil.
  destruct (Scrape.has_error (Scrape.g_error r)) eqn:Herr;
    destruct Hstep as [He1 Hp1];
    repeat case_decide; try done; cbn [length]; lia.
Qed.

Lemma github_counts_every_file_witness :
  Scrape.n_errors github_once.2 = Z.of_nat (length (failed_files [node_file; faq_file]))
  /\ Scrape.n_pages github_once.2
     = Z.of_nat (length (fetched_files [node_file; faq_file]))
  /\ Scrape.n_pages github_once.2 + Scrape.n_errors github_once.2
     = Z.of_nat (length [node_file; faq_file]).
Proof.
  apply (github_counts_every_file (fun _ => "2024-05-01 10:00:00") _ Db.empty).
  vm_compute. reflexivity.
Defined.

Lemma web_step_counts (with_nodes : bool) (source : string)
      (lib : Scrape.library) (lastmod_map : gmap string (option string))
      (now : string) (s : Scrape.state) (page : Fetch.result)
      (s' : Scrape.state) :
  Scrape.web_step with_nodes source lib lastmod_map now s page = inr s' ->
  Scrape.n_errors s'.2
  = Scrape.n_errors s.2
    + (if Scrape.has_error (Fetch.error page) then 1 else 0)
  /\ Scrape.n_pages s'.2
     = Scrape.n_pages s.2 + (if titled lib page then 1 else 0).
Proof.
  unfold Scrape.web_step, titled.
  destruct (Scrape.has_error (Fetch.error page)).
  { intros [= <-]. cbn. lia. }
  destruct (Fetch.html page) as [html|]; [|done].
  set (data := Html.extract_mkdocs_content _ _ html).
  destruct (Py.truthy (Html.e_title data)); cbn [negb andb].
  2:{ intros [= <-]. lia. }
  intros [= <-].
  destruct with_nodes.
  - pose proof (page_block_counts now
                  (Scrape.page_values_of source lib lastmod_map
                     (Fetch.url page) data)
                  (Html.e_sections data) (Html.e_code_examples data)
                  (fun _ => Scrape.extract_node_info (Fetch.url page)
                              (Html.e_title data))
                  (Html.e_content_text data) s) as [Hp He].
    cbn zeta in Hp, He. rewrite He, Hp. lia.
  - pose proof (page_block_counts now
                  (Scrape.page_values_of source lib lastmod_map
                     (Fetch.url page) data)
                  (Html.e_sections data) (Html.e_code_examples data)
                  (fun _ => None) (Html.e_content_text data) s) as [Hp He].
    cbn zeta in Hp, He. cbn [Scrape.write_node] in Hp, He.
    rewrite He, Hp. lia.
Qed.

Lemma web_loop_counts (with_nodes : bool) (source : string)
      (lib : Scrape.library) (lastmod_map : gmap string (option string))
      (clock : nat -> string) (pages : list Fetch.result) (db : Db.conn)
      (s : Scrape.state) :
  Scrape.run_loop (Scrape.web_step with_nodes source lib lastmod_map)
    clock 0 pages (db, Scrape.zero) = inr s ->
  counts_pages lib pages s
  /\ Scrape.n_pages s.2 + Scrape.n_errors s.2 <= Z.of_nat (length pages).
Proof.
  apply (run_loop_fold
           (fun seen s =>
              counts_pages lib seen s
              /\ Scrape.n_pages s.2 + Scrape.n_errors s.2
                 <= Z.of_nat (length seen))); [|done].
  intros seen r s0 s1 [[He Hp] Hsum] [He1 Hp1]%web_step_counts.
  unfold counts_pages, failed_pages, titled_pages in *.
  rewrite !filter_app, !length_app, !filter_cons, !filter_nil.
  unfold titled in *.
  destruct (Scrape.has_error (Fetch.error r)) eqn:Herr; cbn [negb andb] in *;
    [|destruct (match Fetch.html r with Some _ => _ | None => _ end)];
    repeat case_decide; try done; cbn [length]; lia.
Qed.

Lemma dedup_first_length (seen l : list string) :
  (length (Scrape.dedup_first seen l) <= length l)%nat.
Proof.
  revert seen. induction l as [|u l IH]; intros seen; [done|].
  cbn [Scrape.dedup_first]. case_bool_decide; cbn [length].
  - specialize (IH seen). lia.
  - specialize (IH (u :: seen)). lia.
Qed.

(** X8. The framework scraper and the node-docs scraper count an error
    for each URL whose fetch gave an error message and a page for each
    fetched page that has a title, and nothing else: pages and errors
    together are no more than the entries of the sitemap. *)
Theorem web_counts (lib : Scrape.library) (net : nat -> nat -> Fetch.outcome)
        (clock : nat -> string) (entries : list Scrape.entry)
        (db : Db.conn) (s : Scrape.state) :
  (Scrape.scrape_framework lib net clock entries db = inr s ->
   counts_pages lib
     (Fetch.fetch_pages net
        (filter (fun u => Scrape.should_skip Scrape.FRAMEWORK_SKIP_PATTERNS u
                          = false) (fst <$> entries))) s
   /\ Scrape.n_pages s.2 + Scrape.n_errors s.2 <= Z.of_nat (length entries))
  /\ (forall normalize_url,
         Scrape.scrape_nodes lib normalize_url net clock entries db = inr s ->
         counts_pages lib
           (Fetch.fetch_pages net
              (Scrape.dedup_first []
                 (normalize_url
                    <$> filter (fun u => Scrape.should_skip
                                           Scrape.NODES_SKIP_PATTERNS u
                                         = false) (fst <$> entries)))) s
         /\ Scrape.n_pages s.2 + Scrape.n_errors s.2
            <= Z.of_nat (length entries)).
Proof.
  split.
  - unfold Scrape.scrape_framework. intros [Hc Hsum]%web_loop_counts.
    split; [done|]. unfold Fetch.fetch_pages in Hsum.
    rewrite length_imap in Hsum.
    etrans; [exact Hsum|]. apply Nat2Z.inj_le.
    etrans; [apply length_filter|]. by rewrite length_fmap.
  - intros normalize_url. unfold Scrape.scrape_nodes.
    intros [Hc Hsum]%web_loop_counts.
    split; [done|]. unfold Fetch.fetch_pages in Hsum.
    rewrite length_imap in Hsum.
    etrans; [exact Hsum|]. apply Nat2Z.inj_le.
    etrans; [apply dedup_first_length|]. rewrite length_fmap.
    etrans; [apply length_filter|]. by rewrite length_fmap.
Qed.

Lemma web_counts_witness :
  counts_pages agents_library
    (Fetch.fetch_pages net_first_only
       (Scrape.dedup_first []
          (id <$> filter (fun u => Scrape.should_skip
                                     Scrape.NODES_SKIP_PATTERNS u = false)
                         (fst <$> two_entries)))) web_once
  /\ Scrape.n_pages web_once.2 + Scrape.n_errors web_once.2
     <= Z.of_nat (length two_entries).
Proof.
  apply (proj2 (web_counts agents_library net_first_only
                  (fun _ => "2024-05-01 10:00:00") two_entries Db.empty
                  web_once) id).
  vm_compute. reflexivity.
Defined.

(** ** The fetcher, further *)

Lemma attempts_hard_failure (net : nat -> Fetch.outcome) (u msg : string)
      (a rem : nat) :
  hard_failure (net a) msg ->
  Fetch.attempts net u a (S rem)
  = (Fetch.failed u msg, [Fetch.Get (Z.of_nat a)]).
Proof.
  intros [(r & Hr & Hno & Hfail & ->)|[(st & Hr & Hno)|Hr]];
    cbn [Fetch.attempts]; rewrite Hr.
  - apply Z.eqb_neq in Hno. by rewrite Hno, Hfail.
  - apply Z.eqb_neq in Hno. by rewrite Hno.
  - done.
Qed.

(** X9. A failure that is not a 429 ends a fetch task at once: after
    [k] < 5 responses 429 and their waits, a response with another
    failing status, or an exception, gives the error result with its
    message after that one request, with no further wait and no further
    request. *)
Theorem fetch_one_failure_not_retried (net : nat -> Fetch.outcome)
        (u msg : string) (k : nat) :
  (k < Fetch.MAX_RETRIES)%nat ->
  (forall j, (j < k)%nat -> is_429 (net j)) ->
  hard_failure (net k) msg ->
  Fetch.fetch_one net u
  = (Fetch.failed u msg, retries 0 k ++ [Fetch.Get (Z.of_nat k)]).
Proof.
  intros Hk H429 Hfail. unfold Fetch.fetch_one.
  replace Fetch.MAX_RETRIES with (k + S (Fetch.MAX_RETRIES - S k))%nat
    by (unfold Fetch.MAX_RETRIES in *; lia).
  rewrite attempts_retries by exact H429.
  by rewrite (attempts_hard_failure _ _ msg).
Qed.

Lemma fetch_one_failure_not_retried_witness :
  Fetch.fetch_one net_429_then_404 "https://docs.griptape.ai/a/"
  = (Fetch.failed "https://docs.griptape.ai/a/" "Client error '404 Not Found'",
     [Fetch.Get 0; Fetch.Sleep 10; Fetch.Get 1]).
Proof.
  apply (fetch_one_failure_not_retried net_429_then_404
           "https://docs.griptape.ai/a/" "Client error '404 Not Found'" 1).
  - unfold Fetch.MAX_RETRIES. lia.
  - intros j Hj. destruct j as [|j]; [|lia].
    eexists. split; reflexivity.
  - left. eexists. split_and!; [reflexivity|cbn; lia|reflexivity..].
Defined.

Lemma budget_nonneg (rem : nat) : forall a, 0 <= budget a rem.
Proof.
  induction rem as [|rem IH]; intros a; cbn [budget]; [done|].
  specialize (IH (S a)). lia.
Qed.

Lemma accept_sleeps (u : string) (r : Fetch.response) :
  total (Fetch.sleeps (Fetch.accept u r).2) <= 1.
Proof.
  unfold Fetch.accept.
  destruct (Fetch.content_length r) as [[m|q]|]; cbn;
    repeat (case_match; cbn); done.
Qed.

Lemma attempts_sleeps (net : nat -> Fetch.outcome) (u : string) (rem : nat) :
  forall a, total (Fetch.sleeps (Fetch.attempts net u a rem).2) <= budget a rem.
Proof.
  induction rem as [|rem IH]; intros a; [done|].
  specialize (IH (S a)). pose proof (budget_nonneg rem (S a)) as Hb.
  assert (Hretry :
    total (Fetch.sleeps
             (let '(res, evs) := Fetch.attempts net u (S a) rem in
              (res, Fetch.Get (Z.of_nat a)
                      :: Fetch.Sleep (10 * (Z.of_nat a + 1)) :: evs)).2)
    <= budget a (S rem)).
  { destruct (Fetch.attempts net u (S a) rem) as [res evs].
    cbn [snd budget] in *.
    change (Fetch.sleeps (Fetch.Get (Z.of_nat a)
                            :: Fetch.Sleep (10 * (Z.of_nat a + 1)) :: evs))
      with (10 * (Z.of_nat a + 1) :: Fetch.sleeps evs).
    cbn [total foldr]. fold (total (Fetch.sleeps evs)). lia. }
  assert (Hstop : forall re0 : Fetch.result * list Fetch.event,
    total (Fetch.sleeps re0.2) <= 1 ->
    total (Fetch.sleeps (re0.1, Fetch.Get (Z.of_nat a) :: re0.2).2)
    <= budget a (S rem)).
  { intros re0 H1. cbn [snd budget].
    change (Fetch.sleeps (Fetch.Get (Z.of_nat a) :: re0.2))
      with (Fetch.sleeps re0.2). lia. }
  cbn [Fetch.attempts].
  destruct (net a) as [r|[st msg|msg]].
  - destruct (Fetch.status_code r =? 429); [exact Hretry|].
    destruct (Fetch.is_success (Fetch.status_code r)).
    + apply Hstop, accept_sleeps.
    + cbn [andb]. by apply (Hstop (Fetch.failed u (Fetch.status_error r), [])).
  - destruct ((st =? 429) && bool_decide (a < Fetch.MAX_RETRIES - 1)%nat);
      [exact Hretry|].
    by apply (Hstop (Fetch.failed u msg, [])).
  - by apply (Hstop (Fetch.failed u msg, [])).
Qed.

(** X10. Whatever the network does, the waits of one fetch task add up
    to 150 seconds at most: 10, 20, 30, 40 and 50 after five 429
    responses, or fewer of these and the one-second delay after a
    success. *)
Theorem fetch_one_sleeps_bounded (net : nat -> Fetch.outcome) (u : string) :
  total (Fetch.sleeps (Fetch.fetch_one net u).2) <= 150.
Proof.
  unfold Fetch.fetch_one.
  etrans; [apply attempts_sleeps|]. by vm_compute.
Qed.

(** ** The category vocabularies *)

Lemma lookup_category_app (m1 m2 : list (string * string)) (slug : string) :
  Scrape.lookup_category (m1 ++ m2) slug
  = match Scrape.lookup_category m1 slug with
    | Some v => Some v
    | None => Scrape.lookup_category m2 slug
    end.
Proof.
  induction m1 as [|[k v] m1 IH]; [done|]. cbn [app Scrape.lookup_category].
  by case_bool_decide.
Qed.

(** X11. The two node scrapers name the category of every slug alike:
    the entry for "workflows" that only the GitHub scraper has gives
    what the fallback, the slug in title case, gives without it. *)
Theorem categories_agree (slug : string) :
  Scrape.category_of Scrape.CATEGORY_MAP_GITHUB slug
  = Scrape.category_of Scrape.CATEGORY_MAP slug.
Proof.
  unfold Scrape.category_of, Scrape.CATEGORY_MAP_GITHUB.
  rewrite lookup_category_app.
  destruct (Scrape.lookup_category Scrape.CATEGORY_MAP slug); [done|].
  cbn [Scrape.lookup_category]. case_bool_decide as Hslug; [|done].
  subst slug. by vm_compute.
Qed.

(** ** The markdown extractor, further *)

Lemma heading_match_level (line hashes text : string) :
  Markdown.heading_match line = Some (hashes, text) ->
  1 <= Z.of_nat (String.length hashes) <= 4.
Proof.
  unfold Markdown.heading_match.
  set (h := Py.take_while Markdown.is_hash line).
  destruct ((1 <=? String.length h)%nat && (String.length h <=? 4)%nat)
    eqn:Hlen; [|done].
  apply andb_true_iff in Hlen as [H1%Nat.leb_le H4%Nat.leb_le].
  intros Hm.
  assert (hashes = h) as ->; [|lia].
  repeat case_match; congruence.
Qed.

Lemma save_section_headings (st : Markdown.state) :
  heading <$> Markdown.save_section st = heading <$> Markdown.sections st.
Proof.
  pose proof (save_section_keys st) as Hk.
  apply (f_equal (fmap snd)) in Hk.
  by rewrite <- !list_fmap_compose in Hk.
Qed.

Lemma save_section_well_formed (st : Markdown.state) :
  Forall section_well_formed (Markdown.sections st) ->
  Forall section_well_formed (Markdown.save_section st).
Proof.
  unfold Markdown.save_section. intros Hall.
  destruct (Markdown.current_section st) as [i|]; [|done].
  destruct (Markdown.text_parts st) as [|t ts]; [done|].
  apply Forall_lookup. intros j s.
  destruct (decide (i = j)) as [->|Hne].
  - rewrite list_lookup_alter_eq.
    destruct (Markdown.sections st !! j) as [s0|] eqn:Hj; [|done].
    intros [= <-]. by apply (Forall_lookup_1 _ _ _ _ Hall Hj).
  - rewrite list_lookup_alter_ne by done. intros Hj.
    by apply (Forall_lookup_1 _ _ _ _ Hall Hj).
Qed.

Lemma current_heading_known (st : Markdown.state) :
  Markdown.current_heading st = ""
  \/ Markdown.current_heading st ∈ heading <$> Markdown.sections st.
Proof.
  unfold Markdown.current_heading.
  destruct (Markdown.current_section st) as [i|]; [|by left].
  destruct (Markdown.sections st !! i) as [s|] eqn:Hi; [|by left].
  right. cbn. apply list_elem_of_fmap_2. by eapply list_elem_of_lookup_2.
Qed.

Lemma example_well_formed_more (hs hs' : list string) (e : code_example) :
  (forall h, h ∈ hs -> h ∈ hs') ->
  example_well_formed hs e -> example_well_formed hs' e.
Proof. intros Hsub (Hc & Hl & [Hx|Hx]); split_and!; auto. Qed.

Lemma step_well_formed (st : Markdown.state) (line : string) :
  Forall section_well_formed (Markdown.sections st)
  /\ Forall (example_well_formed (heading <$> Markdown.sections st))
            (Markdown.code_examples st) ->
  Forall section_well_formed (Markdown.sections (Markdown.step st line))
  /\ Forall (example_well_formed
               (heading <$> Markdown.sections (Markdown.step st line)))
            (Markdown.code_examples (Markdown.step st line)).
Proof.
  intros [Hs He]. unfold Markdown.step.
  destruct (Py.startswith "```" line).
  { destruct (Markdown.in_code_block st);
      cbn [Markdown.sections Markdown.code_examples]; [|done].
    split; [done|].
    destruct (Py.truthy (Py.strip _)) eqn:Hcode; [|done].
    apply Forall_app. split; [done|]. apply Forall_singleton.
    split_and!; [done| |apply current_heading_known].
    cbn [language]. unfold Py.or_else.
    by destruct (Markdown.code_lang st). }
  destruct (Markdown.in_code_block st); [done|].
  destruct (Markdown.heading_match line) as [[hashes text]|] eqn:Hm; [|done].
  destruct ((Z.of_nat (String.length hashes) =? 1) && _); [done|].
  cbn [Markdown.sections Markdown.code_examples]. split.
  - apply Forall_app. split; [by apply save_section_well_formed|].
    apply Forall_singleton. split; [|done].
    cbn [level]. by eapply heading_match_level.
  - eapply Forall_impl; [exact He|]. intros e.
    apply example_well_formed_more. intros h Hh.
    rewrite fmap_app, elem_of_app, save_section_headings. by left.
Qed.

Lemma parse_markdown_checked (content : string) :
  well_formed (Markdown.parse_markdown content).
Proof.
  unfold well_formed, Markdown.parse_markdown, Markdown.scan.
  cbn [Markdown.p_sections Markdown.p_code_examples].
  rewrite save_section_headings.
  enough (forall lines st,
             Forall section_well_formed (Markdown.sections st)
             /\ Forall (example_well_formed
                          (heading <$> Markdown.sections st))
                       (Markdown.code_examples st) ->
             let st' := foldl Markdown.step st lines in
             Forall section_well_formed (Markdown.sections st')
             /\ Forall (example_well_formed
                          (heading <$> Markdown.sections st'))
                       (Markdown.code_examples st')) as Hscan.
  { destruct (Hscan (Py.split_on "010"%char content) Markdown.init)
      as [Hs He]; [by split|].
    split; [by apply save_section_well_formed|done]. }
  induction lines as [|line lines IH]; intros st Hst; [done|].
  cbn [foldl]. by apply IH, step_well_formed.
Qed.

(** X12. Whatever the text, the markdown extractor returns sections of
    levels 1 to 4 whose anchors derive from their headings, and code
    examples whose code is not blank, whose language is not empty and
    whose context is empty or the heading of one of the returned
    sections. *)
Theorem parse_markdown_well_formed (content : string) :
  well_formed (Markdown.parse_markdown content).
Proof. apply parse_markdown_checked. Qed.

(** ** The queries, further *)

(** *** LIKE *)









(** *** search_nodes *)

Lemma sql_limit_sublist {A} (n : Z) (l : list A) :
  Query.sql_limit n l `sublist_of` l.
Proof. unfold Query.sql_limit. destruct (n <? 0); [done|apply sublist_take]. Qed.

Lemma sql_limit_length {A} (n : Z) (l : list A) :
  0 <= n -> (length (Query.sql_limit n l) <= Z.to_nat n)%nat.
Proof.
  intros Hn. unfold Query.sql_limit.
  destruct (n <? 0) eqn:Hneg; [apply Z.ltb_lt in Hneg; lia|].
  rewrite length_take. lia.
Qed.

Lemma combine_row_keeps (P : Query.node_hit -> Prop)
      (st : gset Z * list Query.node_hit) (r : Query.node_hit) :
  NoDup (hit_id <$> st.2) -> (forall i, i ∈ st.1 <-> i ∈ hit_id <$> st.2) ->
  Forall P st.2 -> P r ->
  let st' := Query.combine_row st r in
  NoDup (hit_id <$> st'.2) /\ (forall i, i ∈ st'.1 <-> i ∈ hit_id <$> st'.2)
  /\ Forall P st'.2.
Proof.
  intros Hnd Hset HP Hr. unfold Query.combine_row. cbn zeta.
  case_bool_decide as Hseen; [done|]. cbn [fst snd].
  rewrite fmap_app. split_and!.
  - apply NoDup_app. split_and!; [done| |apply NoDup_singleton].
    intros i Hi ->%list_elem_of_singleton. by apply Hseen, Hset.
  - intros i. rewrite elem_of_union, elem_of_singleton, Hset.
    cbn [fmap list_fmap]. rewrite elem_of_app, list_elem_of_singleton.
    tauto.
  - apply Forall_app. by split; [|apply Forall_singleton].
Qed.

Lemma combine_rows_keep (P : Query.node_hit -> Prop)
      (rows : list Query.node_hit) :
  forall st : gset Z * list Query.node_hit,
  NoDup (hit_id <$> st.2) -> (forall i, i ∈ st.1 <-> i ∈ hit_id <$> st.2) ->
  Forall P st.2 -> Forall P rows ->
  let st' := foldl Query.combine_row st rows in
  NoDup (hit_id <$> st'.2) /\ (forall i, i ∈ st'.1 <-> i ∈ hit_id <$> st'.2)
  /\ Forall P st'.2.
Proof.
  induction rows as [|r rows IH]; intros st Hnd Hset HP Hrows; [done|].
  apply Forall_cons in Hrows as [Hr Hrows]. cbn [foldl].
  destruct (combine_row_keeps P st r Hnd Hset HP Hr) as (H1 & H2 & H3).
  by apply IH.
Qed.

Section NodeSearchFacts.

Variable order_by_name : list Db.node_row -> list Db.node_row.
Hypothesis order_by_name_permutes : forall rows, order_by_name rows ≡ₚ rows.

Lemma select_nodes_elem (c : Db.conn) (w : Db.node_row -> bool) (limit : Z)
      (r : Query.node_hit) :
  r ∈ Query.select_nodes order_by_name c w limit ->
  exists n, n ∈ Db.nodes c /\ r = Query.hit c n /\ w n = true.
Proof.
  unfold Query.select_nodes. intros (n & -> & Hn)%list_elem_of_fmap.
  pose proof (elem_of_sublist _ _ _ Hn (sql_limit_sublist _ _)) as Hn'.
  rewrite order_by_name_permutes in Hn'.
  apply list_elem_of_filter in Hn' as [Hw Hin]. by exists n.
Qed.

Lemma select_nodes_NoDup (c : Db.conn) (w : Db.node_row -> bool)
      (limit : Z) :
  NoDup (Db.node_id <$> Db.nodes c) ->
  NoDup (hit_id <$> Query.select_nodes order_by_name c w limit).
Proof.
  intros Hids. unfold Query.select_nodes. rewrite <- list_fmap_compose.
  change (hit_id ∘ Query.hit c) with Db.node_id.
  eapply sublist_NoDup; [|apply fmap_sublist, sql_limit_sublist].
  rewrite order_by_name_permutes. by apply NoDup_fmap_filter.
Qed.

Lemma combine_words_keep (c : Db.conn) (query : string)
      (category : option string) (limit : Z) (words : list string) :
  forall st : gset Z * list Query.node_hit,
  (forall w, w ∈ words -> w ∈ Py.split_ws query) ->
  NoDup (hit_id <$> st.2) -> (forall i, i ∈ st.1 <-> i ∈ hit_id <$> st.2) ->
  Forall (fun r => exists n, n ∈ Db.nodes c /\ r = Query.hit c n
                             /\ found_by query category n) st.2 ->
  let st' := foldl (Query.combine_word order_by_name c limit) st words in
  NoDup (hit_id <$> st'.2)
  /\ Forall (fun r => exists n, n ∈ Db.nodes c /\ r = Query.hit c n
                                /\ found_by query category n) st'.2.
Proof.
  induction words as [|word words IH]; intros st Hsub Hnd Hset HP; [done|].
  cbn [foldl].
  set (st1 := Query.combine_word order_by_name c limit st word).
  assert (NoDup (hit_id <$> st1.2)
          /\ (forall i, i ∈ st1.1 <-> i ∈ hit_id <$> st1.2)
          /\ Forall (fun r => exists n, n ∈ Db.nodes c /\ r = Query.hit c n
                                        /\ found_by query category n) st1.2)
    as (H1 & H2 & H3).
  { subst st1. unfold Query.combine_word.
    destruct (String.length word <? 2)%nat eqn:Hlen; [done|].
    apply Nat.ltb_ge in Hlen. apply combine_rows_keep; [done..|].
    apply Forall_forall. intros r (n & Hn & -> & Hw)%select_nodes_elem.
    exists n. split_and!; [done..|]. right. exists word.
    split_and!; [|done..]. apply Hsub. by left. }
  apply IH; [|done..]. intros w Hw. apply Hsub. by right.
Qed.

(** X14. Every row that [search_nodes] returns is a stored node, with
    the URL of the page it links to, that satisfies the first statement
    (and then is in the category asked for, if one was given) or, when
    that statement found nothing, the statement of the fallback for a
    word of at least two characters of the query; the fallback does not
    look at the category. *)
Theorem search_nodes_sound (c : Db.conn) (query : string)
        (category : option string) (limit : Z) (r : Query.node_hit) :
  r ∈ Query.search_nodes order_by_name c query category limit ->
  exists n,
    n ∈ Db.nodes c /\ r = Query.hit c n /\ found_by query category n
    /\ (Query.select_nodes order_by_name c
          (Query.primary_where query category) limit <> [] ->
        Query.primary_where query category n = true
        /\ forall cat, category = Some cat -> Py.truthy cat = true ->
                       Db.node_category n = cat).
Proof.
  unfold Query.search_nodes.
  destruct (Query.select_nodes order_by_name c
              (Query.primary_where query category) limit)
    as [|r0 rows] eqn:Hrows.
  - destruct (Py.contains " " query); [|by intros ?%elem_of_nil].
    intros Hr.
    destruct (combine_words_keep c query category limit (Py.split_ws query)
                (∅, [])) as [_ Hall];
      [done|cbn; constructor|intros i; cbn; set_solver|done|].
    assert (r ∈ (foldl (Query.combine_word order_by_name c limit) (∅, [])
                   (Py.split_ws query)).2) as Hin.
    { unfold Py.slice_to in Hr.
      destruct (0 <=? limit); by apply subseteq_take in Hr. }
    rewrite Forall_forall in Hall.
    destruct (Hall r Hin) as (n & Hn & -> & Hfound).
    exists n. by split_and!.
  - rewrite <- Hrows. intros (n & Hn & -> & Hw)%select_nodes_elem.
    exists n. split_and!; [done|done|by left|]. intros _. split; [done|].
    intros cat -> Hcat. unfold Query.primary_where in Hw.
    destruct cat as [|a cat]; [done|].
    apply andb_true_iff in Hw as [Hc%bool_decide_eq_true _]. done.
Qed.

(** X15. [search_nodes] returns no more rows than a limit that is not
    negative and, the ids of the nodes being distinct, no node twice:
    neither in the first statement nor across the words of the
    fallback. *)
Theorem search_nodes_bounded (c : Db.conn) (query : string)
        (category : option string) (limit : Z) :
  0 <= limit -> NoDup (Db.node_id <$> Db.nodes c) ->
  let rows := Query.search_nodes order_by_name c query category limit in
  (length rows <= Z.to_nat limit)%nat /\ NoDup (hit_id <$> rows).
Proof.
  intros Hlimit Hids. cbn zeta. unfold Query.search_nodes.
  destruct (Query.select_nodes order_by_name c
              (Query.primary_where query category) limit)
    as [|r0 rows] eqn:Hrows.
  - destruct (Py.contains " " query); [|split; [cbn; lia|constructor]].
    unfold Py.slice_to. apply Z.leb_le in Hlimit as ->. split.
    + rewrite length_take. lia.
    + destruct (combine_words_keep c query category limit
                  (Py.split_ws query) (∅, [])) as [Hnd _];
        [done|cbn; constructor|intros i; cbn; set_solver|done|].
      eapply sublist_NoDup; [exact Hnd|].
      apply fmap_sublist, sublist_take.
  - rewrite <- Hrows. split.
    + unfold Query.select_nodes. rewrite length_fmap.
      by apply sql_limit_length.
    + by apply select_nodes_NoDup.
Qed.

End NodeSearchFacts.

Lemma search_nodes_sound_witness :
  exists n,
    n ∈ Db.nodes two_loaders
    /\ Query.hit two_loaders (node_named 1 "Load Image Batch")
       = Query.hit two_loaders n
    /\ found_by "Image Load" (Some "Image") n
    /\ (Query.select_nodes by_name two_loaders
          (Query.primary_where "Image Load" (Some "Image")) 20 <> [] ->
        Query.primary_where "Image Load" (Some "Image") n = true
        /\ forall cat, Some "Image" = Some cat -> Py.truthy cat = true ->
                       Db.node_category n = cat).
Proof.
  apply (search_nodes_sound by_name
           (fun rows => merge_sort_Permutation _ rows)
           two_loaders "Image Load" (Some "Image") 20).
  vm_compute. left.
Defined.

Lemma search_nodes_bounded_witness :
  (length (Query.search_nodes by_name two_loaders "Image Load" None 1)
   <= Z.to_nat 1)%nat
  /\ NoDup (hit_id
              <$> Query.search_nodes by_name two_loaders "Image Load" None 1).
Proof.
  apply (search_nodes_bounded by_name
           (fun rows => merge_sort_Permutation _ rows)
           two_loaders "Image Load" None 1).
  - lia.
  - by apply (bool_decide_unpack _).
Defined.

(** The fallback at work: no node of the category "Text" is stored, the
    query has two words, and the nodes of the category "Image" that match
    a word come back. *)
Example search_nodes_fallback_ignores_category :
  (fun r => Db.node_category (Query.nh_node r))
    <$> Query.search_nodes by_name two_loaders "Load Image" (Some "Text") 20
  = ["Image"; "Image"].
Proof. vm_compute. reflexivity. Qed.

(** ** Reading back what a scraper wrote *)

Lemma filter_filter_keep {A} (P Q : A -> Prop) `{!forall x, Decision (P x)}
      `{!forall x, Decision (Q x)} (l : list A) :
  (forall x, x ∈ l -> P x -> Q x) -> filter P (filter Q l) = filter P l.
Proof.
  intros Hl. rewrite list_filter_filter. apply filter_same.
  intros x Hx. split; [by intros [? _]|]. intros HP. split; [done|].
  by apply Hl.
Qed.

Lemma filter_fmap_keep {A} (P : A -> Prop) `{!forall x, Decision (P x)}
      (f : A -> A) (l : list A) :
  (forall x, P (f x) <-> P x) -> (forall x, x ∈ l -> P x -> f x = x) ->
  filter P (f <$> l) = filter P l.
Proof.
  intros HP Hf. induction l as [|a l IH]; [done|].
  rewrite fmap_cons, !filter_cons.
  rewrite IH by (intros x Hx; apply Hf; by right).
  destruct (decide (P (f a))) as [H1|H1], (decide (P a)) as [H2|H2].
  - rewrite Hf; [done|by left|done].
  - destruct H2. by apply HP.
  - destruct H1. by apply HP.
  - done.
Qed.

Lemma consistent_kept : kept_by_statements consistent.
Proof.
  pose proof rows_in_order_kept as (R1 & R2 & R3 & R4).
  pose proof references_resolve_kept as (F1 & F2 & F3 & F4).
  unfold kept_by_statements, consistent. split_and!.
  - intros now v c [??]. split; [by apply R1|by apply F1].
  - intros pid s c c' [??] Hok. split; [by eapply R2|by eapply F2].
  - intros pid sid e c c' [??] Hok. split; [by eapply R3|by eapply F3].
  - intros name dn cat desc pid c c' [??] Hok.
    split; [by eapply R4|by eapply F4].
Qed.

Lemma stored_page_in (c : Db.conn) (u : string) (p : Db.page_row)
      (srows : list Db.section_row) (erows : list Db.example_row) :
  stored_under c u p srows erows -> p ∈ Db.pages c /\ Db.page_url p = u.
Proof.
  intros (Hp & _). unfold pages_at in Hp.
  assert (p ∈ filter (fun p => Db.page_url p = u) (Db.pages c)) as Hin
    by (rewrite Hp; left).
  apply list_elem_of_filter in Hin as [??]. done.
Qed.

(** An upsert of another URL leaves the rows of the page at [u] alone. *)
Lemma upsert_keeps_other (now : string) (v : Db.page_values) (c : Db.conn)
      (u : string) (p : Db.page_row) (srows : list Db.section_row)
      (erows : list Db.example_row) :
  consistent c -> stored_under c u p srows erows ->
  links_within srows erows -> Db.v_url v <> u ->
  stored_under (Db.insert_or_replace_page now v c).1 u p srows erows
  /\ Db.page_id p <> (Db.insert_or_replace_page now v c).2.
Proof.
  intros [Hrows (Hfk & _)] Hst Hlinks Hne.
  pose proof (stored_page_in _ _ _ _ _ Hst) as [Hp Hu].
  destruct Hst as (Hpages & Hsecs & Hexs).
  destruct Hrows as (Hpa & Hsa & _).
  apply ascending_NoDup in Hpa, Hsa.
  unfold stored_under, pages_at in *. unfold Db.insert_or_replace_page.
  cbn [fst snd Db.pages Db.sections Db.code_examples Db.replace_delete].
  rewrite Hfk.
  set (old_ids := Db.page_id
                    <$> filter (fun p => Db.page_url p = Db.v_url v)
                               (Db.pages c)).
  assert (Hkeep : forall q, q ∈ Db.pages c -> Db.page_url q = u ->
                            Db.page_id q ∉ old_ids).
  { intros q Hq Hqu (q' & Hid & [Hq'u Hq']%list_elem_of_filter)
                      %list_elem_of_fmap.
    assert (q = q') as -> by by apply (same_key Db.page_id (Db.pages c)).
    congruence. }
  split; [split_and!|].
  - rewrite filter_app, filter_cons_False, filter_nil, app_nil_r by done.
    rewrite filter_filter_keep; [done|].
    intros q Hq Hqu. apply bool_decide_eq_false. by apply Hkeep.
  - rewrite filter_filter_keep; [done|].
    intros s Hs Hsp. apply bool_decide_eq_false. rewrite Hsp.
    by apply Hkeep.
  - rewrite filter_fmap_keep.
    + rewrite filter_filter_keep; [done|].
      intros e He Hep. apply bool_decide_eq_false. rewrite Hep.
      by apply Hkeep.
    + done.
    + intros e [_ He]%list_elem_of_filter Hep.
      destruct (Db.ex_section_id e) as [sid|] eqn:Hsid;
        [|destruct e; cbn in *; by subst].
      assert (sid ∈ Db.sec_id <$> srows) as (s0 & Hs0 & Hs0in)
                                            %list_elem_of_fmap.
      { apply (Hlinks e); [|done]. rewrite <- Hexs.
        apply list_elem_of_filter. by split. }
      rewrite <- Hsecs in Hs0in.
      apply list_elem_of_filter in Hs0in as [Hs0p Hs0in].
      rewrite bool_decide_false; [destruct e; cbn in *; by subst|].
      intros (d & Hd & [Hgone%bool_decide_eq_true Hdin]%list_elem_of_filter)
               %list_elem_of_fmap.
      assert (d = s0) as ->
        by (apply (same_key Db.sec_id (Db.sections c)); congruence).
      rewrite Hs0p in Hgone. by apply (Hkeep p).
  - apply Z.lt_neq, next_id_fresh. by apply list_elem_of_fmap_2.
Qed.

Lemma children_keep_other (u : string) (p : Db.page_row)
      (srows : list Db.section_row) (erows : list Db.example_row)
      (pid : Z) (secs : list section) (exs : list code_example) :
  pid <> Db.page_id p ->
  preserves (fun s => stored_under s.1 u p srows erows)
            (Scrape.write_children pid secs exs).
Proof.
  intros Hne. unfold Scrape.write_children, stored_under, pages_at.
  apply preserves_bind; [|intros _]; apply preserves_for_each.
  - intros sec. apply preserves_bind; [|intros _; by apply preserves_count].
    apply preserves_execute. intros c c' st (Hp & Hs & He).
    unfold Db.insert_section. destruct (_ && _); [done|]. intros [= <-].
    cbn [fst Db.pages Db.sections Db.code_examples]. split_and!; [done| |done].
    by rewrite filter_app, filter_cons_False, filter_nil, app_nil_r.
  - intros ex. apply preserves_bind; [|intros sid; apply preserves_bind;
                                       [|intros _; by apply preserves_count]].
    + destruct (Py.truthy (context ex));
        [apply preserves_query|apply preserves_ret].
    + apply preserves_execute. intros c c' st (Hp & Hs & He).
      unfold Db.insert_code_example. destruct (_ && _); [done|].
      intros [= <-].
      cbn [fst Db.pages Db.sections Db.code_examples].
      split_and!; [done..|].
      by rewrite filter_app, filter_cons_False, filter_nil, app_nil_r.
Qed.

(** The insert of a node changes no page, section or code example. *)
Lemma write_node_tables (P : list Db.page_row -> list Db.section_row ->
                             list Db.example_row -> Prop)
      (info : option Scrape.node_info) (content_text : string) (pid : Z) :
  preserves (fun s => P (Db.pages s.1) (Db.sections s.1)
                        (Db.code_examples s.1))
            (Scrape.write_node info content_text pid).
Proof.
  destruct info as [i|]; cbn [Scrape.write_node]; [|apply preserves_ret].
  apply preserves_bind; [|intros _; by apply preserves_count].
  apply preserves_execute. intros c c' st HP. unfold Db.insert_node.
  destruct (_ && _); [done|]. by intros [= <-].
Qed.

(** The block of a page of another URL leaves the rows of the page at
    [u] alone. *)
Lemma block_keeps_other (now : string) (v : Db.page_values)
      (secs : list section) (exs : list code_example)
      (info : option Scrape.node_info) (content_text : string)
      (s : Scrape.state) (u : string) (p : Db.page_row)
      (srows : list Db.section_row) (erows : list Db.example_row) :
  consistent s.1 -> stored_under s.1 u p srows erows ->
  links_within srows erows -> Db.v_url v <> u ->
  stored_under
    (Scrape.catch
       (Scrape.write_page now v secs exs
          ≫= fun pid => Scrape.write_node info content_text pid) s).1
    u p srows erows.
Proof.
  intros Hc Hst Hlinks Hne. rewrite page_block_unfold.
  destruct (upsert_keeps_other now v s.1 u p srows erows) as [Hst1 Hid];
    [done..|].
  apply (preserves_bind (fun s => stored_under s.1 u p srows erows));
    [by apply children_keep_other|intros _|done].
  apply (write_node_tables
           (fun pages sections examples =>
              filter (fun q => Db.page_url q = u) pages = [p]
              /\ filter (fun s => Db.sec_page_id s = Db.page_id p) sections
                 = srows
              /\ filter (fun e => Db.ex_page_id e = Db.page_id p) examples
                 = erows)).
Qed.

Lemma succeeds_for_each_fold {A} (R : list A -> Scrape.state -> Prop)
      (l : list A) (body : A -> Scrape.try_block unit) :
  (forall seen x, succeeds (R seen) (body x) (fun _ => R (seen ++ [x]))) ->
  forall seen,
    succeeds (R seen) (Scrape.for_each l body) (fun _ => R (seen ++ l)).
Proof.
  intros Hbody. induction l as [|x l IH]; intros seen;
    cbn [Scrape.for_each].
  - rewrite app_nil_r. apply succeeds_ret.
  - replace (seen ++ x :: l) with ((seen ++ [x]) ++ l)
      by (by rewrite <- (assoc_L (++))).
    apply succeeds_bind with (Q := fun _ => R (seen ++ [x]));
      [apply Hbody|].
    intros u. apply IH.
Qed.

Lemma succeeds_weaken {A} (P P' : Scrape.state -> Prop)
      (Q Q' : A -> Scrape.state -> Prop) (m : Scrape.try_block A) :
  succeeds P m Q -> (forall s, P' s -> P s) ->
  (forall a s, Q a s -> Q' a s) -> succeeds P' m Q'.
Proof.
  intros Hm Hpre Hpost s Hs. destruct (Hm s (Hpre s Hs)) as (a & Ha & HQ).
  exists a. split; [done|]. by apply Hpost.
Qed.

Lemma find_section_linked (pid : Z) (h : string) (c : Db.conn) :
  Py.truthy h = true ->
  Db.find_section pid h c
  = linked_section
      (filter (fun s => Db.sec_page_id s = pid) (Db.sections c)) h.
Proof.
  intros Hh. unfold Db.find_section, linked_section. rewrite Hh.
  rewrite list_filter_filter. do 2 f_equal. apply filter_same.
  intros s _. tauto.
Qed.

Lemma linked_section_in (srows : list Db.section_row) (ctx : string)
      (sid : Z) :
  linked_section srows ctx = Some sid -> sid ∈ Db.sec_id <$> srows.
Proof.
  unfold linked_section. destruct (Py.truthy ctx); [|done].
  destruct (filter _ srows) as [|s0 l] eqn:Hf; [done|].
  cbn. intros [= <-]. apply list_elem_of_fmap_2.
  assert (s0 ∈ filter (fun s => Db.sec_heading s = ctx) srows)
    as [_ Hin]%list_elem_of_filter by (rewrite Hf; left).
  done.
Qed.

(** The state of the block once the page row is written: the page is
    the one row at its URL, and nothing refers to it yet. *)
Lemma upsert_fresh_page (now : string) (v : Db.page_values) (c : Db.conn) :
  consistent c ->
  let c1 := (Db.insert_or_replace_page now v c).1 in
  let pid := (Db.insert_or_replace_page now v c).2 in
  exists p,
    pages_at (Db.v_url v) c1 = [p] /\ Db.page_id p = pid
    /\ written_as v now [] [] p [] []
    /\ filter (fun s => Db.sec_page_id s = pid) (Db.sections c1) = []
    /\ filter (fun e => Db.ex_page_id e = pid) (Db.code_examples c1) = []
    /\ Db.foreign_keys c1 = true /\ Db.has_page c1 pid = true.
Proof.
  intros [_ (Hfk & Hsec & Hex & _)]. cbn zeta.
  unfold Db.insert_or_replace_page, pages_at, Db.has_page.
  cbn [fst snd Db.pages Db.sections Db.code_examples Db.foreign_keys
         Db.replace_delete].
  rewrite Hfk.
  set (old_ids := Db.page_id
                    <$> filter (fun p => Db.page_url p = Db.v_url v)
                               (Db.pages c)).
  set (pid := Db.next_id (Db.page_id <$> Db.pages c) (Db.seq_pages c)).
  set (row := Db.Build_page_row _ _ _ _ _ _ _ _ _).
  assert (Hfresh : forall i, Db.has_page c i = true -> i <> pid).
  { intros i Hi%bool_decide_eq_true. by apply Z.lt_neq, next_id_fresh. }
  exists row. split_and!; [|done| | | |done|].
  - rewrite filter_app, filter_cons_True, filter_nil by done.
    rewrite filter_none; [done|].
    intros q [Hgone%bool_decide_eq_false Hq]%list_elem_of_filter Hqu.
    apply Hgone. apply list_elem_of_fmap_2. by apply list_elem_of_filter.
  - unfold written_as. by split_and!.
  - apply filter_none. intros s [_ Hs]%list_elem_of_filter.
    by apply Hfresh, Hsec.
  - apply filter_none.
    intros e (e0 & -> & [_ He0]%list_elem_of_filter)%list_elem_of_fmap.
    cbn [Db.ex_page_id]. by apply Hfresh, Hex.
  - apply bool_decide_eq_true. rewrite fmap_app, elem_of_app. right. left.
Qed.

(** The children of a page row that nothing refers to yet are written
    as they were extracted, each code example with the link to the
    section that its context names. *)
Lemma write_children_stores (pid : Z) (secs : list section)
      (exs : list code_example) (pages : list Db.page_row) :
  succeeds
    (fun s =>
       ready_for pid s /\ Db.pages s.1 = pages
       /\ filter (fun r => Db.sec_page_id r = pid) (Db.sections s.1) = []
       /\ filter (fun e => Db.ex_page_id e = pid) (Db.code_examples s.1) = [])
    (Scrape.write_children pid secs exs)
    (fun _ s =>
       let srows := filter (fun r => Db.sec_page_id r = pid)
                           (Db.sections s.1) in
       let erows := filter (fun e => Db.ex_page_id e = pid)
                           (Db.code_examples s.1) in
       Db.pages s.1 = pages
       /\ section_of_row <$> srows = secs
       /\ example_of_row <$> erows = exs
       /\ Forall (fun e => Db.ex_section_id e
                           = linked_section srows (Db.ex_context e)) erows).
Proof.
  unfold Scrape.write_children.
  apply succeeds_bind
    with (Q := fun _ s =>
                 ready_for pid s /\ Db.pages s.1 = pages
                 /\ section_of_row
                      <$> filter (fun r => Db.sec_page_id r = pid)
                                 (Db.sections s.1) = secs
                 /\ filter (fun e => Db.ex_page_id e = pid)
                           (Db.code_examples s.1) = []).
  - eapply succeeds_weaken.
    + apply (succeeds_for_each_fold
               (fun seen s =>
                  ready_for pid s /\ Db.pages s.1 = pages
                  /\ section_of_row
                       <$> filter (fun r => Db.sec_page_id r = pid)
                                  (Db.sections s.1) = seen
                  /\ filter (fun e => Db.ex_page_id e = pid)
                            (Db.code_examples s.1) = []))
        with (seen := []).
      intros seen sec [c st] ([Hfk Hhas] & Hp & Hs & He).
      cbn [fst snd] in *.
      unfold mbind, Scrape.try_bind, Scrape.execute, Scrape.count,
        Db.insert_section.
      cbn [fst snd]. rewrite Hfk, Hhas. cbn [negb andb fst snd].
      exists tt. split; [done|]. unfold ready_for, Db.has_page in *.
      cbn [fst snd Db.foreign_keys Db.pages Db.sections Db.code_examples].
      split_and!; [done..| |done].
      rewrite filter_app, filter_cons_True, filter_nil, fmap_app, Hs by done.
      by destruct sec.
    + intros s (Hready & Hp & Hs & He). split_and!; [done..| |done].
      by rewrite Hs.
    + by intros ? s.
  - intros u. eapply succeeds_weaken.
    + apply (succeeds_for_each_fold
               (fun seen s =>
                  ready_for pid s /\ Db.pages s.1 = pages
                  /\ section_of_row
                       <$> filter (fun r => Db.sec_page_id r = pid)
                                  (Db.sections s.1) = secs
                  /\ example_of_row
                       <$> filter (fun e => Db.ex_page_id e = pid)
                                  (Db.code_examples s.1) = seen
                  /\ Forall (fun e =>
                               Db.ex_section_id e
                               = linked_section
                                   (filter (fun r => Db.sec_page_id r = pid)
                                           (Db.sections s.1))
                                   (Db.ex_context e))
                            (filter (fun e => Db.ex_page_id e = pid)
                                    (Db.code_examples s.1))))
        with (seen := []).
      intros seen ex [c st] ([Hfk Hhas] & Hp & Hs & He & Hl).
      cbn [fst snd] in *.
      set (sid := if Py.truthy (context ex)
                  then Db.find_section pid (context ex) c else None).
      assert (Hsid : match sid with
                     | Some i => Db.has_section c i = true
                     | None => True
                     end).
      { subst sid. destruct (Py.truthy (context ex)); [|done].
        destruct (Db.find_section pid (context ex) c) eqn:Hfind; [|done].
        by eapply find_section_has. }
      assert (Hlink : sid = linked_section
                              (filter (fun r => Db.sec_page_id r = pid)
                                      (Db.sections c)) (context ex)).
      { subst sid. destruct (Py.truthy (context ex)) eqn:Hctx.
        - by apply find_section_linked.
        - unfold linked_section. by rewrite Hctx. }
      assert (((if Py.truthy (context ex)
                then Scrape.query (Db.find_section pid (context ex))
                else Scrape.ret None) : Scrape.try_block (option Z)) (c, st)
              = ((c, st), Db.Ok sid)) as Hq.
      { subst sid. by destruct (Py.truthy (context ex)). }
      unfold mbind, Scrape.try_bind. rewrite Hq.
      unfold Scrape.execute, Scrape.count, Db.insert_code_example.
      cbn [fst snd]. rewrite Hfk, Hhas.
      assert (match sid with
              | Some i => Db.has_section c i
              | None => true
              end = true) as -> by by destruct sid.
      cbn [negb andb fst snd]. exists tt. split; [done|].
      unfold ready_for, Db.has_page in *.
      cbn [fst snd Db.foreign_keys Db.pages Db.sections Db.code_examples].
      split_and!; [done..| |].
      * rewrite filter_app, filter_cons_True, filter_nil, fmap_app, He
          by done.
        by destruct ex.
      * rewrite filter_app, filter_cons_True, filter_nil by done.
        apply Forall_app. split; [done|]. by apply Forall_singleton.
    + intros s (Hready & Hp & Hs & He).
      split_and!; [done..| |]; rewrite He; [done|constructor].
    + intros ? s (_ & Hp & Hs & He & Hl). cbn zeta. by split_and!.
Qed.

(** The block of a page writes its rows as extracted. *)
Lemma block_stores (now : string) (v : Db.page_values)
      (secs : list section) (exs : list code_example)
      (info : option Scrape.node_info) (content_text : string)
      (s : Scrape.state) :
  consistent s.1 ->
  exists p srows erows,
    stored_under
      (Scrape.catch
         (Scrape.write_page now v secs exs
            ≫= fun pid => Scrape.write_node info content_text pid) s).1
      (Db.v_url v) p srows erows
    /\ written_as v now secs exs p srows erows
    /\ links_within srows erows.
Proof.
  intros Hc. rewrite page_block_unfold.
  destruct (upsert_fresh_page now v s.1 Hc)
    as (p & Hp & Hid & Hw & Hs0 & He0 & Hfk & Hhas).
  set (c1 := (Db.insert_or_replace_page now v s.1).1) in *.
  set (pid := (Db.insert_or_replace_page now v s.1).2) in *.
  destruct (write_children_stores pid secs exs (Db.pages c1)
              (c1, Scrape.count_page s.2))
    as ([] & Hok & Hp2 & Hs2 & He2 & Hl2); [by split_and!|].
  unfold mbind, Scrape.try_bind.
  destruct (Scrape.write_children pid secs exs (c1, Scrape.count_page s.2))
    as [s2 r]. cbn [fst snd] in *. subst r.
  cbn zeta in Hs2, He2, Hl2.
  exists p, (filter (fun r => Db.sec_page_id r = pid) (Db.sections s2.1)),
    (filter (fun e => Db.ex_page_id e = pid) (Db.code_examples s2.1)).
  split_and!.
  - apply (write_node_tables
             (fun pages sections examples =>
                filter (fun q => Db.page_url q = Db.v_url v) pages = [p]
                /\ filter (fun r => Db.sec_page_id r = Db.page_id p) sections
                   = filter (fun r => Db.sec_page_id r = pid)
                            (Db.sections s2.1)
                /\ filter (fun e => Db.ex_page_id e = Db.page_id p) examples
                   = filter (fun e => Db.ex_page_id e = pid)
                            (Db.code_examples s2.1))).
    rewrite Hid, Hp2. by split_and!.
  - unfold written_as in *. destruct_and!. by split_and!.
  - intros e sid He Hsid. eapply linked_section_in.
    rewrite Forall_forall in Hl2. by rewrite <- (Hl2 e He).
Qed.

Lemma order_by_sorted {A} (key : A -> Z) (l : list A) :
  StronglySorted Z.lt (key <$> l) -> Query.order_by key l = l.
Proof.
  unfold Query.order_by. induction l as [|a l IH]; [done|].
  rewrite fmap_cons, StronglySorted_cons. intros [Hlt Hs].
  cbn [foldr]. rewrite IH by done.
  destruct l as [|b l]; [done|]. cbn [Query.insert_by].
  apply Forall_cons in Hlt as [Hab _].
  by apply Z.lt_le_incl, Z.leb_le in Hab as ->.
Qed.

(** Rows that are stored under a URL are what the lookups return. *)
Lemma stored_reads_back (c : Db.conn) (v : Db.page_values) (now : string)
      (secs : list section) (exs : list code_example) (p : Db.page_row)
      (srows : list Db.section_row) (erows : list Db.example_row) :
  consistent c -> stored_under c (Db.v_url v) p srows erows ->
  written_as v now secs exs p srows erows ->
  Query.get_page_by_url c (Db.v_url v) = Some p
  /\ Query.get_page_sections c (Db.page_id p) = srows
  /\ Query.get_page_code_examples c (Db.page_id p) = erows.
Proof.
  intros [(_ & Hsa & Hea & _) _] (Hp & Hs & He) Hw.
  unfold Query.get_page_by_url, Query.get_page_sections,
    Query.get_page_code_examples.
  unfold pages_at in Hp. rewrite Hp, Hs, He. split_and!; [done|..].
  - apply order_by_sorted. rewrite <- Hs.
    by eapply proj1, ascending_filter.
  - apply order_by_sorted. rewrite <- He.
    by eapply proj1, ascending_filter.
Qed.

Lemma github_step_block (now : string) (s : Scrape.state)
      (r : Scrape.github_result) (md : string) :
  fetched r md ->
  Scrape.github_step now s r
  = inr (Scrape.catch
           (Scrape.write_page now (github_values r md)
              (Markdown.p_sections (Markdown.parse_markdown md))
              (Markdown.p_code_examples (Markdown.parse_markdown md))
              ≫= fun pid =>
                   Scrape.write_node
                     (Scrape.extract_node_info_github (Scrape.g_path r)
                        (github_title r md)) md pid) s).
Proof. intros [Herr Hmd]. unfold Scrape.github_step. by rewrite Herr, Hmd. Qed.

(** The files gone through so far can be read back, each that was not
    written again under its URL since. *)
Lemma github_loop_stores (clock : nat -> string)
      (results : list Scrape.github_result) (db : Db.conn)
      (s : Scrape.state) :
  consistent db -> Scrape.scrape_github clock results db = inr s ->
  consistent s.1
  /\ forall pre r post md,
      results = pre ++ r :: post -> fetched r md ->
      (forall r', r' ∈ post ->
                  Scrape.has_error (Scrape.g_error r') = false ->
                  Scrape.path_to_docs_url (Scrape.g_path r')
                  <> Scrape.path_to_docs_url (Scrape.g_path r)) ->
      exists p srows erows,
        stored_under s.1 (Scrape.path_to_docs_url (Scrape.g_path r))
          p srows erows
        /\ written_as (github_values r md) (clock (length pre))
             (Markdown.p_sections (Markdown.parse_markdown md))
             (Markdown.p_code_examples (Markdown.parse_markdown md))
             p srows erows
        /\ links_within srows erows.
Proof.
  intros Hdb. unfold Scrape.scrape_github.
  apply (run_loop_fold
           (fun seen s =>
              consistent s.1
              /\ forall pre r post md,
                  seen = pre ++ r :: post -> fetched r md ->
                  (forall r', r' ∈ post ->
                              Scrape.has_error (Scrape.g_error r') = false ->
                              Scrape.path_to_docs_url (Scrape.g_path r')
                              <> Scrape.path_to_docs_url (Scrape.g_path r)) ->
                  exists p srows erows,
                    stored_under s.1
                      (Scrape.path_to_docs_url (Scrape.g_path r))
                      p srows erows
                    /\ written_as (github_values r md) (clock (length pre))
                         (Markdown.p_sections (Markdown.parse_markdown md))
                         (Markdown.p_code_examples
                            (Markdown.parse_markdown md))
                         p srows erows
                    /\ links_within srows erows)).
  - intros seen x s0 s1 [Hc IH] Hstep. split.
    { by apply (github_step_keeps consistent (clock (length seen)) s0 x s1
                  consistent_kept). }
    intros pre r post md Hsplit Hr Hlater.
    destruct post as [|y post _] using rev_ind.
    + apply app_inj_tail in Hsplit as [-> ->].
      rewrite (github_step_block _ _ _ md Hr) in Hstep.
      injection Hstep as <-. by apply block_stores.
    + rewrite app_comm_cons, (assoc_L (++)) in Hsplit.
      apply app_inj_tail in Hsplit as [-> ->].
      destruct (IH pre r post md eq_refl Hr) as (p & srows & erows & Hst
                                                 & Hw & Hl).
      { intros r' Hr'. apply Hlater. rewrite elem_of_app. by left. }
      exists p, srows, erows. split_and!; [|done..].
      destruct (Scrape.has_error (Scrape.g_error y)) eqn:Herr.
      * unfold Scrape.github_step in Hstep. rewrite Herr in Hstep.
        by injection Hstep as <-.
      * destruct (Scrape.g_content y) as [md'|] eqn:Hmd.
        2:{ unfold Scrape.github_step in Hstep.
            by rewrite Herr, Hmd in Hstep. }
        rewrite (github_step_block _ _ _ md') in Hstep by done.
        injection Hstep as <-. apply block_keeps_other; [done..|].
        apply Hlater; [|done]. rewrite elem_of_app. right. left.
  - split; [done|]. intros pre r post md Hnil. by destruct pre.
Qed.

(** X16. After a run of the GitHub scraper on a consistent database,
    each file that was fetched, and whose URL no later fetched file
    shares, is read back by the lookups of db.py as the run extracted
    it: [get_page_by_url] gives its title (that of the file name if the
    text has none), its text and the time of its write,
    [get_page_sections] its sections and [get_page_code_examples] its
    code examples, in order, each linked to the first section under the
    heading of its context; a code example with a context always has
    such a link. *)
Theorem github_reads_back (clock : nat -> string)
        (pre : list Scrape.github_result) (r : Scrape.github_result)
        (post : list Scrape.github_result) (db : Db.conn)
        (s : Scrape.state) (md : string) :
  consistent db ->
  Scrape.scrape_github clock (pre ++ r :: post) db = inr s ->
  fetched r md ->
  (forall r', r' ∈ post ->
              Scrape.has_error (Scrape.g_error r') = false ->
              Scrape.path_to_docs_url (Scrape.g_path r')
              <> Scrape.path_to_docs_url (Scrape.g_path r)) ->
  exists p,
    Query.get_page_by_url s.1 (Scrape.path_to_docs_url (Scrape.g_path r))
    = Some p
    /\ written_as (github_values r md) (clock (length pre))
         (Markdown.p_sections (Markdown.parse_markdown md))
         (Markdown.p_code_examples (Markdown.parse_markdown md))
         p (Query.get_page_sections s.1 (Db.page_id p))
         (Query.get_page_code_examples s.1 (Db.page_id p))
    /\ Forall (fun e => Db.ex_context e <> "" ->
                        is_Some (Db.ex_section_id e))
              (Query.get_page_code_examples s.1 (Db.page_id p)).
Proof.
  intros Hdb Hrun Hr Hlater.
  destruct (github_loop_stores clock _ db s Hdb Hrun) as [Hc Hall].
  destruct (Hall pre r post md eq_refl Hr Hlater)
    as (p & srows & erows & Hst & Hw & Hl).
  destruct (stored_reads_back s.1 (github_values r md) _ _ _ p srows erows
              Hc Hst Hw) as (Hget & Hsecs & Hexs).
  exists p. rewrite Hsecs, Hexs. split_and!; [done..|].
  destruct Hw as (_ & _ & _ & _ & _ & _ & _ & _ & Hs & He & Hlinks).
  destruct (parse_markdown_checked md) as [_ Hwf].
  rewrite <- Hs, <- He in Hwf. rewrite Forall_fmap in Hwf.
  rewrite Forall_forall in Hwf, Hlinks. apply Forall_forall.
  intros e He' Hctx. rewrite (Hlinks e He').
  destruct (Hwf e He') as (_ & _ & [Hno|Hin]); [done|].
  cbn [context example_of_row] in Hin.
  rewrite <- list_fmap_compose in Hin.
  apply list_elem_of_fmap in Hin as (s0 & Hh & Hs0). cbn in Hh.
  unfold linked_section.
  destruct (Py.truthy (Db.ex_context e)) eqn:Ht;
    [|by destruct (Db.ex_context e)].
  destruct (filter _ srows) as [|s1 l] eqn:Hf; [|by eexists].
  assert (s0 ∈ filter (fun s => Db.sec_heading s = Db.ex_context e) srows)
    as Hin by (apply list_elem_of_filter; by split).
  rewrite Hf in Hin. by apply elem_of_nil in Hin.
Qed.

Lemma github_reads_back_witness :
  exists p,
    Query.get_page_by_url github_once.1
      (Scrape.path_to_docs_url (Scrape.g_path node_file)) = Some p
    /\ written_as (github_values node_file md_example) "2024-05-01 10:00:00"
         (Markdown.p_sections (Markdown.parse_markdown md_example))
         (Markdown.p_code_examples (Markdown.parse_markdown md_example))
         p (Query.get_page_sections github_once.1 (Db.page_id p))
         (Query.get_page_code_examples github_once.1 (Db.page_id p))
    /\ Forall (fun e => Db.ex_context e <> "" ->
                        is_Some (Db.ex_section_id e))
              (Query.get_page_code_examples github_once.1 (Db.page_id p)).
Proof.
  apply (github_reads_back (fun _ => "2024-05-01 10:00:00") [] node_file
           [faq_file] Db.empty github_once md_example).
  - split; [repeat split; constructor|].
    split_and!; [done|intros ? []%elem_of_nil..|intros ?? []%elem_of_nil].
  - vm_compute. reflexivity.
  - split; reflexivity.
  - intros r' ->%list_elem_of_singleton _. vm_compute. discriminate.
Defined.

Lemma web_step_block (with_nodes : bool) (source : string)
      (lib : Scrape.library) (lastmod_map : gmap string (option string))
      (now : string) (s : Scrape.state) (r : Fetch.result) (html : string) :
  web_written lib r html ->
  Scrape.web_step with_nodes source lib lastmod_map now s r
  = inr (Scrape.catch
           (Scrape.write_page now
              (Scrape.page_values_of source lib lastmod_map (Fetch.url r)
                 (extracted_of lib html))
              (Html.e_sections (extracted_of lib html))
              (Html.e_code_examples (extracted_of lib html))
              ≫= fun pid =>
                   Scrape.write_node
                     (if with_nodes
                      then Scrape.extract_node_info (Fetch.url r)
                             (Html.e_title (extracted_of lib html))
                      else None)
                     (Html.e_content_text (extracted_of lib html)) pid) s).
Proof.
  intros (Herr & Hhtml & Htitle). unfold Scrape.web_step, extracted_of in *.
  rewrite Herr, Hhtml, Htitle. cbn [negb]. by destruct with_nodes.
Qed.

Lemma web_step_skips (with_nodes : bool) (source : string)
      (lib : Scrape.library) (lastmod_map : gmap string (option string))
      (now : string) (s : Scrape.state) (r : Fetch.result)
      (s' : Scrape.state) :
  titled lib r = false ->
  Scrape.web_step with_nodes source lib lastmod_map now s r = inr s' ->
  s'.1 = s.1.
Proof.
  unfold titled, Scrape.web_step.
  destruct (Scrape.has_error (Fetch.error r)); [by intros _ [= <-]|].
  destruct (Fetch.html r) as [html|]; [|done]. cbn [negb andb].
  intros ->. by intros [= <-].
Qed.

Lemma titled_written (lib : Scrape.library) (r : Fetch.result) :
  titled lib r = true -> exists html, web_written lib r html.
Proof.
  unfold titled, web_written.
  destruct (Scrape.has_error (Fetch.error r)); [done|].
  destruct (Fetch.html r) as [html|]; [|done]. cbn [negb andb].
  intros Ht. by exists html.
Qed.

(** The pages gone through so far can be read back, each that was not
    written again under its URL since. *)
Lemma web_loop_stores (with_nodes : bool) (source : string)
      (lib : Scrape.library) (lastmod_map : gmap string (option string))
      (clock : nat -> string) (pages : list Fetch.result) (db : Db.conn)
      (s : Scrape.state) :
  consistent db ->
  Scrape.run_loop (Scrape.web_step with_nodes source lib lastmod_map)
    clock 0 pages (db, Scrape.zero) = inr s ->
  consistent s.1
  /\ forall pre r post html,
      pages = pre ++ r :: post -> web_written lib r html ->
      (forall r', r' ∈ post -> titled lib r' = true ->
                  Fetch.url r' <> Fetch.url r) ->
      exists p srows erows,
        stored_under s.1 (Fetch.url r) p srows erows
        /\ written_as
             (Scrape.page_values_of source lib lastmod_map (Fetch.url r)
                (extracted_of lib html))
             (clock (length pre))
             (Html.e_sections (extracted_of lib html))
             (Html.e_code_examples (extracted_of lib html))
             p srows erows
        /\ links_within srows erows.
Proof.
  intros Hdb.
  apply (run_loop_fold
           (fun seen s =>
              consistent s.1
              /\ forall pre r post html,
                  seen = pre ++ r :: post -> web_written lib r html ->
                  (forall r', r' ∈ post -> titled lib r' = true ->
                              Fetch.url r' <> Fetch.url r) ->
                  exists p srows erows,
                    stored_under s.1 (Fetch.url r) p srows erows
                    /\ written_as
                         (Scrape.page_values_of source lib lastmod_map
                            (Fetch.url r) (extracted_of lib html))
                         (clock (length pre))
                         (Html.e_sections (extracted_of lib html))
                         (Html.e_code_examples (extracted_of lib html))
                         p srows erows
                    /\ links_within srows erows)).
  - intros seen x s0 s1 [Hc IH] Hstep. split.
    { by apply (web_step_keeps consistent with_nodes source lib lastmod_map
                  (clock (length seen)) s0 x s1 consistent_kept). }
    intros pre r post html Hsplit Hr Hlater.
    destruct post as [|y post _] using rev_ind.
    + apply app_inj_tail in Hsplit as [-> ->].
      rewrite (web_step_block _ _ _ _ _ _ _ html Hr) in Hstep.
      injection Hstep as <-.
      by apply (block_stores _
                  (Scrape.page_values_of source lib lastmod_map
                     (Fetch.url r) (extracted_of lib html))).
    + rewrite app_comm_cons, (assoc_L (++)) in Hsplit.
      apply app_inj_tail in Hsplit as [-> ->].
      destruct (IH pre r post html eq_refl Hr) as (p & srows & erows & Hst
                                                   & Hw & Hl).
      { intros r' Hr'. apply Hlater. rewrite elem_of_app. by left. }
      exists p, srows, erows. split_and!; [|done..].
      destruct (titled lib y) eqn:Hy.
      * destruct (titled_written lib y Hy) as [html' Hy'].
        rewrite (web_step_block _ _ _ _ _ _ _ html' Hy') in Hstep.
        injection Hstep as <-.
        apply (block_keeps_other _
                 (Scrape.page_values_of source lib lastmod_map
                    (Fetch.url y) (extracted_of lib html'))); [done..|].
        apply Hlater; [|done]. rewrite elem_of_app. right. left.
      * by rewrite (web_step_skips _ _ _ _ _ _ _ _ Hy Hstep).
  - split; [done|]. intros pre r post html Hnil. by destruct pre.
Qed.

Lemma dedup_first_fresh (l : list string) : forall seen,
  NoDup (Scrape.dedup_first seen l)
  /\ forall u, u ∈ Scrape.dedup_first seen l -> u ∉ seen.
Proof.
  induction l as [|u l IH]; intros seen; cbn [Scrape.dedup_first].
  - split; [constructor|]. by intros u ?%elem_of_nil.
  - case_bool_decide as Hseen; [apply IH|].
    destruct (IH (u :: seen)) as [Hnd Hfresh]. split.
    + constructor; [|done]. intros Hu%Hfresh. apply Hu. left.
    + intros x [->|Hx%Hfresh]%elem_of_cons; [done|].
      intros Hin. apply Hx. by right.
Qed.

Lemma fetch_pages_urls (net : nat -> nat -> Fetch.outcome)
      (urls : list string) :
  Fetch.url <$> Fetch.fetch_pages net urls = urls.
Proof.
  apply list_eq. intros i. rewrite list_lookup_fmap, fetch_pages_lookup.
  destruct (urls !! i) as [u|]; [|done]. cbn. f_equal.
  apply (attempts_sound (net i) u Fetch.MAX_RETRIES 0).
Qed.

(** X17. After a run of the framework scraper or the node-docs scraper
    on a consistent database, a page that was fetched and has a title is
    read back by the lookups of db.py as the run extracted it, with the
    time of its write and the sitemap's date: the page row by its URL,
    its sections and its code examples in order, each code example
    linked to the first section under the heading of its context. In
    the framework scraper this holds of a page whose URL no later
    written page shares; the node-docs scraper fetches each URL once. *)
Theorem web_reads_back (lib : Scrape.library)
        (net : nat -> nat -> Fetch.outcome) (clock : nat -> string)
        (entries : list Scrape.entry) (db : Db.conn) (s : Scrape.state)
        (i : nat) (r : Fetch.result) (html : string) :
  consistent db -> web_written lib r html ->
  (Scrape.scrape_framework lib net clock entries db = inr s ->
   Fetch.fetch_pages net (framework_urls entries) !! i = Some r ->
   (forall j r', (i < j)%nat ->
                 Fetch.fetch_pages net (framework_urls entries) !! j
                 = Some r' ->
                 titled lib r' = true -> Fetch.url r' <> Fetch.url r) ->
   reads_back s.1
     (Scrape.page_values_of Scrape.FRAMEWORK_SOURCE lib
        (Scrape.lastmod_map_of entries) (Fetch.url r) (extracted_of lib html))
     (clock i) (Html.e_sections (extracted_of lib html))
     (Html.e_code_examples (extracted_of lib html)))
  /\ (forall normalize_url,
         Scrape.scrape_nodes lib normalize_url net clock entries db = inr s ->
         Fetch.fetch_pages net (nodes_urls normalize_url entries) !! i
         = Some r ->
         reads_back s.1
           (Scrape.page_values_of Scrape.NODES_SOURCE lib
              (nodes_lastmod normalize_url entries) (Fetch.url r)
              (extracted_of lib html))
           (clock i) (Html.e_sections (extracted_of lib html))
           (Html.e_code_examples (extracted_of lib html))).
Proof.
  intros Hdb Hr.
  assert (Hread : forall with_nodes source lastmod_map pages,
    Scrape.run_loop (Scrape.web_step with_nodes source lib lastmod_map)
      clock 0 pages (db, Scrape.zero) = inr s ->
    pages !! i = Some r ->
    (forall j r', (i < j)%nat -> pages !! j = Some r' ->
                  titled lib r' = true -> Fetch.url r' <> Fetch.url r) ->
    reads_back s.1
      (Scrape.page_values_of source lib lastmod_map (Fetch.url r)
         (extracted_of lib html))
      (clock i) (Html.e_sections (extracted_of lib html))
      (Html.e_code_examples (extracted_of lib html))).
  { intros with_nodes source lastmod_map pages Hrun Hi Hlater.
    destruct (web_loop_stores _ _ _ _ _ _ _ _ Hdb Hrun) as [Hc Hall].
    pose proof (take_drop_middle pages i r Hi) as Hsplit.
    destruct (Hall (take i pages) r (drop (S i) pages) html)
      as (p & srows & erows & Hst & Hw & Hl); [done..| |].
    { intros r' (j & Hj)%list_elem_of_lookup_1. rewrite lookup_drop in Hj.
      apply (Hlater (S i + j)%nat); [lia|done]. }
    rewrite length_take_le in Hw
      by (apply Nat.lt_le_incl; by eapply lookup_lt_Some).
    destruct (stored_reads_back s.1
                (Scrape.page_values_of source lib lastmod_map (Fetch.url r)
                   (extracted_of lib html))
                _ _ _ p srows erows Hc Hst Hw)
      as (Hget & Hsecs & Hexs).
    exists p. cbn [Scrape.page_values_of Db.v_url]. by rewrite Hsecs, Hexs. }
  split.
  - intros Hrun Hi Hlater. by eapply Hread.
  - intros normalize_url Hrun Hi. eapply Hread; [exact Hrun|exact Hi|].
    intros j r' Hij Hj _ Heq. unfold nodes_urls in *.
    pose proof (fetch_pages_urls net (nodes_urls normalize_url entries))
      as Hurls.
    unfold nodes_urls in Hurls.
    apply (f_equal (fun l => l !! i)) in Hurls as Hui.
    apply (f_equal (fun l => l !! j)) in Hurls as Huj.
    cbn beta in Hui, Huj.
    rewrite list_lookup_fmap, Hi in Hui.
    rewrite list_lookup_fmap, Hj in Huj.
    cbn [fmap option_fmap option_map] in Hui, Huj. rewrite Heq in Huj.
    symmetry in Hui, Huj.
    destruct (dedup_first_fresh
                (normalize_url
                   <$> filter (fun u => Scrape.should_skip
                                          Scrape.NODES_SKIP_PATTERNS u
                                        = false) (fst <$> entries)) [])
      as [Hnd _].
    pose proof (NoDup_lookup _ _ _ _ Hnd Hui Huj). lia.
Qed.

Lemma web_reads_back_witness :
  reads_back web_once.1
    (Scrape.page_values_of Scrape.NODES_SOURCE agents_library
       (nodes_lastmod id two_entries)
       "https://docs.griptapenodes.com/en/stable/nodes/image/load_image/"
       (extracted_of agents_library "<html>"))
    "2024-05-01 10:00:00"
    (Html.e_sections (extracted_of agents_library "<html>"))
    (Html.e_code_examples (extracted_of agents_library "<html>")).
Proof.
  refine (proj2 (web_reads_back agents_library net_first_only
                   (fun _ => "2024-05-01 10:00:00") two_entries Db.empty
                   web_once 0
                   {| Fetch.url :=
                        "https://docs.griptapenodes.com/en/stable/nodes/image/load_image/";
                      Fetch.html := Some "<html>"; Fetch.error := None |}
                   "<html>" _ _) id _ _).
  - split; [repeat split; constructor|].
    split_and!; [done|intros ? []%elem_of_nil..|intros ?? []%elem_of_nil].
  - split_and!; reflexivity.
  - vm_compute. reflexivity.
  - reflexivity.
Defined.

(** ** A page that is scraped again, and its node *)

Lemma kept_by_statements_steps (I : Db.conn -> Prop) :
  kept_by_statements I -> kept_by_steps (fun s => I s.1).
Proof.
  intros (H1 & H2 & H3 & H4). unfold kept_by_steps. cbn [fst].
  split_and!; eauto.
Qed.

Lemma filter_fmap_comm {A} (P : A -> Prop) `{!forall x, Decision (P x)}
      (f : A -> A) (l : list A) :
  (forall x, P (f x) <-> P x) -> filter P (f <$> l) = f <$> filter P l.
Proof.
  intros HP. induction l as [|a l IH]; [done|].
  rewrite fmap_cons, !filter_cons, IH.
  destruct (decide (P (f a))) as [H1|H1], (decide (P a)) as [H2|H2];
    [done| | |done].
  - destruct H2. by apply HP.
  - destruct H1. by apply HP.
Qed.

Lemma head_fmap {A B} (f : A -> B) (l : list A) :
  head (f <$> l) = f <$> head l.
Proof. by destruct l. Qed.

(** Once the first node of a name has no page link, it stays the first
    of that name, without a link, whatever is written. *)
Lemma first_unlinked_kept (name : string) (n : Db.node_row) :
  kept_by_statements (first_named name (unlinked n)).
Proof.
  unfold kept_by_statements, first_named. split_and!.
  - intros now v c Hc. unfold Db.insert_or_replace_page.
    cbn [fst Db.nodes Db.replace_delete].
    destruct (Db.foreign_keys c); [|done].
    rewrite filter_fmap_comm by done. by rewrite head_fmap, Hc.
  - intros pid s c c' Hc. unfold Db.insert_section.
    destruct (_ && _); [done|]. by intros [= <-].
  - intros pid sid e c c' Hc. unfold Db.insert_code_example.
    destruct (_ && _); [done|]. by intros [= <-].
  - intros nm dn cat desc pid c c' Hc. unfold Db.insert_node.
    destruct (_ && _); [done|]. intros [= <-]. cbn [Db.nodes].
    rewrite filter_app.
    by destruct (filter _ (Db.nodes c)).
Qed.

Lemma block_unlinks (now : string) (v : Db.page_values)
      (secs : list section) (exs : list code_example)
      (info : option Scrape.node_info) (content_text : string)
      (s : Scrape.state) (name : string) (n : Db.node_row)
      (p : Db.page_row) :
  Db.foreign_keys s.1 = true ->
  Query.get_page_by_url s.1 (Db.v_url v) = Some p ->
  first_named name n s.1 -> Db.node_page_id n = Some (Db.page_id p) ->
  first_named name (unlinked n)
    (Scrape.catch
       (Scrape.write_page now v secs exs
          ≫= fun pid => Scrape.write_node info content_text pid) s).1.
Proof.
  intros Hfk Hp Hn Hlink. rewrite page_block_unfold.
  pose proof (kept_by_statements_steps _ (first_unlinked_kept name n)) as HJ.
  apply (preserves_bind (fun s => first_named name (unlinked n) s.1));
    [by apply write_children_counted|intros _; by apply write_node_counted|].
  cbn [fst]. unfold first_named in *. unfold Db.insert_or_replace_page.
  cbn [fst Db.nodes Db.replace_delete]. rewrite Hfk.
  rewrite filter_fmap_comm by done. rewrite head_fmap, Hn. cbn.
  unfold unlinked. rewrite Hlink. rewrite bool_decide_true; [done|].
  apply list_elem_of_fmap_2. unfold Query.get_page_by_url in Hp.
  destruct (filter _ (Db.pages s.1)) as [|q l] eqn:Hf; [done|].
  injection Hp as ->. rewrite <- Hf. rewrite Hf. left.
Qed.

Lemma first_named_lookup (name : string) (n : Db.node_row) (c : Db.conn) :
  first_named name n c <->
  exists d, Query.get_node_by_name c name = (Some d, [Query.Exact])
            /\ Query.nd_node d = n.
Proof.
  unfold first_named, Query.get_node_by_name, Query.select_one. split.
  - intros ->. eexists. split; [reflexivity|done].
  - intros (d & Hd & <-).
    destruct (head (filter _ (Db.nodes c))) as [n0|]; cbn in Hd.
    + by injection Hd as <-.
    + repeat case_match; simplify_eq.
Qed.

(** X18. When a node scraper writes a page anew that a node is linked
    to, the node that [get_node_by_name] finds first under a name stays
    the one it was and loses its link: the lookup by that name returns
    the old row without URL and content from then on, whatever row the
    scraper adds for the node. This holds of a step of the GitHub
    scraper and of the node-docs scraper, with foreign keys on. *)
Theorem rescrape_unlinks_node (now : string) (s s' : Scrape.state)
        (name : string) (d : Query.node_detail) (p : Db.page_row)
        (u : string) :
  Db.foreign_keys s.1 = true ->
  Query.get_page_by_url s.1 u = Some p ->
  Query.get_node_by_name s.1 name = (Some d, [Query.Exact]) ->
  Db.node_page_id (Query.nd_node d) = Some (Db.page_id p) ->
  ((exists r md,
       fetched r md /\ Scrape.path_to_docs_url (Scrape.g_path r) = u
       /\ Scrape.github_step now s r = inr s')
   \/ (exists lib lastmod_map r html,
          web_written lib r html /\ Fetch.url r = u
          /\ Scrape.web_step true Scrape.NODES_SOURCE lib lastmod_map now s r
             = inr s')) ->
  Query.get_node_by_name s'.1 name
  = (Some {| Query.nd_node := unlinked (Query.nd_node d);
             Query.nd_url := None; Query.nd_content := None |},
     [Query.Exact]).
Proof.
  intros Hfk Hp Hd Hlink Hstep.
  assert (first_named name (Query.nd_node d) s.1) as Hn
    by (apply first_named_lookup; by exists d).
  assert (first_named name (unlinked (Query.nd_node d)) s'.1) as Hn'.
  { destruct Hstep as [(r & md & Hr & <- & Hstep)
                      |(lib & lastmod_map & r & html & Hr & <- & Hstep)].
    - rewrite (github_step_block _ _ _ md Hr) in Hstep.
      injection Hstep as <-.
      by apply (block_unlinks _ (github_values r md)) with p.
    - rewrite (web_step_block _ _ _ _ _ _ _ html Hr) in Hstep.
      injection Hstep as <-.
      by apply (block_unlinks _
                  (Scrape.page_values_of Scrape.NODES_SOURCE lib lastmod_map
                     (Fetch.url r) (extracted_of lib html))) with p. }
  unfold first_named in Hn'.
  unfold Query.get_node_by_name, Query.select_one. by rewrite Hn'.
Qed.

Lemma rescrape_unlinks_node_witness :
  Query.get_node_by_name github_twice.1 "Title"
  = (Some {| Query.nd_node :=
               unlinked
                 {| Db.node_id := 1; Db.node_name := "Title";
                    Db.node_display_name := "Title";
                    Db.node_category := "Image";
                    Db.node_description := Some md_example;
                    Db.node_page_id := Some 1 |};
             Query.nd_url := None; Query.nd_content := None |},
     [Query.Exact]).
Proof.
  apply (rescrape_unlinks_node "2024-05-02 10:00:00"
           (github_once.1, Scrape.zero) github_twice "Title"
           {| Query.nd_node :=
                {| Db.node_id := 1; Db.node_name := "Title";
                   Db.node_display_name := "Title";
                   Db.node_category := "Image";
                   Db.node_description := Some md_example;
                   Db.node_page_id := Some 1 |};
              Query.nd_url :=
                Some "https://docs.griptapenodes.com/en/stable/nodes/image/load_image/";
              Query.nd_content := Some md_example |}
           {| Db.page_id := 1;
              Db.page_url :=
                "https://docs.griptapenodes.com/en/stable/nodes/image/load_image/";
              Db.page_source := "nodes"; Db.page_title := "Title";
              Db.page_content := md_example; Db.page_content_html := "";
              Db.page_breadcrumbs := "[]"; Db.page_last_modified := None;
              Db.page_crawled_at := "2024-05-01 10:00:00" |}
           "https://docs.griptapenodes.com/en/stable/nodes/image/load_image/").
  - reflexivity.
  - vm_compute. reflexivity.
  - vm_compute. reflexivity.
  - reflexivity.
  - left. exists node_file, md_example. split_and!.
    + split; reflexivity.
    + vm_compute. reflexivity.
    + vm_compute. reflexivity.
Defined.

(** ** Where the pages of a run come from *)

Lemma upsert_pages (now : string) (v : Db.page_values) (c : Db.conn)
      (p : Db.page_row) :
  p ∈ Db.pages (Db.insert_or_replace_page now v c).1 ->
  p ∈ Db.pages c
  \/ (Db.page_source p = Db.v_source v /\ Db.page_url p = Db.v_url v).
Proof.
  unfold Db.insert_or_replace_page. cbn [fst Db.pages Db.replace_delete].
  intros [[_ Hp]%list_elem_of_filter|Hp%list_elem_of_singleton]%elem_of_app;
    [by left|].
  right. by subst p.
Qed.

Lemma web_step_pages (with_nodes : bool) (source : string)
      (lib : Scrape.library) (lastmod_map : gmap string (option string))
      (now : string) (s : Scrape.state) (r : Fetch.result)
      (s' : Scrape.state) (p : Db.page_row) :
  Scrape.web_step with_nodes source lib lastmod_map now s r = inr s' ->
  p ∈ Db.pages s'.1 ->
  p ∈ Db.pages s.1
  \/ (Db.page_source p = source /\ Db.page_url p = Fetch.url r).
Proof.
  intros Hstep. destruct (titled lib r) eqn:Hr.
  - destruct (titled_written lib r Hr) as [html Hw].
    rewrite (web_step_block _ _ _ _ _ _ _ html Hw) in Hstep.
    injection Hstep as <-. revert p.
    apply (page_block_frame
             (fun pages _ _ =>
                forall p, p ∈ pages ->
                          p ∈ Db.pages s.1
                          \/ (Db.page_source p = source
                              /\ Db.page_url p = Fetch.url r))).
    + intros pid.
      apply (write_node_frame
               (fun pages _ _ =>
                  forall p, p ∈ pages ->
                            p ∈ Db.pages s.1
                            \/ (Db.page_source p = source
                                /\ Db.page_url p = Fetch.url r))).
    + intros p Hp. by apply upsert_pages in Hp.
  - rewrite (web_step_skips _ _ _ _ _ _ _ _ Hr Hstep). by left.
Qed.

Lemma web_loop_pages (with_nodes : bool) (source : string)
      (lib : Scrape.library) (lastmod_map : gmap string (option string))
      (clock : nat -> string) (pages : list Fetch.result) (db : Db.conn)
      (s : Scrape.state) (p : Db.page_row) :
  Scrape.run_loop (Scrape.web_step with_nodes source lib lastmod_map)
    clock 0 pages (db, Scrape.zero) = inr s ->
  p ∈ Db.pages s.1 ->
  p ∈ Db.pages db
  \/ (Db.page_source p = source /\ Db.page_url p ∈ Fetch.url <$> pages).
Proof.
  intros Hrun. revert p. revert Hrun.
  apply (run_loop_fold
           (fun seen s =>
              forall p, p ∈ Db.pages s.1 ->
                        p ∈ Db.pages db
                        \/ (Db.page_source p = source
                            /\ Db.page_url p ∈ Fetch.url <$> seen)));
    [|by left].
  intros seen x s0 s1 IH Hstep p Hp.
  destruct (web_step_pages _ _ _ _ _ _ _ _ _ Hstep Hp) as [Hold|[Hs Hu]].
  - destruct (IH p Hold) as [?|[? Hin]]; [by left|right].
    split; [done|]. rewrite fmap_app, elem_of_app. by left.
  - right. split; [done|]. rewrite fmap_app, elem_of_app. right.
    rewrite Hu. left.
Qed.

Lemma dedup_first_subseteq (l : list string) : forall seen u,
  u ∈ Scrape.dedup_first seen l -> u ∈ l.
Proof.
  induction l as [|x l IH]; intros seen u; cbn [Scrape.dedup_first];
    [done|].
  case_bool_decide.
  - intros Hu%IH. by right.
  - intros [->|Hu%IH]%elem_of_cons; [left|by right].
Qed.

(** X19. The page rows a run of a web scraper leaves are those that
    were there before and rows for URLs of the sitemap that the skip
    patterns let through: with the source "framework" in the framework
    scraper; in the node-docs scraper with the source "nodes" and the
    URLs normalised. No run writes a page of a skipped URL or of a URL
    that the sitemap does not list. *)
Theorem pages_come_from_sitemap (lib : Scrape.library)
        (net : nat -> nat -> Fetch.outcome) (clock : nat -> string)
        (entries : list Scrape.entry) (db : Db.conn) (s : Scrape.state)
        (p : Db.page_row) :
  p ∈ Db.pages s.1 ->
  (Scrape.scrape_framework lib net clock entries db = inr s ->
   p ∈ Db.pages db
   \/ (Db.page_source p = "framework"
       /\ Db.page_url p ∈ fst <$> entries
       /\ Scrape.should_skip Scrape.FRAMEWORK_SKIP_PATTERNS (Db.page_url p)
          = false))
  /\ (forall normalize_url,
         Scrape.scrape_nodes lib normalize_url net clock entries db = inr s ->
         p ∈ Db.pages db
         \/ (Db.page_source p = "nodes"
             /\ exists u, u ∈ fst <$> entries
                          /\ Scrape.should_skip Scrape.NODES_SKIP_PATTERNS u
                             = false
                          /\ Db.page_url p = normalize_url u)).
Proof.
  intros Hp. split.
  - unfold Scrape.scrape_framework. intros Hrun.
    destruct (web_loop_pages _ _ _ _ _ _ _ _ p Hrun Hp) as [?|[Hs Hu]];
      [by left|right].
    rewrite fetch_pages_urls in Hu.
    apply list_elem_of_filter in Hu as [Hskip Hin]. done.
  - intros normalize_url. unfold Scrape.scrape_nodes. intros Hrun.
    destruct (web_loop_pages _ _ _ _ _ _ _ _ p Hrun Hp) as [?|[Hs Hu]];
      [by left|right].
    rewrite fetch_pages_urls in Hu. apply dedup_first_subseteq in Hu.
    apply list_elem_of_fmap in Hu as (u & Hpu & [Hskip Hin]%list_elem_of_filter).
    split; [done|]. by exists u.
Qed.

Lemma pages_come_from_sitemap_witness :
  web_once_page ∈ Db.pages Db.empty
  \/ (Db.page_source web_once_page = "nodes"
      /\ exists u, u ∈ fst <$> two_entries
                   /\ Scrape.should_skip Scrape.NODES_SKIP_PATTERNS u = false
                   /\ Db.page_url web_once_page = id u).
Proof.
  refine (proj2 (pages_come_from_sitemap agents_library net_first_only
                   (fun _ => "2024-05-01 10:00:00") two_entries Db.empty
                   web_once web_once_page _) id _).
  - vm_compute. left.
  - vm_compute. reflexivity.
Defined.

(** ** The sitemap *)

Lemma sitemap_attempts_retry (net : nat -> Fetch.outcome) (a rem : nat)
      (r : Fetch.response) :
  net a = Fetch.Returns r -> Fetch.status_code r = 429 ->
  Sitemap.attempts net a (S (S rem))
  = ((Sitemap.attempts net (S a) (S rem)).1,
     Fetch.Get (Z.of_nat a) :: Fetch.Sleep (10 * (Z.of_nat a + 1))
       :: (Sitemap.attempts net (S a) (S rem)).2).
Proof.
  intros Hr H429. remember (S rem) as n eqn:Hn.
  cbn [Sitemap.attempts]. rewrite Hr, H429, Z.eqb_refl. subst n.
  by destruct (Sitemap.attempts net (S a) (S rem)).
Qed.

Lemma sitemap_attempts_retries (net : nat -> Fetch.outcome) (k : nat) :
  forall a rem : nat,
  (forall j, (j < k)%nat -> is_429 (net (a + j)%nat)) ->
  Sitemap.attempts net a (k + S rem)%nat
  = ((Sitemap.attempts net (a + k)%nat (S rem)).1,
     retries a k ++ (Sitemap.attempts net (a + k)%nat (S rem)).2).
Proof.
  induction k as [|k IH]; intros a rem H.
  - rewrite Nat.add_0_r. cbn [Nat.add retries app].
    by destruct (Sitemap.attempts net a (S rem)).
  - destruct (H 0%nat) as (r & Hr & H429); [lia|].
    rewrite Nat.add_0_r in Hr.
    replace (S k + S rem)%nat with (S (S (k + rem))) by lia.
    rewrite (sitemap_attempts_retry _ _ _ r Hr H429).
    replace (S (k + rem)) with (k + S rem)%nat by lia.
    rewrite IH.
    + replace (S a + k)%nat with (a + S k)%nat by lia. done.
    + intros j Hj. replace (S a + j)%nat with (a + S j)%nat by lia.
      apply H. lia.
Qed.

(** X20. [fetch_sitemap] returns entries only for a response that is a
    success: after [k] < 5 responses 429, with their waits of 10, 20, ...
    seconds, it parses that response, with no wait after it; a response
    of another failing status and an exception of the request are
    raised at once, not returned; and after five 429, and the wait of
    50 seconds after the last, it raises for the status 429. *)
Theorem fetch_sitemap_retries
        (parse_xml : string -> option (list Sitemap.url_elem))
        (net : nat -> Fetch.outcome) :
  (forall k, (k < Fetch.MAX_RETRIES)%nat ->
     (forall j, (j < k)%nat -> is_429 (net j)) ->
     (forall r, net k = Fetch.Returns r ->
                Fetch.is_success (Fetch.status_code r) = true ->
                Sitemap.fetch_sitemap parse_xml net
                = (match parse_xml (Fetch.text r) with
                   | Some elems => Sitemap.Entries (Sitemap.entries_of elems)
                   | None => Sitemap.ParseError
                   end, retries 0 k ++ [Fetch.Get (Z.of_nat k)]))
     /\ (forall r, net k = Fetch.Returns r ->
                   Fetch.status_code r <> 429 ->
                   Fetch.is_success (Fetch.status_code r) = false ->
                   Sitemap.fetch_sitemap parse_xml net
                   = (Sitemap.Raised
                        (Fetch.HTTPStatusError (Fetch.status_code r)
                           (Fetch.status_error r)),
                      retries 0 k ++ [Fetch.Get (Z.of_nat k)]))
     /\ (forall e, net k = Fetch.Raises e ->
                   Sitemap.fetch_sitemap parse_xml net
                   = (Sitemap.Raised e,
                      retries 0 k ++ [Fetch.Get (Z.of_nat k)])))
  /\ ((forall j, (j < Fetch.MAX_RETRIES)%nat -> is_429 (net j)) ->
      exists msg,
        Sitemap.fetch_sitemap parse_xml net
        = (Sitemap.Raised (Fetch.HTTPStatusError 429 msg),
           retries 0 Fetch.MAX_RETRIES)).
Proof.
  split.
  - intros k Hk H429. unfold Sitemap.fetch_sitemap.
    replace Fetch.MAX_RETRIES with (k + S (Fetch.MAX_RETRIES - S k))%nat
      by (unfold Fetch.MAX_RETRIES in *; lia).
    rewrite sitemap_attempts_retries by exact H429.
    cbn [Nat.add Sitemap.attempts]. split_and!.
    + intros r Hr Hok. rewrite Hr.
      assert ((Fetch.status_code r =? 429) = false) as ->.
      { apply Z.eqb_neq. intros E. rewrite E in Hok. discriminate. }
      rewrite Hok. cbn [fst snd]. by destruct (parse_xml (Fetch.text r)).
    + intros r Hr Hno Hfail. rewrite Hr.
      apply Z.eqb_neq in Hno. by rewrite Hno, Hfail.
    + intros e Hr. by rewrite Hr.
  - intros H429. unfold Sitemap.fetch_sitemap.
    change Fetch.MAX_RETRIES with (4 + 1)%nat at 1.
    rewrite sitemap_attempts_retries
      by (intros j Hj; apply H429; unfold Fetch.MAX_RETRIES; lia).
    destruct (H429 4%nat) as (r & Hr & Hst);
      [unfold Fetch.MAX_RETRIES; lia|].
    cbn [Nat.add Sitemap.attempts]. rewrite Hr, Hst. cbn [Z.eqb Pos.eqb].
    exists (Fetch.status_error r). done.
Qed.

Lemma fetch_sitemap_retries_witness :
  Sitemap.fetch_sitemap (fun _ => Some two_urls) net_429_then_sitemap
  = (Sitemap.Entries
       [("https://docs.griptape.ai/stable/a/", Some "2024-04-30");
        ("https://docs.griptape.ai/stable/b/", None)],
     [Fetch.Get 0; Fetch.Sleep 10; Fetch.Get 1]).
Proof.
  refine (proj1 (proj1 (fetch_sitemap_retries (fun _ => Some two_urls)
                          net_429_then_sitemap) 1%nat _ _) _ eq_refl _).
  - unfold Fetch.MAX_RETRIES. lia.
  - intros j Hj. destruct j as [|j]; [|lia]. eexists. split; reflexivity.
  - reflexivity.
Defined.

(** ** search_pages *)

(** X21. [search_pages] gives the empty list when the full-text engine
    refuses the query, no more rows than a limit that is not negative,
    and only rows of pages that are stored now, of the source asked for
    unless that is "all": an entry that a replaced page left in the
    index never shows. *)
Theorem search_pages_sound
        (fts5 : string -> list Db.fts_doc -> option (list Z))
        (snippet : string -> Db.page_row -> string) (c : Db.conn)
        (query source : string) (limit : Z) :
  (fts5 query (Db.pages_fts c) = None ->
   Query.search_pages fts5 snippet c query source limit = [])
  /\ (0 <= limit ->
      (length (Query.search_pages fts5 snippet c query source limit)
       <= Z.to_nat limit)%nat)
  /\ (forall h,
         h ∈ Query.search_pages fts5 snippet c query source limit ->
         exists p hits,
           p ∈ Db.pages c
           /\ fts5 query (Db.pages_fts c) = Some hits
           /\ Db.page_id p ∈ hits
           /\ Query.ph_id h = Db.page_id p /\ Query.ph_url h = Db.page_url p
           /\ Query.ph_title h = Db.page_title p
           /\ Query.ph_source h = Db.page_source p
           /\ (source = "all" \/ Db.page_source p = source)).
Proof.
  unfold Query.search_pages. split_and!.
  - by intros ->.
  - intros Hlimit. destruct (fts5 query (Db.pages_fts c)); [|cbn; lia].
    rewrite length_fmap. by apply sql_limit_length.
  - intros h. destruct (fts5 query (Db.pages_fts c)) as [hits|];
      [|by intros ?%elem_of_nil].
    intros (p & -> & Hp)%list_elem_of_fmap.
    pose proof (elem_of_sublist _ _ _ Hp (sql_limit_sublist _ _)) as Hin.
    apply list_elem_of_bind in Hin as (rowid & Hin & Hrow).
    apply list_elem_of_bind in Hin as (q & Hq & [Hid Hqin]%list_elem_of_filter).
    destruct (bool_decide (source = "all")
              || bool_decide (Db.page_source q = source)) eqn:Hsrc;
      [|by apply elem_of_nil in Hq].
    apply list_elem_of_singleton in Hq as ->.
    exists q, hits. cbn. split_and!; [done|done|by rewrite Hid|done..|].
    apply orb_true_iff in Hsrc as [?%bool_decide_eq_true|?%bool_decide_eq_true];
      auto.
Qed.

Lemma search_pages_sound_witness :
  (length (Query.search_pages fts5_by_substring (fun _ _ => "")
             agents_store "agent" "framework" 1) <= Z.to_nat 1)%nat.
Proof.
  apply (proj1 (proj2 (search_pages_sound fts5_by_substring (fun _ _ => "")
                         agents_store "agent" "framework" 1))).
  lia.
Defined.

(** ** No insert fails *)

Lemma triple_eq (a b c a' b' c' : Z) :
  a = a' -> b = b' -> c = c' -> (a, b, c) = (a', b', c').
Proof. by intros -> -> ->. Qed.

Lemma upsert_has_page (now : string) (v : Db.page_values) (c : Db.conn) :
  Db.has_page (Db.insert_or_replace_page now v c).1
              (Db.insert_or_replace_page now v c).2 = true.
Proof.
  unfold Db.insert_or_replace_page, Db.has_page. cbn [fst snd Db.pages].
  apply bool_decide_eq_true. rewrite fmap_app, elem_of_app. right. left.
Qed.

(** The inserts of the children of a page row that is there raise no
    error, with or without foreign keys, and each is counted. *)
Lemma write_children_counts (pid : Z) (secs : list section)
      (exs : list code_example) (a b n : Z) :
  succeeds
    (fun s => Db.has_page s.1 pid = true /\ counted s = (a, b, n))
    (Scrape.write_children pid secs exs)
    (fun _ s =>
       Db.has_page s.1 pid = true
       /\ counted s
          = (a + Z.of_nat (length secs), b + Z.of_nat (length exs), n)).
Proof.
  unfold Scrape.write_children.
  apply succeeds_bind
    with (Q := fun _ s =>
                 Db.has_page s.1 pid = true
                 /\ counted s = (a + Z.of_nat (length secs), b, n)).
  - eapply succeeds_weaken.
    + apply (succeeds_for_each_fold
               (fun seen s =>
                  Db.has_page s.1 pid = true
                  /\ counted s = (a + Z.of_nat (length seen), b, n)))
        with (seen := []).
      intros seen sec [c st] [Hhas Hcount].
      unfold counted in *. cbn [fst snd] in *.
      unfold mbind, Scrape.try_bind, Scrape.execute, Scrape.count,
        Db.insert_section.
      cbn [fst snd]. rewrite Hhas, andb_false_r. cbn [fst snd].
      exists tt. split; [done|]. split; [done|].
      injection Hcount as H1 H2 H3. cbn [Scrape.count_section
        Scrape.n_sections Scrape.n_code_examples Scrape.n_nodes].
      rewrite length_app. cbn [length]. apply triple_eq; lia.
    + intros s [Hhas Hcount]. split; [done|]. rewrite Hcount.
      cbn [length]. apply triple_eq; lia.
    + by intros ? s.
  - intros u. eapply succeeds_weaken.
    + apply (succeeds_for_each_fold
               (fun seen s =>
                  Db.has_page s.1 pid = true
                  /\ counted s = (a + Z.of_nat (length secs),
                                  b + Z.of_nat (length seen), n)))
        with (seen := []).
      intros seen ex [c st] [Hhas Hcount].
      unfold counted in *. cbn [fst snd] in *.
      set (sid := if Py.truthy (context ex)
                  then Db.find_section pid (context ex) c else None).
      assert (match sid with
              | Some i => Db.has_section c i
              | None => true
              end = true) as Hsid.
      { subst sid. destruct (Py.truthy (context ex)); [|done].
        destruct (Db.find_section pid (context ex) c) eqn:Hfind; [|done].
        by eapply find_section_has. }
      assert (((if Py.truthy (context ex)
                then Scrape.query (Db.find_section pid (context ex))
                else Scrape.ret None) : Scrape.try_block (option Z)) (c, st)
              = ((c, st), Db.Ok sid)) as Hq.
      { subst sid. by destruct (Py.truthy (context ex)). }
      unfold mbind, Scrape.try_bind. rewrite Hq.
      unfold Scrape.execute, Scrape.count, Db.insert_code_example.
      cbn [fst snd]. rewrite Hhas, Hsid. cbn [negb andb].
      rewrite andb_false_r. cbn [fst snd].
      exists tt. split; [done|]. split; [done|].
      injection Hcount as H1 H2 H3. cbn [Scrape.count_example
        Scrape.n_sections Scrape.n_code_examples Scrape.n_nodes].
      rewrite length_app. cbn [length]. apply triple_eq; lia.
    + intros s [Hhas Hcount]. split; [done|]. rewrite Hcount.
      cbn [length]. apply triple_eq; lia.
    + by intros ? s.
Qed.

Lemma write_node_counts (info : option Scrape.node_info)
      (content_text : string) (pid : Z) (a b n : Z) :
  succeeds
    (fun s => Db.has_page s.1 pid = true /\ counted s = (a, b, n))
    (Scrape.write_node info content_text pid)
    (fun _ s =>
       counted s = (a, b, n + match info with Some _ => 1 | None => 0 end)).
Proof.
  intros [c st] [Hhas Hcount]. unfold counted in *. cbn [fst snd] in *.
  destruct info as [i|]; cbn [Scrape.write_node].
  - unfold mbind, Scrape.try_bind, Scrape.execute, Scrape.count,
      Db.insert_node.
    cbn [fst snd]. rewrite Hhas, andb_false_r. cbn [fst snd].
    exists tt. split; [done|]. injection Hcount as H1 H2 H3.
    cbn [Scrape.count_node Scrape.n_sections Scrape.n_code_examples
           Scrape.n_nodes].
    apply triple_eq; lia.
  - exists tt. split; [done|]. injection Hcount as H1 H2 H3.
    cbn [Scrape.ret mret Scrape.try_ret fst snd].
    apply triple_eq; lia.
Qed.

(** The block of a page raises no [IntegrityError]: every section and
    code example of the page, and its node, is written and counted. *)
Lemma block_counts (now : string) (v : Db.page_values)
      (secs : list section) (exs : list code_example)
      (info : option Scrape.node_info) (content_text : string)
      (s : Scrape.state) :
  let m := Scrape.write_page now v secs exs
             ≫= fun pid => Scrape.write_node info content_text pid in
  (m s).2 = Db.Ok tt
  /\ counted (Scrape.catch m s)
     = (Scrape.n_sections s.2 + Z.of_nat (length secs),
        Scrape.n_code_examples s.2 + Z.of_nat (length exs),
        Scrape.n_nodes s.2 + match info with Some _ => 1 | None => 0 end).
Proof.
  cbn zeta. unfold Scrape.catch.
  destruct (write_children_counts
              (Db.insert_or_replace_page now v s.1).2 secs exs
              (Scrape.n_sections s.2) (Scrape.n_code_examples s.2)
              (Scrape.n_nodes s.2)
              ((Db.insert_or_replace_page now v s.1).1,
               Scrape.count_page s.2))
    as ([] & Hok & Hhas & Hcount).
  { split; [apply upsert_has_page|done]. }
  unfold Scrape.write_page, Scrape.upsert_page, Scrape.count, Scrape.ret,
    mbind, mret, Scrape.try_bind, Scrape.try_ret.
  destruct (Db.insert_or_replace_page now v s.1) as [c1 pid].
  cbn [fst snd] in *.
  destruct (Scrape.write_children pid secs exs (c1, Scrape.count_page s.2))
    as [s2 r2]. cbn [fst snd] in *. subst r2.
  destruct (write_node_counts info content_text pid _ _ _ s2
              (conj Hhas Hcount)) as ([] & Hok2 & Hcount2).
  destruct (Scrape.write_node info content_text pid s2) as [s3 r3].
  cbn [fst snd] in *. by subst r3.
Qed.

Lemma total_snoc {A} (f : A -> Z) (l : list A) (x : A) :
  total (f <$> l ++ [x]) = total (f <$> l) + f x.
Proof.
  unfold total. induction l as [|y l IH]; cbn; [lia|].
  cbn in IH. rewrite IH. lia.
Qed.

(** X22. No insert of the scrapers fails: the block of a page raises no
    [IntegrityError] in any database, so that a run counts every
    section and every code example of every page it writes, and every
    node. For the GitHub scraper these are those of every file that was
    fetched, for the web scrapers those of every fetched page that has
    a title; the framework scraper counts no node. *)
Theorem children_all_counted (clock : nat -> string) (db : Db.conn)
        (s : Scrape.state) :
  (forall results,
      Scrape.scrape_github clock results db = inr s ->
      counted s = (total (file_sections <$> results),
                   total (file_examples <$> results),
                   total (file_nodes <$> results)))
  /\ (forall lib net entries,
         Scrape.scrape_framework lib net clock entries db = inr s ->
         let pages := Fetch.fetch_pages net (framework_urls entries) in
         counted s = (total (page_sections lib <$> pages),
                      total (page_examples lib <$> pages), 0))
  /\ (forall lib normalize_url net entries,
         Scrape.scrape_nodes lib normalize_url net clock entries db = inr s ->
         let pages :=
           Fetch.fetch_pages net (nodes_urls normalize_url entries) in
         counted s = (total (page_sections lib <$> pages),
                      total (page_examples lib <$> pages),
                      total (page_nodes lib <$> pages))).
Proof.
  assert (Hweb : forall with_nodes source lib lastmod_map pages,
    Scrape.run_loop (Scrape.web_step with_nodes source lib lastmod_map)
      clock 0 pages (db, Scrape.zero) = inr s ->
    counted s = (total (page_sections lib <$> pages),
                 total (page_examples lib <$> pages),
                 if with_nodes then total (page_nodes lib <$> pages) else 0)).
  { intros with_nodes source lib lastmod_map pages.
    apply (run_loop_fold
             (fun seen s =>
                counted s = (total (page_sections lib <$> seen),
                             total (page_examples lib <$> seen),
                             if with_nodes
                             then total (page_nodes lib <$> seen) else 0)));
      [|by destruct with_nodes].
    intros seen r s0 s1 Hs0 Hstep.
    rewrite !total_snoc.
    set (t1 := total (page_sections lib <$> seen)) in *.
    set (t2 := total (page_examples lib <$> seen)) in *.
    set (t3 := total (page_nodes lib <$> seen)) in *.
    unfold page_sections, page_examples, page_nodes, page_data.
    unfold counted in Hs0. injection Hs0 as H1 H2 H3.
    destruct (titled lib r) eqn:Hr.
    - destruct (titled_written lib r Hr) as [html Hw].
      rewrite (web_step_block _ _ _ _ _ _ _ html Hw) in Hstep.
      injection Hstep as <-. destruct Hw as (_ & -> & _).
      cbn [fmap option_fmap option_map].
      rewrite (proj2 (block_counts _ _ _ _ _ _ _)), H1, H2, H3.
      destruct with_nodes; apply triple_eq; lia.
    - pose proof (web_step_skips _ _ _ _ _ _ _ _ Hr Hstep) as Hdb.
      assert (counted s1 = counted s0) as ->.
      { revert Hstep. unfold Scrape.web_step, titled in *.
        destruct (Scrape.has_error (Fetch.error r)); [by intros [= <-]|].
        destruct (Fetch.html r); [|done]. cbn [negb andb] in Hr.
        rewrite Hr. by intros [= <-]. }
      unfold counted. rewrite H1, H2, H3.
      destruct with_nodes; apply triple_eq; lia. }
  split_and!.
  - intros results. unfold Scrape.scrape_github.
    apply (run_loop_fold
             (fun seen s =>
                counted s = (total (file_sections <$> seen),
                             total (file_examples <$> seen),
                             total (file_nodes <$> seen)))); [|done].
    intros seen r s0 s1 Hs0 Hstep.
    rewrite !total_snoc.
    set (t1 := total (file_sections <$> seen)) in *.
    set (t2 := total (file_examples <$> seen)) in *.
    set (t3 := total (file_nodes <$> seen)) in *.
    unfold file_sections, file_examples, file_nodes, file_data.
    unfold counted in Hs0. injection Hs0 as H1 H2 H3.
    destruct (Scrape.has_error (Scrape.g_error r)) eqn:Herr.
    + unfold Scrape.github_step in Hstep. rewrite Herr in Hstep.
      injection Hstep as <-. unfold counted. cbn [fst snd].
      destruct (Scrape.g_content r);
        cbn [Scrape.count_error Scrape.n_sections Scrape.n_code_examples
               Scrape.n_nodes];
        rewrite H1, H2, H3; apply triple_eq; lia.
    + destruct (Scrape.g_content r) as [md|] eqn:Hmd.
      2:{ unfold Scrape.github_step in Hstep.
          by rewrite Herr, Hmd in Hstep. }
      rewrite (github_step_block _ _ _ md) in Hstep by done.
      injection Hstep as <-. cbn [fmap option_fmap option_map].
      by rewrite (proj2 (block_counts _ _ _ _ _ _ _)), H1, H2, H3.
  - intros lib net entries Hrun.
    apply (Hweb false _ _ _ _ Hrun).
  - intros lib normalize_url net entries Hrun.
    apply (Hweb true _ _ _ _ Hrun).
Qed.

Lemma children_all_counted_witness :
  counted github_once
  = (total (file_sections <$> [node_file; faq_file]),
     total (file_examples <$> [node_file; faq_file]),
     total (file_nodes <$> [node_file; faq_file])).
Proof.
  apply (proj1 (children_all_counted (fun _ => "2024-05-01 10:00:00")
                  Db.empty github_once)).
  vm_compute. reflexivity.
Defined.

(** ** A node page that is scraped for the first time *)

Lemma write_children_nodes (P : list Db.page_row -> list Db.node_row -> Prop)
      (pid : Z) (secs : list section) (exs : list code_example) :
  preserves (fun s => P (Db.pages s.1) (Db.nodes s.1))
            (Scrape.write_children pid secs exs).
Proof.
  unfold Scrape.write_children.
  apply preserves_bind; [|intros _]; apply preserves_for_each.
  - intros sec. apply preserves_bind; [|intros _; by apply preserves_count].
    apply preserves_execute. intros c c' st HP. unfold Db.insert_section.
    destruct (_ && _); [done|]. by intros [= <-].
  - intros ex. apply preserves_bind; [|intros sid; apply preserves_bind;
                                       [|intros _; by apply preserves_count]].
    + destruct (Py.truthy (context ex));
        [apply preserves_query|apply preserves_ret].
    + apply preserves_execute. intros c c' st HP.
      unfold Db.insert_code_example. destruct (_ && _); [done|].
      by intros [= <-].
Qed.

Lemma filter_unique_key {A} (f : A -> Z) (l : list A) (x : A) :
  NoDup (f <$> l) -> x ∈ l -> filter (fun y => f y = f x) l = [x].
Proof.
  induction l as [|a l IH]; intros Hnd Hx; [by apply elem_of_nil in Hx|].
  rewrite fmap_cons in Hnd. apply NoDup_cons in Hnd as [Ha Hnd].
  rewrite filter_cons. apply elem_of_cons in Hx as [->|Hx].
  - rewrite decide_True by done. f_equal. apply filter_none.
    intros y Hy Hf. apply Ha. rewrite <- Hf. by apply list_elem_of_fmap_2.
  - rewrite decide_False; [by apply IH|].
    intros Hf. apply Ha. rewrite Hf. by apply list_elem_of_fmap_2.
Qed.

(** The block of a node page, in a store that has no node of its name:
    the node that the lookup by name finds is the new one, linked to
    the new page. *)
Lemma block_links_node (now : string) (v : Db.page_values)
      (secs : list section) (exs : list code_example)
      (info : Scrape.node_info) (content_text : string) (s : Scrape.state) :
  consistent s.1 ->
  (forall n, n ∈ Db.nodes s.1 ->
             Query.exact_match (Scrape.ni_name info) n = false) ->
  let c' :=
    (Scrape.catch
       (Scrape.write_page now v secs exs
          ≫= fun pid => Scrape.write_node (Some info) content_text pid)
       s).1 in
  exists d,
    Query.get_node_by_name c' (Scrape.ni_name info) = (Some d, [Query.Exact])
    /\ Query.nd_url d = Some (Db.v_url v)
    /\ Query.nd_content d = Some (Db.v_content v)
    /\ Db.node_name (Query.nd_node d) = Scrape.ni_name info
    /\ Db.node_category (Query.nd_node d) = Scrape.ni_category info.
Proof.
  intros Hc Hnone. cbn zeta. rewrite page_block_unfold.
  destruct (upsert_fresh_page now v s.1 Hc)
    as (p & Hp & Hid & Hw & _ & _ & _ & Hhas).
  assert (NoDup (Db.page_id
                   <$> Db.pages (Db.insert_or_replace_page now v s.1).1))
    as Hids.
  { destruct consistent_kept as [Hup _].
    destruct (Hup now v s.1 Hc) as [(Hpa & _) _].
    by eapply ascending_NoDup. }
  assert (filter (fun n => Query.exact_match (Scrape.ni_name info) n = true)
                 (Db.nodes (Db.insert_or_replace_page now v s.1).1) = [])
    as Hnodes.
  { unfold Db.insert_or_replace_page. cbn [fst Db.nodes Db.replace_delete].
    destruct (Db.foreign_keys s.1).
    - rewrite filter_fmap_comm by done.
      rewrite (filter_none
                 (fun n => Query.exact_match (Scrape.ni_name info) n = true));
        [done|].
      intros n Hn. by rewrite (Hnone n Hn).
    - apply filter_none. intros n Hn. by rewrite (Hnone n Hn). }
  set (c1 := (Db.insert_or_replace_page now v s.1).1) in *.
  set (pid := (Db.insert_or_replace_page now v s.1).2) in *.
  pose proof (write_children_nodes
                (fun pages nodes => pages = Db.pages c1
                                    /\ nodes = Db.nodes c1)
                pid secs exs (c1, Scrape.count_page s.2)
                (conj eq_refl eq_refl)) as [Hp2 Hn2].
  destruct (write_children_counts pid secs exs _ _ _
              (c1, Scrape.count_page s.2) (conj Hhas eq_refl))
    as ([] & Hok & _).
  unfold mbind, Scrape.try_bind.
  destruct (Scrape.write_children pid secs exs (c1, Scrape.count_page s.2))
    as [[c2 st2] r2].
  cbn [fst snd] in Hp2, Hn2, Hok. subst r2.
  assert (exists c3 row,
    Db.pages c3 = Db.pages c1
    /\ Db.nodes c3 = Db.nodes c1 ++ [row]
    /\ Db.node_name row = Scrape.ni_name info
    /\ Db.node_category row = Scrape.ni_category info
    /\ Db.node_page_id row = Some pid
    /\ (Scrape.write_node (Some info) content_text pid (c2, st2)).1.1 = c3)
    as (c3 & row & Hp3 & Hn3 & Hname & Hcat & Hlink & Hc3).
  { cbn [Scrape.write_node]. unfold mbind, Scrape.try_bind,
      Scrape.execute, Scrape.count, Db.insert_node.
    cbn [fst snd]. unfold Db.has_page in *. rewrite Hp2, Hhas.
    rewrite andb_false_r. cbn [fst snd].
    eexists _, _. split_and!; [| | | | |reflexivity];
      cbn [Db.pages Db.nodes Db.node_name Db.node_category
             Db.node_page_id]; [done|by rewrite Hn2|done..]. }
  rewrite Hc3. clear Hc3.
  assert (first_named (Scrape.ni_name info) row c3) as Hfirst.
  { unfold first_named. rewrite Hn3, filter_app, Hnodes.
    rewrite filter_cons_True, filter_nil; [done|].
    unfold Query.exact_match. rewrite Hname.
    by rewrite bool_decide_true. }
  unfold first_named in Hfirst. exists (Query.detail c3 row).
  split; [unfold Query.get_node_by_name, Query.select_one;
          by rewrite Hfirst|].
  unfold Query.detail.
  cbn [Query.nd_url Query.nd_content Query.nd_node].
  rewrite Hlink. cbn [Query.page_of]. rewrite Hp3.
  assert (p ∈ Db.pages c1) as Hpin.
  { unfold pages_at in Hp.
    assert (p ∈ filter (fun q => Db.page_url q = Db.v_url v) (Db.pages c1))
      as [_ ?]%list_elem_of_filter by (rewrite Hp; left).
    done. }
  rewrite <- Hid. rewrite (filter_unique_key Db.page_id) by done.
  unfold written_as in Hw. destruct Hw as (Hu & _ & _ & Hcontent & _).
  cbn. by rewrite Hu, Hcontent.
Qed.

(** X23. When a node scraper writes a node page into a consistent
    store that has no node of the page's name, [get_node_by_name] for
    that name returns the node of the page, with its category, together
    with the URL and the text of the page that was written. This holds
    of a step of the GitHub scraper and of the node-docs scraper. *)
Theorem first_scrape_links_node (now : string) (s s' : Scrape.state)
        (info : Scrape.node_info) (u content_text : string) :
  consistent s.1 ->
  (forall n, n ∈ Db.nodes s.1 ->
             Query.exact_match (Scrape.ni_name info) n = false) ->
  ((exists r md,
       fetched r md
       /\ Scrape.extract_node_info_github (Scrape.g_path r)
            (github_title r md) = Some info
       /\ Scrape.path_to_docs_url (Scrape.g_path r) = u
       /\ md = content_text
       /\ Scrape.github_step now s r = inr s')
   \/ (exists lib lastmod_map r html,
          web_written lib r html
          /\ Scrape.extract_node_info (Fetch.url r)
               (Html.e_title (extracted_of lib html)) = Some info
          /\ Fetch.url r = u
          /\ Html.e_content_text (extracted_of lib html) = content_text
          /\ Scrape.web_step true Scrape.NODES_SOURCE lib lastmod_map now s r
             = inr s')) ->
  exists d,
    Query.get_node_by_name s'.1 (Scrape.ni_name info)
    = (Some d, [Query.Exact])
    /\ Query.nd_url d = Some u
    /\ Query.nd_content d = Some content_text
    /\ Db.node_name (Query.nd_node d) = Scrape.ni_name info
    /\ Db.node_category (Query.nd_node d) = Scrape.ni_category info.
Proof.
  intros Hc Hnone [(r & md & Hr & Hinfo & <- & <- & Hstep)
                  |(lib & lastmod_map & r & html & Hr & Hinfo & <- & <-
                    & Hstep)].
  - rewrite (github_step_block _ _ _ md Hr), Hinfo in Hstep.
    injection Hstep as <-.
    by apply (block_links_node now (github_values r md)).
  - rewrite (web_step_block _ _ _ _ _ _ _ html Hr), Hinfo in Hstep.
    injection Hstep as <-.
    by apply (block_links_node now
                (Scrape.page_values_of Scrape.NODES_SOURCE lib lastmod_map
                   (Fetch.url r) (extracted_of lib html))).
Qed.

Lemma first_scrape_links_node_witness :
  exists d,
    Query.get_node_by_name stepped_once.1 "Title" = (Some d, [Query.Exact])
    /\ Query.nd_url d
       = Some "https://docs.griptapenodes.com/en/stable/nodes/image/load_image/"
    /\ Query.nd_content d = Some md_example
    /\ Db.node_name (Query.nd_node d) = "Title"
    /\ Db.node_category (Query.nd_node d) = "Image".
Proof.
  apply (first_scrape_links_node "2024-05-01 10:00:00"
           (Db.empty, Scrape.zero) stepped_once
           {| Scrape.ni_name := "Title"; Scrape.ni_display_name := "Title";
              Scrape.ni_category := "Image" |}
           "https://docs.griptapenodes.com/en/stable/nodes/image/load_image/"
           md_example).
  - split; [repeat split; constructor|].
    split_and!; [done|intros ? []%elem_of_nil..|intros ?? []%elem_of_nil].
  - intros n []%elem_of_nil.
  - left. exists node_file, md_example. split_and!.
    + split; reflexivity.
    + vm_compute. reflexivity.
    + vm_compute. reflexivity.
    + reflexivity.
    + vm_compute. reflexivity.
Defined.
